(** * BudgetView: bundle ingestion, lexical analysis and performance scoring

    A shallow embedding of [src/utils/bundleAnalyzer.ts],
    [src/utils/javascriptAnalyzer.ts] and [src/utils/performanceAnalyzer.ts],
    followed by the properties of the specification stated over it, and by
    further properties of the same code and of its callers in the
    components.

    Conventions of the embedding.
    - A JavaScript [number] is a rational ([Q]); the results of a
      division, which may be [NaN] or an infinity, live in [xnum].  The
      sums and products whose rounding reaches a total, a floor or a tie
      are rounded as doubles are ([Num.double]: to 53 significant bits,
      halves to even): the totals of a run, the estimation table, the
      estimated compressed sizes and the scores of the file type.  The
      other expressions are exact.  The exponent of [Num.double] has no
      bound: overflow to an infinity and the subnormal doubles are not
      part of the model.
    - A stats file is read at the types that the interfaces declare: the
      statements on the totals are limited to entries whose [size] and
      [gzipSize] are whole numbers of bytes, falsy or absent
      ([Spec.plain_sizes]).
    - A JavaScript string is a [string]; a character stands for one code
      unit, in the range 0..255.
    - The analyzers are classes with mutable fields; their methods are
      functions from the fields read to the fields written, and the methods
      of [BundleAnalyzer], which may throw after having pushed, run in the
      monad [M] (state plus exception).
    - What the host provides and the repository does not define
      ([JSON.parse], the printing of numbers, [Math.log]) is a field of
      [Platform]; every statement holds for every platform. *)

From Stdlib Require Import Bool Arith List String Ascii ZArith QArith Qround Qabs.
From Stdlib Require Import Qpower.
From Stdlib Require Import Lia Lqa DecimalString Permutation Sorted.
Import ListNotations.

Local Open Scope string_scope.
Local Open Scope list_scope.
Local Open Scope nat_scope.

(** ** Numbers *)

Module Num.

Local Open Scope Q_scope.

(** The value of an arithmetic expression that may divide by zero. *)
Inductive xnum : Type :=
| Fin (q : Q)
| PosInf
| NegInf
| NaN.

Definition Qltb (a b : Q) : bool := negb (Qle_bool b a).
Definition Qgtb (a b : Q) : bool := Qltb b a.

Definition of_nat (n : nat) : Q := inject_Z (Z.of_nat n).
Definition of_N (n : N) : Q := inject_Z (Z.of_N n).

(** [a / b] for finite [a] and [b]; a zero divisor is [+0] wherever the
    sources divide (a sum that starts from the literal [0]). *)
Definition div (a b : Q) : xnum :=
  if Qeq_bool b 0 then
    if Qeq_bool a 0 then NaN
    else if Qltb 0 a then PosInf else NegInf
  else Fin (a / b).

(** [x * c] for a positive finite constant [c]. *)
Definition scale (x : xnum) (c : Q) : xnum :=
  match x with
  | Fin q => Fin (q * c)
  | other => other
  end.

(** [x < c] and [x > c]; every comparison with [NaN] is false. *)
Definition ltb (x : xnum) (c : Q) : bool :=
  match x with
  | Fin q => Qltb q c
  | NegInf => true
  | PosInf | NaN => false
  end.

Definition gtb (x : xnum) (c : Q) : bool :=
  match x with
  | Fin q => Qgtb q c
  | PosInf => true
  | NegInf | NaN => false
  end.

(** [Math.floor] and [Math.round] (halves go up). *)
Definition floor (q : Q) : Z := Qfloor q.
Definition round (q : Q) : Z := Qfloor (q + (1 # 2)).

(** [a || b] on numbers: [0] is falsy. *)
Definition or_else (a : option Q) (b : Q) : Q :=
  match a with
  | Some q => if Qeq_bool q 0 then b else q
  | None => b
  end.

(** *** Doubles

    The value of an arithmetic expression is the double nearest to its
    exact value, halves going to the even significand. *)

(** The integer nearest to [q], halves to the even one. *)
Definition round_even (q : Q) : Z :=
  let f := Qfloor q in
  match Qcompare (q - inject_Z f) (1 # 2) with
  | Lt => f
  | Gt => (f + 1)%Z
  | Eq => if Z.even f then f else (f + 1)%Z
  end.

(** [floor (log2 q)] for a positive [q]. *)
Definition exponent (q : Q) : Z :=
  let l := (Z.log2 (Qnum q) - Z.log2 (Zpos (Qden q)))%Z in
  if Qle_bool (2 ^ l) q then l else (l - 1)%Z.

(** A positive [q] rounded to 53 significant bits. *)
Definition nearest (q : Q) : Q :=
  let ulp := 2 ^ (exponent q - 52) in
  Qred (inject_Z (round_even (q / ulp)) * ulp).

(** The double nearest to [q]. *)
Definition double (q : Q) : Q :=
  match Qnum q with
  | Z0 => 0
  | Zpos _ => nearest q
  | Zneg _ => - nearest (- q)
  end.

(** [a + b] and [a * b] on doubles. *)
Definition add (a b : Q) : Q := double (a + b).
Definition mul (a b : Q) : Q := double (a * b).

(** Half the distance from 1 to the next double: [2^-53]. *)
Definition unit_roundoff : Q := 1 # 9007199254740992.

End Num.

(** ** Strings *)

Module Str.

Definition of_nat (n : nat) : string := NilEmpty.string_of_uint (Nat.to_uint n).

Fixpoint rev_onto (s acc : string) : string :=
  match s with
  | EmptyString => acc
  | String c t => rev_onto t (String c acc)
  end.

Definition rev (s : string) : string := rev_onto s EmptyString.

Fixpoint take (n : nat) (s : string) : string :=
  match n, s with
  | S n', String c t => String c (take n' t)
  | _, _ => EmptyString
  end.

Fixpoint drop (n : nat) (s : string) : string :=
  match n, s with
  | S n', String _ t => drop n' t
  | _, _ => s
  end.

Fixpoint starts_with (p s : string) : bool :=
  match p, s with
  | EmptyString, _ => true
  | String a p', String b s' => Ascii.eqb a b && starts_with p' s'
  | String _ _, EmptyString => false
  end.

(** [s.includes(p)] *)
Fixpoint includes (p s : string) : bool :=
  starts_with p s ||
  match s with
  | EmptyString => false
  | String _ t => includes p t
  end.

(** [s.split(sep)] for a one-character separator: never empty. *)
Fixpoint split_acc (sep : ascii) (s cur : string) : list string :=
  match s with
  | EmptyString => [rev cur]
  | String c t =>
      if Ascii.eqb c sep then rev cur :: split_acc sep t EmptyString
      else split_acc sep t (String c cur)
  end.

Definition split (sep : ascii) (s : string) : list string :=
  split_acc sep s EmptyString.

(** [s.split(sep)] for a separator of several characters. *)
Fixpoint split_str_acc (fuel : nat) (sep s cur : string) : list string :=
  match fuel with
  | O => [rev cur]
  | S fuel' =>
      match s with
      | EmptyString => [rev cur]
      | String c t =>
          if starts_with sep s
          then rev cur :: split_str_acc fuel' sep (drop (length sep) s) EmptyString
          else split_str_acc fuel' sep t (String c cur)
      end
  end.

Definition split_str (sep s : string) : list string :=
  split_str_acc (S (length s)) sep s EmptyString.

(** [parts.join(sep)] *)
Fixpoint join (sep : string) (parts : list string) : string :=
  match parts with
  | [] => EmptyString
  | [p] => p
  | p :: rest => p ++ sep ++ join sep rest
  end.

(** [parts.pop()] on the result of a split. *)
Definition last_part (parts : list string) : string := List.last parts EmptyString.

Definition lower_char (c : ascii) : ascii :=
  let n := nat_of_ascii c in
  if ((65 <=? n) && (n <=? 90)) || ((192 <=? n) && (n <=? 222) && negb (n =? 215))
  then ascii_of_nat (n + 32) else c.

Fixpoint toLowerCase (s : string) : string :=
  match s with
  | EmptyString => EmptyString
  | String c t => String (lower_char c) (toLowerCase t)
  end.

(** White space and line terminators, as [trim] and [\s] see them. *)
Definition is_space (c : ascii) : bool :=
  let n := nat_of_ascii c in
  ((9 <=? n) && (n <=? 13)) || (n =? 32) || (n =? 160).

Fixpoint trim_start (s : string) : string :=
  match s with
  | String c t => if is_space c then trim_start t else s
  | EmptyString => EmptyString
  end.

Definition trim (s : string) : string := rev (trim_start (rev (trim_start s))).

Definition is_empty (s : string) : bool :=
  match s with EmptyString => true | _ => false end.

(** Every character of [s] satisfies [p]. *)
Fixpoint all_chars (p : ascii -> bool) (s : string) : bool :=
  match s with
  | EmptyString => true
  | String c t => p c && all_chars p t
  end.

Fixpoint repeat (s : string) (n : nat) : string :=
  match n with
  | O => EmptyString
  | S n' => s ++ repeat s n'
  end.

End Str.

(** ** Regular expressions

    The fragment of ECMAScript regular expressions that the sources use,
    with the backtracking order of the language: alternatives left to right,
    quantifiers greedy, an iteration of [*] that consumes nothing rejected. *)

Module Re.

Inductive regex : Type :=
| Eps
| Chr (c : ascii)
| Cls (p : ascii -> bool)
| Seq (r1 r2 : regex)
| Alt (r1 r2 : regex)
| Star (r : regex)
| Grp (n : nat) (r : regex).

Definition Plus (r : regex) : regex := Seq r (Star r).
Definition Opt (r : regex) : regex := Alt r Eps.

Fixpoint Lit (s : string) : regex :=
  match s with
  | EmptyString => Eps
  | String c EmptyString => Chr c
  | String c t => Seq (Chr c) (Lit t)
  end.

Fixpoint Cat (rs : list regex) : regex :=
  match rs with
  | [] => Eps
  | [r] => r
  | r :: rest => Seq r (Cat rest)
  end.

(** Character classes. *)
Definition in_range (lo hi : nat) (c : ascii) : bool :=
  let n := nat_of_ascii c in (lo <=? n) && (n <=? hi).

Definition digit (c : ascii) : bool := in_range 48 57 c.
Definition alpha (c : ascii) : bool := in_range 65 90 c || in_range 97 122 c.
Definition word (c : ascii) : bool := alpha c || digit c || Ascii.eqb c "_".
Definition space (c : ascii) : bool := Str.is_space c.

Definition one_of (cs : string) (c : ascii) : bool :=
  existsb (Ascii.eqb c) (list_ascii_of_string cs).
Definition none_of (cs : string) (c : ascii) : bool := negb (one_of cs c).

(** The class of the three quote characters: single, double, backtick. *)
Definition dquote : ascii := ascii_of_nat 34.
Definition quote (c : ascii) : bool := one_of "'`" c || Ascii.eqb c dquote.
Definition not_quote (c : ascii) : bool := negb (quote c).

Definition s_star : regex := Star (Cls space).   (* \s* *)
Definition s_plus : regex := Plus (Cls space).   (* \s+ *)
Definition w_plus : regex := Plus (Cls word).    (* \w+ *)

(** The groups that took part in a match, latest first. *)
Definition caps : Type := list (nat * string).

Fixpoint cap (n : nat) (c : caps) : option string :=
  match c with
  | [] => None
  | (m, s) :: rest => if m =? n then Some s else cap n rest
  end.

Section Matcher.

Context {R : Type}.

(** [mt r s n c k]: match [r] at the head of [s], whose length is [n],
    and hand what is left to the continuation [k]. *)
Fixpoint mt (r : regex) (s : string) (n : nat) (c : caps)
         (k : string -> nat -> caps -> option R) {struct r} : option R :=
  match r with
  | Eps => k s n c
  | Chr a =>
      match s with
      | String b s' => if Ascii.eqb a b then k s' (pred n) c else None
      | EmptyString => None
      end
  | Cls p =>
      match s with
      | String b s' => if p b then k s' (pred n) c else None
      | EmptyString => None
      end
  | Seq r1 r2 => mt r1 s n c (fun s' n' c' => mt r2 s' n' c' k)
  | Alt r1 r2 =>
      match mt r1 s n c k with
      | Some x => Some x
      | None => mt r2 s n c k
      end
  | Star r' =>
      (fix loop (fuel : nat) (s : string) (n : nat) (c : caps) {struct fuel}
         : option R :=
         match fuel with
         | O => k s n c
         | S fuel' =>
             match mt r' s n c
                      (fun s' n' c' =>
                         if n' <? n then loop fuel' s' n' c' else None) with
             | Some x => Some x
             | None => k s n c
             end
         end) n s n c
  | Grp g r' =>
      mt r' s n c (fun s' n' c' => k s' n' ((g, Str.take (n - n') s) :: c'))
  end.

End Matcher.

(** One match: where it starts, the text matched, and the groups. *)
Record rmatch : Type := mkMatch {
  index : nat;
  text : string;
  groups : caps
}.

Definition group (n : nat) (m : rmatch) : option string := cap n (groups m).

(** The match of [r] at the head of [s], if any, and the rest of [s]. *)
Definition match_here (r : regex) (s : string) (n : nat)
  : option (string * nat * caps) :=
  mt r s n [] (fun s' n' c' => Some (s', n', c')).

(** The successive matches of a [/g] expression, as the loop
    [while ((m = re.exec(s)) !== null)] and [s.match(re)] find them: the
    leftmost match from the current position, then on from its end.  None
    of the expressions of the sources matches the empty string; such a
    match would move the position by one. *)
Fixpoint scan (fuel : nat) (r : regex) (s : string) (n pos : nat)
  : list rmatch :=
  match fuel with
  | O => []
  | S fuel' =>
      match match_here r s n with
      | Some (s', n', c) =>
          let len := n - n' in
          mkMatch pos (Str.take len s) c ::
            (if len =? 0 then
               match s with
               | EmptyString => []
               | String _ t => scan fuel' r t (pred n) (S pos)
               end
             else scan fuel' r s' n' (pos + len))
      | None =>
          match s with
          | EmptyString => []
          | String _ t => scan fuel' r t (pred n) (S pos)
          end
      end
  end.

Definition exec_all (r : regex) (s : string) : list rmatch :=
  scan (S (length s)) r s (length s) 0.

(** [s.match(re)] for a [/g] expression: the matched texts, [null] when
    there is none. *)
Definition match_g (r : regex) (s : string) : option (list string) :=
  match exec_all r s with
  | [] => None
  | ms => Some (map text ms)
  end.

(** The number of matches, [0] for [null]. *)
Definition count (r : regex) (s : string) : nat := List.length (exec_all r s).

(** [re.test(s)] for an expression anchored at both ends, [/^r$/]. *)
Definition whole (r : regex) (s : string) : bool :=
  match mt r s (length s) []
           (fun s' _ _ => if Str.is_empty s' then Some tt else None) with
  | Some _ => true
  | None => false
  end.

End Re.

(** ** Shared types ([src/types/index.ts]) *)

Inductive InsightType : Type := warning | info | success | error.
Inductive Impact : Type := low | medium | high.
Inductive Category : Type :=
| cat_dependency
| cat_code_splitting
| cat_tree_shaking
| cat_duplicates
| cat_performance.

Record OptimizationInsight : Type := mkInsight {
  ins_id : string;
  ins_type : InsightType;
  ins_title : string;
  ins_description : string;
  ins_impact : Impact;
  ins_recommendation : string;
  ins_estimatedSavings : option Q;
  ins_category : Category
}.

(** ** The lexical analyzer ([class JavaScriptAnalyzer]) *)

Module JavaScriptAnalyzer.

Import Re.

Inductive FileType : Type := vanilla | bundle | module | unknown.
Inductive FunctionType : Type := function | arrow | method | async.
Inductive ImportType : Type := es6 | commonjs | dynamic.
Inductive ExportType : Type := named | default | all.

Record FunctionInfo : Type := mkFunction {
  fn_name : string;
  fn_type : FunctionType;
  fn_lineStart : nat;
  fn_lineEnd : nat;
  fn_size : nat;
  fn_complexity : nat;
  fn_parameters : list string
}.

(** An entry of [methods] or [properties] is [undefined] ([None]) when the
    line has a single match: see [extractClassMethods]. *)
Record ClassInfo : Type := mkClass {
  cls_name : string;
  cls_lineStart : nat;
  cls_lineEnd : nat;
  cls_size : nat;
  cls_methods : list (option string);
  cls_properties : list (option string);
  cls_extends : option string;
  cls_implements : list string
}.

Record ImportInfo : Type := mkImport {
  imp_source : string;
  imp_type : ImportType;
  imp_items : list string;
  imp_line : nat
}.

Record ExportInfo : Type := mkExport {
  exp_type : ExportType;
  exp_items : list string;
  exp_line : nat
}.

Record LibraryUsage : Type := mkLibrary {
  lib_name : string;
  lib_confidence : Q;
  lib_patterns : list string;
  lib_usageCount : nat
}.

Record CodeMetrics : Type := mkMetrics {
  totalLines : nat;
  codeLines : nat;
  commentLines : nat;
  emptyLines : nat;
  functionCount : nat;
  classCount : nat;
  importCount : nat;
  exportCount : nat;
  averageFunctionSize : Z;
  averageClassSize : Z;
  cyclomaticComplexity : nat
}.

Record JavaScriptAnalysis : Type := mkAnalysis {
  fileType : FileType;
  confidence : Z;
  functions : list FunctionInfo;
  classes : list ClassInfo;
  imports : list ImportInfo;
  exports : list ExportInfo;
  dependencies : list string;
  libraries : list LibraryUsage;
  codeMetrics : CodeMetrics;
  optimizationOpportunities : list string;
  insights : list OptimizationInsight
}.

(** The three private fields of the class. *)
Record t : Type := mkAnalyzer {
  content : string;
  lines : list string;
  analysis : JavaScriptAnalysis
}.

Definition createEmptyAnalysis : JavaScriptAnalysis :=
  mkAnalysis unknown 0 [] [] [] [] [] []
             (mkMetrics 0 0 0 0 0 0 0 0 0 0 0) [] [].

(** [new JavaScriptAnalyzer()] *)
Definition new : t := mkAnalyzer "" [] createEmptyAnalysis.

(** Assignments to the fields of [this.analysis]. *)
Definition update (f : JavaScriptAnalysis -> JavaScriptAnalysis) (this : t) : t :=
  mkAnalyzer (content this) (lines this) (f (analysis this)).

Definition set_fileType (ft : FileType) (c : Z) (a : JavaScriptAnalysis) :=
  mkAnalysis ft c (functions a) (classes a) (imports a) (exports a)
             (dependencies a) (libraries a) (codeMetrics a)
             (optimizationOpportunities a) (insights a).

Definition push_function (f : FunctionInfo) (a : JavaScriptAnalysis) :=
  mkAnalysis (fileType a) (confidence a) (functions a ++ [f]) (classes a)
             (imports a) (exports a) (dependencies a) (libraries a)
             (codeMetrics a) (optimizationOpportunities a) (insights a).

Definition push_class (c : ClassInfo) (a : JavaScriptAnalysis) :=
  mkAnalysis (fileType a) (confidence a) (functions a) (classes a ++ [c])
             (imports a) (exports a) (dependencies a) (libraries a)
             (codeMetrics a) (optimizationOpportunities a) (insights a).

(** [imports.push(i); dependencies.push(i.source)] *)
Definition push_import (i : ImportInfo) (a : JavaScriptAnalysis) :=
  mkAnalysis (fileType a) (confidence a) (functions a) (classes a)
             (imports a ++ [i]) (exports a) (dependencies a ++ [imp_source i])
             (libraries a) (codeMetrics a) (optimizationOpportunities a)
             (insights a).

Definition push_export (e : ExportInfo) (a : JavaScriptAnalysis) :=
  mkAnalysis (fileType a) (confidence a) (functions a) (classes a)
             (imports a) (exports a ++ [e]) (dependencies a) (libraries a)
             (codeMetrics a) (optimizationOpportunities a) (insights a).

Definition push_library (l : LibraryUsage) (a : JavaScriptAnalysis) :=
  mkAnalysis (fileType a) (confidence a) (functions a) (classes a)
             (imports a) (exports a) (dependencies a) (libraries a ++ [l])
             (codeMetrics a) (optimizationOpportunities a) (insights a).

Definition set_codeMetrics (m : CodeMetrics) (a : JavaScriptAnalysis) :=
  mkAnalysis (fileType a) (confidence a) (functions a) (classes a)
             (imports a) (exports a) (dependencies a) (libraries a) m
             (optimizationOpportunities a) (insights a).

Definition set_opportunities (o : list string) (i : list OptimizationInsight)
           (a : JavaScriptAnalysis) :=
  mkAnalysis (fileType a) (confidence a) (functions a) (classes a)
             (imports a) (exports a) (dependencies a) (libraries a)
             (codeMetrics a) o i.

Definition push_opportunity (o : string) (a : JavaScriptAnalysis) :=
  set_opportunities (optimizationOpportunities a ++ [o]) (insights a) a.

(** *** File type *)

(** [patterns.reduce((score, p) => score + (m ? m.length * w : 0), 0)] *)
Definition indicator (w : Q) (patterns : list regex) (this : t) : Q :=
  fold_left
    (fun score pattern =>
       match match_g pattern (content this) with
       | Some matches =>
           Num.add score
                   (Num.mul (Num.of_nat (List.length matches)) (Num.double w))
       | None => Num.add score 0
       end)
    patterns 0%Q.

Definition detectWebpackIndicators : t -> Q :=
  indicator (2 # 10)
    [ Lit "webpack_require";
      Lit "__webpack_require__";
      Lit "webpackJsonp";
      Lit "webpackChunk";
      Lit "__webpack_modules__" ].

Definition detectBundleIndicators : t -> Q :=
  indicator (15 # 100)
    [ Cat [Lit "(function"; s_star; Chr "("];
      Alt (Lit "UMD") (Alt (Lit "AMD") (Lit "CommonJS"));
      Cat [Lit "define"; s_star; Chr "("];
      Lit "module.exports" ].

Definition detectModuleIndicators : t -> Q :=
  indicator (1 # 10)
    [ Cat [Lit "import"; s_plus];
      Cat [Lit "export"; s_plus];
      Cat [Lit "from"; s_plus; Cls quote] ].

Definition detectVanillaIndicators : t -> Q :=
  indicator (5 # 100)
    [ Cat [Lit "function"; s_plus; w_plus; s_star; Chr "("];
      Cat [Lit "const"; s_plus; w_plus; s_star; Chr "="];
      Cat [Lit "let"; s_plus; w_plus; s_star; Chr "="];
      Cat [Lit "var"; s_plus; w_plus; s_star; Chr "="];
      Cat [Lit "class"; s_plus; w_plus] ].

Inductive ScoreKey : Type := k_webpack | k_bundle | k_module | k_vanilla.

Definition Qmax (a b : Q) : Q := if Qle_bool a b then b else a.

Definition detectFileType (this : t) : t :=
  let scores :=
    [ (k_webpack,
       Num.mul (detectWebpackIndicators this) (Num.double (4 # 10)));
      (k_bundle,
       Num.mul (detectBundleIndicators this) (Num.double (3 # 10)));
      (k_module,
       Num.mul (detectModuleIndicators this) (Num.double (2 # 10)));
      (k_vanilla,
       Num.mul (detectVanillaIndicators this) (Num.double (1 # 10))) ] in
  let maxScore :=
    match map snd scores with
    | [] => 0%Q
    | v :: vs => fold_left Qmax vs v
    end in
  let fileType :=
    match find (fun kv => Qeq_bool (snd kv) maxScore) scores with
    | Some (k_webpack, _) => bundle
    | Some (k_bundle, _) => bundle
    | Some (k_module, _) => module
    | Some (k_vanilla, _) => vanilla
    | None => unknown (* no key: the maximum is one of the four scores *)
    end in
  update (set_fileType fileType (Num.round (Num.mul maxScore 100))) this.

(** *** Helper methods *)

Definition nl : ascii := ascii_of_nat 10.

(** [array.slice(from, to)] for [0 <= from]. *)
Definition slice {A : Type} (from to : nat) (l : list A) : list A :=
  firstn (to - from) (skipn from l).

(** [this.content.substring(0, index).split('\n').length] *)
Definition getLineNumber (this : t) (index : nat) : nat :=
  List.length (Str.split nl (Str.take index (content this))).

Definition closes (line : string) : bool :=
  Str.includes "}" line && String.eqb (Str.trim line) "}".

(** The first [i >= from] whose line closes a block. *)
Fixpoint first_closing (rest : list string) (i : nat) : option nat :=
  match rest with
  | [] => None
  | line :: rest' => if closes line then Some i else first_closing rest' (S i)
  end.

Definition getLineEnd (this : t) (startLine : nat) : nat :=
  match first_closing (skipn startLine (lines this)) startLine with
  | Some i => i + 1
  | None => List.length (lines this)
  end.

Definition calculateFunctionSize (this : t) (startLine endLine : nat) : nat :=
  String.length
    (Str.join (String nl "") (slice (startLine - 1) endLine (lines this))).

Definition complexity_patterns : list regex :=
  [ Cat [Lit "if"; s_star; Chr "("];
    Cat [Lit "else"; s_star; Lit "if"; s_star; Chr "("];
    Cat [Lit "for"; s_star; Chr "("];
    Cat [Lit "while"; s_star; Chr "("];
    Cat [Lit "switch"; s_star; Chr "("];
    Cat [Chr "?"; s_star; Plus (Cls (none_of ":")); Chr ":"] ].

Definition calculateComplexity (this : t) (startLine endLine : nat) : nat :=
  let functionContent :=
    Str.join (String nl "") (slice (startLine - 1) endLine (lines this)) in
  fold_left
    (fun complexity pattern =>
       match match_g pattern functionContent with
       | Some matches => complexity + List.length matches
       | None => complexity
       end)
    complexity_patterns 1.

Definition calculateOverallComplexity (this : t) : nat :=
  fold_left (fun total f => total + fn_complexity f)
            (functions (analysis this)) 0.

(** [const m = line.match(p); if (m) out.push(m[1])]: with the [g] flag
    [m] lists the matched texts, so [m[1]] is the second match of the
    line, [undefined] when there is one only. *)
Definition second_matches (patterns : list regex) (classContent : list string)
  : list (option string) :=
  flat_map
    (fun line =>
       flat_map
         (fun pattern =>
            match match_g pattern line with
            | Some m => [nth_error m 1]
            | None => []
            end)
         patterns)
    classContent.

Definition args : regex := Cat [Chr "("; Star (Cls (none_of ")")); Chr ")"].

Definition extractClassMethods : list string -> list (option string) :=
  second_matches
    [ Cat [Grp 1 w_plus; s_star; args; s_star; Chr "{"];
      Cat [Grp 1 w_plus; s_star; Chr "="; s_star; args; s_star; Lit "=>"];
      Cat [Lit "async"; s_plus; Grp 1 w_plus; s_star; args] ].

Definition extractClassProperties : list string -> list (option string) :=
  second_matches
    [ Cat [Grp 1 w_plus; s_star; Cls (one_of ":=")];
      Cat [Lit "get"; s_plus; Grp 1 w_plus; s_star; Lit "()"];
      Cat [Lit "set"; s_plus; Grp 1 w_plus; s_star; Chr "("] ].

(** A group that takes part in every match of its expression. *)
Definition group1 (m : rmatch) : string :=
  match group 1 m with Some s => s | None => "" end.
Definition group2 (m : rmatch) : string :=
  match group 2 m with Some s => s | None => "" end.

(** [text.split(',').map((p) => p.trim())] *)
Definition split_trim (text : string) : list string :=
  map Str.trim (Str.split "," text).

(** *** Functions *)

(** One [while ((match = re.exec(this.content)) !== null)] loop of
    [analyzeFunctions]. *)
Definition function_loop (re : regex) (kind : FunctionType) (this : t) : t :=
  fold_left
    (fun this m =>
       let functionName := group1 m in
       let parameters :=
         filter (fun p => negb (Str.is_empty p)) (split_trim (group2 m)) in
       let lineStart := getLineNumber this (index m) in
       let lineEnd := getLineEnd this lineStart in
       let size := calculateFunctionSize this lineStart lineEnd in
       update
         (push_function
            (mkFunction functionName kind lineStart lineEnd size
                        (calculateComplexity this lineStart lineEnd)
                        parameters))
         this)
    (exec_all re (content this)) this.

Definition params : regex :=
  Cat [Chr "("; Grp 2 (Star (Cls (none_of ")"))); Chr ")"].

Definition functionRegex : regex :=
  Cat [Lit "function"; s_plus; Grp 1 w_plus; s_star; params].
Definition arrowFunctionRegex : regex :=
  Cat [Lit "const"; s_plus; Grp 1 w_plus; s_star; Chr "="; s_star; params;
       s_star; Lit "=>"].
Definition asyncFunctionRegex : regex :=
  Cat [Lit "async"; s_plus; Lit "function"; s_plus; Grp 1 w_plus; s_star;
       params].

Definition analyzeFunctions (this : t) : t :=
  let this := function_loop functionRegex function this in
  let this := function_loop arrowFunctionRegex arrow this in
  function_loop asyncFunctionRegex async this.

(** *** Classes *)

Definition classRegex : regex :=
  Cat [Lit "class"; s_plus; Grp 1 w_plus;
       Opt (Cat [s_plus; Lit "extends"; s_plus; Grp 2 w_plus]);
       Opt (Cat [s_plus; Lit "implements"; s_plus;
                 Grp 3 (Plus (Cls (none_of "{")))]);
       s_star; Chr "{"].

Definition analyzeClasses (this : t) : t :=
  fold_left
    (fun this m =>
       let className := group1 m in
       let extendsClass := group 2 m in
       let implementsInterfaces :=
         match group 3 m with
         | Some text => split_trim text
         | None => []
         end in
       let lineStart := getLineNumber this (index m) in
       let lineEnd := getLineEnd this lineStart in
       let size := calculateFunctionSize this lineStart lineEnd in
       let classContent := slice (lineStart - 1) lineEnd (lines this) in
       let methods := extractClassMethods classContent in
       let properties := extractClassProperties classContent in
       update
         (push_class
            (mkClass className lineStart lineEnd size methods properties
                     extendsClass implementsInterfaces))
         this)
    (exec_all classRegex (content this)) this.
(** *** Imports and exports *)

Definition quoted (g : nat) : regex :=
  Cat [Cls quote; Grp g (Plus (Cls not_quote)); Cls quote].

Definition importRegex : regex :=
  Cat [Lit "import"; s_plus;
       Opt (Cat [Chr "{"; Grp 1 (Plus (Cls (none_of "}"))); Chr "}"; s_plus;
                 Lit "from"; s_plus]);
       quoted 2].
Definition requireRegex : regex :=
  Cat [Lit "require"; s_star; Chr "("; s_star; quoted 1; s_star; Chr ")"].
Definition dynamicImportRegex : regex :=
  Cat [Lit "import"; s_star; Chr "("; s_star; quoted 1; s_star; Chr ")"].

Definition import_loop (re : regex) (entry : t -> rmatch -> ImportInfo)
           (this : t) : t :=
  fold_left (fun this m => update (push_import (entry this m)) this)
            (exec_all re (content this)) this.

Definition analyzeImports (this : t) : t :=
  let this :=
    import_loop importRegex
      (fun this m =>
         let items :=
           match group 1 m with
           | Some text => split_trim text
           | None => ["default"]
           end in
         mkImport (group2 m) es6 items (getLineNumber this (index m)))
      this in
  let this :=
    import_loop requireRegex
      (fun this m =>
         mkImport (group1 m) commonjs ["default"]
                  (getLineNumber this (index m)))
      this in
  import_loop dynamicImportRegex
    (fun this m =>
       mkImport (group1 m) dynamic ["dynamic"] (getLineNumber this (index m)))
    this.

Definition namedExportRegex : regex :=
  Cat [Lit "export"; s_plus;
       Alt (Lit "const")
           (Alt (Lit "let") (Alt (Lit "var") (Alt (Lit "function") (Lit "class"))));
       s_plus; Grp 1 w_plus].
Definition defaultExportRegex : regex :=
  Cat [Lit "export"; s_plus; Lit "default"; s_plus; Grp 1 w_plus].
Definition exportAllRegex : regex :=
  Cat [Lit "export"; s_plus; Chr "*"; s_plus; Lit "from"; s_plus; quoted 1].

Definition export_loop (re : regex) (kind : ExportType) (this : t) : t :=
  fold_left
    (fun this m =>
       update
         (push_export
            (mkExport kind [group1 m] (getLineNumber this (index m))))
         this)
    (exec_all re (content this)) this.

Definition analyzeExports (this : t) : t :=
  let this := export_loop namedExportRegex named this in
  let this := export_loop defaultExportRegex default this in
  export_loop exportAllRegex all this.

(** *** Libraries *)

(** A pattern of the table with its [source] text. *)
Definition libraryPatterns : list (string * list (string * regex) * Q) :=
  [ ("jQuery",
     [ ("\$\(", Lit "$(");
       ("jQuery\(", Lit "jQuery(") ], 9 # 10);
    ("Lodash",
     [ ("_\.[a-zA-Z]+", Cat [Lit "_."; Plus (Cls alpha)]);
       ("lodash", Lit "lodash") ], 8 # 10);
    ("Moment.js",
     [ ("moment\(", Lit "moment(");
       ("moment\.", Lit "moment.") ], 9 # 10);
    ("Axios",
     [ ("axios\.", Lit "axios.");
       ("axios\(", Lit "axios(") ], 8 # 10);
    ("React",
     [ ("React\.", Lit "React.");
       ("useState", Lit "useState");
       ("useEffect", Lit "useEffect") ], 9 # 10);
    ("Vue",
     [ ("Vue\.", Lit "Vue.");
       ("createApp", Lit "createApp");
       ("ref\(", Lit "ref(") ], 9 # 10);
    ("Angular",
     [ ("angular\.", Lit "angular.");
       ("@Component", Lit "@Component");
       ("@Injectable", Lit "@Injectable") ], 9 # 10);
    ("Express",
     [ ("express\(", Lit "express(");
       ("app\.", Lit "app.");
       ("router\.", Lit "router.") ], 8 # 10);
    ("Node.js",
     [ ("require\(", Lit "require(");
       ("module\.exports", Lit "module.exports");
       ("process\.", Lit "process.") ], 7 # 10) ]%Q.

Definition detectLibraries (this : t) : t :=
  fold_left
    (fun this library =>
       let '(name, patterns, confidence) := library in
       let usageCount :=
         fold_left
           (fun usageCount pattern =>
              match match_g (snd pattern) (content this) with
              | Some matches => usageCount + List.length matches
              | None => usageCount
              end)
           patterns 0 in
       if 0 <? usageCount
       then update
              (push_library
                 (mkLibrary name confidence (map fst patterns) usageCount))
              this
       else this)
    libraryPatterns this.

(** *** Metrics and opportunities *)

Definition is_comment (line : string) : bool :=
  Str.starts_with "//" (Str.trim line) || Str.starts_with "/*" (Str.trim line).

(** [Math.round(sizes.reduce((sum, x) => sum + x, 0) / sizes.length)],
    [0] for an empty list. *)
Definition average (sizes : list nat) : Z :=
  let total := fold_left (fun sum x => sum + x) sizes 0 in
  if 0 <? List.length sizes
  then Num.round (Num.of_nat total / Num.of_nat (List.length sizes))%Q
  else 0%Z.

Definition calculateMetrics (this : t) : t :=
  let a := analysis this in
  update
    (set_codeMetrics
       (mkMetrics
          (List.length (lines this))
          (List.length
             (filter (fun line => negb (Str.is_empty (Str.trim line))
                                  && negb (Str.starts_with "//" (Str.trim line))
                                  && negb (Str.starts_with "/*" (Str.trim line)))
                     (lines this)))
          (List.length (filter is_comment (lines this)))
          (List.length
             (filter (fun line => Str.is_empty (Str.trim line)) (lines this)))
          (List.length (functions a))
          (List.length (classes a))
          (List.length (imports a))
          (List.length (exports a))
          (average (map fn_size (functions a)))
          (average (map cls_size (classes a)))
          (calculateOverallComplexity this)))
    this.

Definition generateInsights (this : t) : t :=
  let this := update (set_opportunities [] []) this in
  let largeFunctions :=
    filter (fun f => 50 <? fn_size f) (functions (analysis this)) in
  let this :=
    if 0 <? List.length largeFunctions
    then update
           (push_opportunity
              (Str.of_nat (List.length largeFunctions)
               ++ " large functions detected. Consider breaking them down for better maintainability."))
           this
    else this in
  let this :=
    if 0 <? List.length (classes (analysis this)) then
      let largeClasses :=
        filter (fun c => 100 <? cls_size c) (classes (analysis this)) in
      if 0 <? List.length largeClasses
      then update
             (push_opportunity
                (Str.of_nat (List.length largeClasses)
                 ++ " large classes detected. Consider splitting into smaller, focused classes."))
             this
      else this
    else this in
  let this :=
    if 10 <? List.length (imports (analysis this))
    then update
           (push_opportunity
              "High number of imports detected. Consider bundling or using barrel exports.")
           this
    else this in
  let this :=
    fold_left
      (fun this library =>
         if 20 <? lib_usageCount library
         then update
                (push_opportunity
                   ("Heavy usage of " ++ lib_name library
                    ++ " detected. Consider code splitting or lazy loading."))
                this
         else this)
      (libraries (analysis this)) this in
  if 10 <? cyclomaticComplexity (codeMetrics (analysis this))
  then update
         (push_opportunity
            "High cyclomatic complexity detected. Consider simplifying control flow.")
         this
  else this.

(** *** The public method

    [analyzeFile] overwrites the three fields before it reads any of them
    and returns the record it has just built. *)
Definition analyzeFile (this : t) (text : string) : t * JavaScriptAnalysis :=
  let this := mkAnalyzer text (lines this) (analysis this) in
  let this := mkAnalyzer (content this) (Str.split nl text) (analysis this) in
  let this := mkAnalyzer (content this) (lines this) createEmptyAnalysis in
  let this := detectFileType this in
  let this := analyzeFunctions this in
  let this := analyzeClasses this in
  let this := analyzeImports this in
  let this := analyzeExports this in
  let this := detectLibraries this in
  let this := calculateMetrics this in
  let this := generateInsights this in
  (this, analysis this).

(** The analyzer after a series of calls of [analyzeFile]. *)
Definition after_calls (history : list string) : t :=
  fold_left (fun this text => fst (analyzeFile this text)) history new.

End JavaScriptAnalyzer.

(** ** JSON values and the host *)

Module Json.

(** What [JSON.parse] returns. *)
#[warnings="-register-all"] Inductive value : Type :=
| Null
| Bool (b : bool)
| Number (q : Q)
| Str (s : string)
| Array (items : list value)
| Object (fields : list (string * value)).

Fixpoint assoc (key : string) (fields : list (string * value)) : option value :=
  match fields with
  | [] => None
  | (k, v) :: rest => if String.eqb k key then Some v else assoc key rest
  end.

(** [v.key] for one of the keys the sources read ([modules], [chunks],
    [sources], [id], [name], [identifier], [size], [gzipSize],
    [dependencies], [external], [entry]): [None] when reading throws a
    [TypeError] ([v] is [null]), [Some None] for [undefined]. *)
Definition get (key : string) (v : value) : option (option value) :=
  match v with
  | Null => None
  | Object fields => Some (assoc key fields)
  | _ => Some None
  end.

(** The truth value of [v] in a condition or on the left of [||]. *)
Definition truthy (v : option value) : bool :=
  match v with
  | None | Some Null => false
  | Some (Bool b) => b
  | Some (Number q) => negb (Qeq_bool q 0)
  | Some (Str s) => negb (Str.is_empty s)
  | Some (Array _) | Some (Object _) => true
  end.

End Json.

(** The built-ins the analyzers call and the repository does not define. *)
Record Platform : Type := mkPlatform {
  (** [JSON.parse(text)], [None] for a [SyntaxError] *)
  JSON_parse : string -> option Json.value;
  (** the text of a value that is not a string inside a template literal *)
  ToString : Json.value -> string;
  (** [x.toFixed(digits)] *)
  toFixed : Num.xnum -> nat -> string;
  (** [parseFloat(text) + ''] *)
  parseFloat_text : string -> string;
  (** [Math.floor(Math.log(x) / Math.log(1024))], [None] for [NaN] *)
  log1024_floor : Q -> option Z;
  (** [new Date().toISOString()] at the end of a run *)
  Date_now : string
}.

(** ** Bundle data ([src/types/index.ts]) *)

Inductive ModuleType : Type := t_js | t_css | t_json | t_map | t_other.

Record BundleModule : Type := mkModule {
  mod_id : string;
  mod_name : string;
  mod_size : Q;
  mod_gzipSize : option Q;
  mod_path : list string;
  mod_dependencies : list string;
  mod_isExternal : bool;
  mod_type : ModuleType;
  mod_javascriptAnalysis : option JavaScriptAnalyzer.JavaScriptAnalysis
}.

Record ChunkData : Type := mkChunk {
  chunk_id : string;
  chunk_name : string;
  chunk_size : Q;
  chunk_gzipSize : Num.xnum;
  chunk_modules : list string;
  chunk_entry : bool
}.

Record Metadata : Type := mkMetadata {
  analyzedAt : string;
  fileCount : nat;
  fileTypes : list string
}.

Record BundleData : Type := mkBundleData {
  totalSize : Q;
  totalGzipSize : Q;
  modules : list BundleModule;
  chunks : list ChunkData;
  insights : list OptimizationInsight;
  metadata : Metadata
}.

(** A [File] of the host: its name, its size in bytes, and what [text()]
    resolves to ([None] when the read is rejected). *)
Record File : Type := mkFile {
  file_name : string;
  file_size : N;
  file_text : option string
}.

(** ** The ingestion engine ([class BundleAnalyzer]) *)

Module BundleAnalyzer.

(** The three private fields of the class. *)
Record t : Type := mkState {
  st_modules : list BundleModule;
  st_chunks : list ChunkData;
  st_insights : list OptimizationInsight
}.

(** [new BundleAnalyzer()] *)
Definition new : t := mkState [] [] [].

(** *** Methods that may throw

    A method either returns or throws; in both cases it leaves the fields
    as they were at that point. *)

Inductive result (A : Type) : Type :=
| Returned (a : A)
| Thrown.

Arguments Returned {A} a.
Arguments Thrown {A}.

Definition M (A : Type) : Type := t -> result A * t.

Definition ret {A : Type} (a : A) : M A := fun this => (Returned a, this).

Definition throw {A : Type} : M A := fun this => (Thrown, this).

Definition bind {A B : Type} (m : M A) (f : A -> M B) : M B :=
  fun this =>
    match m this with
    | (Returned a, this') => f a this'
    | (Thrown, this') => (Thrown, this')
    end.

Notation "x <- m ;; k" := (bind m (fun x => k))
  (at level 61, m at next level, right associativity).
Notation "m ;;; k" := (bind m (fun _ => k))
  (at level 61, right associativity).

(** [try { body } catch (error) { handler }] *)
Definition try_catch {A : Type} (body : M A) (handler : M A) : M A :=
  fun this =>
    match body this with
    | (Returned a, this') => (Returned a, this')
    | (Thrown, this') => handler this'
    end.

(** The value of an expression that throws when it has none. *)
Definition must {A : Type} (o : option A) : M A :=
  match o with
  | Some a => ret a
  | None => throw
  end.

(** [items.forEach((item, index) => body)]: the first throw ends the loop. *)
Fixpoint forEach_from {A : Type} (index : nat) (items : list A)
         (body : A -> nat -> M unit) : M unit :=
  match items with
  | [] => ret tt
  | item :: rest => body item index ;;; forEach_from (S index) rest body
  end.

Definition forEach {A : Type} (items : list A) (body : A -> nat -> M unit)
  : M unit :=
  forEach_from 0 items body.

(** [for (const item of items) { await body(item) }] *)
Fixpoint for_of {A : Type} (items : list A) (body : A -> M unit) : M unit :=
  match items with
  | [] => ret tt
  | item :: rest => body item ;;; for_of rest body
  end.

Definition push_modules (ms : list BundleModule) : M unit :=
  fun this =>
    (Returned tt,
     mkState (st_modules this ++ ms) (st_chunks this) (st_insights this)).

Definition push_chunk (c : ChunkData) : M unit :=
  fun this =>
    (Returned tt,
     mkState (st_modules this) (st_chunks this ++ [c]) (st_insights this)).

(** [this.insights.push(insight)] *)
Definition push_insight (i : OptimizationInsight) (this : t) : t :=
  mkState (st_modules this) (st_chunks this) (st_insights this ++ [i]).

(** [await file.text()] *)
Definition text (file : File) : M string := must (file_text file).

(** [v.key] *)
Definition prop (key : string) (v : Json.value) : M (option Json.value) :=
  must (Json.get key v).

(** [name.split('.').pop()] *)
Definition extension_of (name : string) : string :=
  Str.last_part (Str.split "." name).

Section WithPlatform.

Variable P : Platform.

(** *** Reading a stats entry

    The entries of a stats file are typed [any]; a field of [BundleModule]
    or [ChunkData] filled from one is read at the type the interface
    declares for it, and a JSON value of another type counts as absent.
    A [size] or [gzipSize] that is truthy and not a number, which the code
    keeps as it is and then adds as a string, is outside the embedding:
    the statements on the totals are limited to the files of
    [Spec.plain_sizes]. *)

(** The text of [v] where a string is expected. *)
Definition as_string (v : Json.value) : string :=
  match v with
  | Json.Str s => s
  | other => ToString P other
  end.

(** [v || fallback] where a string is expected. *)
Definition string_or (v : option Json.value) (fallback : string) : string :=
  match v with
  | Some x => if Json.truthy v then as_string x else fallback
  | None => fallback
  end.

(** [v] where a number may be present. *)
Definition as_number (v : option Json.value) : option Q :=
  match v with
  | Some (Json.Number q) => Some q
  | _ => None
  end.

(** [v || []] where a list of strings is expected. *)
Definition strings_or_empty (v : option Json.value) : list string :=
  match v with
  | Some (Json.Array items) => map as_string items
  | _ => []
  end.

(** [v.forEach]: only an array has it. *)
Definition as_array (v : option Json.value) : M (list Json.value) :=
  match v with
  | Some (Json.Array items) => ret items
  | _ => throw
  end.

(** *** Paths and file types *)

Definition getFileType_ext (extension : string) : ModuleType :=
  if String.eqb extension "js" || String.eqb extension "jsx"
     || String.eqb extension "ts" || String.eqb extension "tsx" then t_js
  else if String.eqb extension "css" || String.eqb extension "scss"
          || String.eqb extension "sass" || String.eqb extension "less" then t_css
  else if String.eqb extension "json" then t_json
  else if String.eqb extension "map" then t_map
  else t_other.

(** [getFileType] on a string. *)
Definition getFileType (filename : string) : ModuleType :=
  if Str.is_empty filename then t_other
  else getFileType_ext (Str.toLowerCase (extension_of filename)).

(** [parseModulePath] on a string. *)
Definition parseModulePath (moduleName : string) : list string :=
  if Str.is_empty moduleName then ["unknown"]
  else
    let parts := Str.split_str "node_modules/" moduleName in
    if Str.includes "node_modules" moduleName && (1 <? List.length parts)
    then "node_modules" :: Str.split "/" (nth 1 parts "")
    else Str.split "/" moduleName.

(** [webpackModule.name || webpackModule.identifier], as the two methods
    above receive it: a falsy value takes their first branch, a string the
    rest, and any other value has no [split] to call. *)
Definition name_argument (v : option Json.value) : M string :=
  if Json.truthy v then
    match v with
    | Some (Json.Str s) => ret s
    | _ => throw
    end
  else ret "".

Definition estimateSourceSize (source : string) : Q :=
  (Num.of_nat (String.length source) * 2)%Q.

(** *** Compiled bundles *)

Definition require_call (callee : string) (argument : Re.regex) : Re.regex :=
  Re.Cat [Re.Lit callee; Re.Chr "("; argument; Re.Chr ")"].

Definition string_argument : Re.regex :=
  Re.Cat [Re.Cls Re.quote; Re.Grp 1 (Re.Plus (Re.Cls Re.not_quote));
          Re.Cls Re.quote].

Definition number_argument : Re.regex := Re.Grp 1 (Re.Plus (Re.Cls Re.digit)).

Definition modulePatterns : list Re.regex :=
  [ require_call "webpack_require" string_argument;
    require_call "__webpack_require__" string_argument;
    require_call "webpack_require" number_argument;
    require_call "__webpack_require__" number_argument ].

(** [set.add(x)] on a [Set] kept in insertion order. *)
Definition set_add (x : string) (set : list string) : list string :=
  if existsb (String.eqb x) set then set else set ++ [x].

(** The names collected by the loop over [modulePatterns]. *)
Definition collect_moduleNames (content : string) : list string :=
  fold_left
    (fun moduleNames pattern =>
       fold_left
         (fun moduleNames m =>
            match Re.group 1 m with
            | Some name =>
                if negb (Str.is_empty name)
                   && negb (Re.whole (Re.Plus (Re.Cls Re.digit)) name)
                then set_add name moduleNames
                else moduleNames
            | None => moduleNames
            end)
         (Re.exec_all pattern content) moduleNames)
    modulePatterns [].

Definition moduleTypes : list (string * ModuleType * Q) :=
  [ ("React Core", t_js, Num.double (15 # 100));
    ("React DOM", t_js, Num.double (12 # 100));
    ("Application Code", t_js, Num.double (25 # 100));
    ("Dependencies", t_js, Num.double (35 # 100));
    ("Runtime", t_js, Num.double (13 # 100)) ].

Fixpoint mapi_from {A B : Type} (index : nat) (f : A -> nat -> B) (l : list A)
  : list B :=
  match l with
  | [] => []
  | x :: rest => f x index :: mapi_from (S index) f rest
  end.

(** [items.forEach((item, index) => out.push(f(item, index)))] *)
Definition mapi {A B : Type} (f : A -> nat -> B) (l : list A) : list B :=
  mapi_from 0 f l.

Definition estimateBundleModules (content : string) : list BundleModule :=
  let totalSize := Num.of_nat (String.length content) in
  mapi
    (fun moduleType index =>
       let '(name, type, sizeRatio) := moduleType in
       mkModule ("estimated-" ++ Str.of_nat index)
                name
                (inject_Z (Num.floor (Num.mul totalSize sizeRatio)))
                None
                [name]
                []
                false
                type
                None)
    moduleTypes.

Definition parseCompiledWebpackBundle (content filename : string) : M unit :=
  let moduleNames := collect_moduleNames content in
  if 0 <? List.length moduleNames then
    let moduleSize :=
      Num.floor (Num.of_nat (String.length content)
                 / Num.of_nat (List.length moduleNames))%Q in
    let modules :=
      mapi
        (fun moduleName index =>
           mkModule ("compiled-" ++ Str.of_nat index)
                    moduleName
                    (inject_Z moduleSize)
                    None
                    (Str.split "/" moduleName)
                    []
                    false
                    (getFileType moduleName)
                    None)
        moduleNames in
    let chunkData :=
      mkChunk "main-bundle"
              filename
              (Num.of_nat (String.length content))
              (Num.Fin
                 (inject_Z
                    (Num.floor
                       (Num.mul (Num.of_nat (String.length content))
                                (Num.double (3 # 10))))))
              (map mod_id modules)
              true in
    push_chunk chunkData ;;;
    push_modules modules
  else
    let estimatedModules := estimateBundleModules content in
    push_modules estimatedModules.

Definition tryParseAsWebpackBundle (file : File) : M bool :=
  try_catch
    (content <- text file ;;
     let hasWebpackRequire := Str.includes "webpack_require" content in
     let hasWebpackRequireUnderscore :=
       Str.includes "__webpack_require__" content in
     let hasWebpackJsonp := Str.includes "webpackJsonp" content in
     let hasWebpackChunk := Str.includes "webpackChunk" content in
     if hasWebpackRequire || hasWebpackRequireUnderscore || hasWebpackJsonp
        || hasWebpackChunk
     then parseCompiledWebpackBundle content (file_name file) ;;; ret true
     else ret false)
    (ret false).

(** *** Source maps, plain JavaScript, stats files *)

Definition processSourceMap (file : File) : M unit :=
  content <- text file ;;
  data <- must (JSON_parse P content) ;;
  sources <- prop "sources" data ;;
  if Json.truthy sources then
    items <- as_array sources ;;
    forEach items
      (fun source index =>
         match source with
         | Json.Str source =>
             push_modules
               [ mkModule ("sourcemap-" ++ Str.of_nat index)
                          source
                          (estimateSourceSize source)
                          None
                          (Str.split "/" source)
                          []
                          false
                          (getFileType source)
                          None ]
         | _ => throw (* no [length] of [null], no [split] otherwise *)
         end)
  else ret tt.

Definition processJavaScriptFile (file : File) : M unit :=
  content <- text file ;;
  let jsAnalyzer := JavaScriptAnalyzer.new in
  let jsAnalysis := snd (JavaScriptAnalyzer.analyzeFile jsAnalyzer content) in
  push_modules
    [ mkModule ("js-" ++ file_name file)
               (file_name file)
               (Num.of_N (file_size file))
               None
               [file_name file]
               (JavaScriptAnalyzer.dependencies jsAnalysis)
               false
               t_js
               (Some jsAnalysis) ].

Definition processWebpackModules (webpackModules : option Json.value) : M unit :=
  items <- as_array webpackModules ;;
  forEach items
    (fun webpackModule index =>
       id <- prop "id" webpackModule ;;
       name <- prop "name" webpackModule ;;
       identifier <- prop "identifier" webpackModule ;;
       size <- prop "size" webpackModule ;;
       gzipSize <- prop "gzipSize" webpackModule ;;
       dependencies <- prop "dependencies" webpackModule ;;
       external <- prop "external" webpackModule ;;
       let name_or_identifier := if Json.truthy name then name else identifier in
       argument <- name_argument name_or_identifier ;;
       push_modules
         [ mkModule (string_or id ("module-" ++ Str.of_nat index))
                    (string_or name_or_identifier ("Module " ++ Str.of_nat index))
                    (Num.or_else (as_number size) 0)
                    (as_number gzipSize)
                    (parseModulePath argument)
                    (strings_or_empty dependencies)
                    (Json.truthy external)
                    (getFileType argument)
                    None ]).

(** [chunk.size * 0.3]: [null * 0.3] is [0], [undefined * 0.3] is [NaN]. *)
Definition estimated_gzip (size : option Json.value) : Num.xnum :=
  match size with
  | Some (Json.Number s) => Num.Fin (Num.mul s (Num.double (3 # 10)))
  | Some Json.Null => Num.Fin 0
  | _ => Num.NaN
  end.

(** [chunk.gzipSize || chunk.size * 0.3] *)
Definition chunk_gzip (gzipSize size : option Json.value) : Num.xnum :=
  match as_number gzipSize with
  | Some g => if Qeq_bool g 0 then estimated_gzip size else Num.Fin g
  | None => estimated_gzip size
  end.

Definition processWebpackChunks (webpackChunks : option Json.value) : M unit :=
  items <- as_array webpackChunks ;;
  forEach items
    (fun chunk index =>
       id <- prop "id" chunk ;;
       name <- prop "name" chunk ;;
       size <- prop "size" chunk ;;
       gzipSize <- prop "gzipSize" chunk ;;
       modules <- prop "modules" chunk ;;
       entry <- prop "entry" chunk ;;
       push_chunk
         (mkChunk (string_or id ("chunk-" ++ Str.of_nat index))
                  (string_or name ("Chunk " ++ Str.of_nat index))
                  (Num.or_else (as_number size) 0)
                  (chunk_gzip gzipSize size)
                  (strings_or_empty modules)
                  (Json.truthy entry))).

Definition processWebpackBundle (file : File) : M unit :=
  content <- text file ;;
  data <- must (JSON_parse P content) ;;
  modules <- prop "modules" data ;;
  if Json.truthy modules then processWebpackModules modules
  else
    chunks <- prop "chunks" data ;;
    if Json.truthy chunks then processWebpackChunks chunks else ret tt.

(** The body of the [try] block of [processFile]. *)
Definition processFile_body (file : File) : M unit :=
  let extension := Str.toLowerCase (extension_of (file_name file)) in
  if String.eqb extension "json" then processWebpackBundle file
  else if String.eqb extension "map" then processSourceMap file
  else if String.eqb extension "js" then
    parsed <- tryParseAsWebpackBundle file ;;
    if negb parsed then processJavaScriptFile file else ret tt
  else ret tt.

(** The [catch] block only logs. *)
Definition processFile (file : File) : M unit :=
  try_catch (processFile_body file) (ret tt).

(** *** Insights *)

Definition KB : Q := 1024.

Definition sizes : list string := ["B"; "KB"; "MB"; "GB"].

Definition formatSize (bytes : Q) : string :=
  if Qeq_bool bytes 0 then "0 B"
  else
    match log1024_floor P bytes with
    | Some i =>
        parseFloat_text P (toFixed P (Num.Fin (bytes / Qpower KB i)) 2)
        ++ " "
        ++ (if (i <? 0)%Z then "undefined"
            else nth (Z.to_nat i) sizes "undefined")
    | None => parseFloat_text P (toFixed P Num.NaN 2) ++ " undefined"
    end.

Definition getLargeDependencyRecommendation (module : BundleModule) : string :=
  let name := Str.toLowerCase (mod_name module) in
  if Str.includes "moment" name then
    "Consider replacing moment.js with dayjs or date-fns for smaller bundle size."
  else if Str.includes "lodash" name then
    "Use lodash-es or import specific functions instead of the full library."
  else if Str.includes "jquery" name then
    "Consider using native DOM APIs or lighter alternatives like zepto.js."
  else
    "Analyze if this dependency is necessary or if there are lighter alternatives available.".

(** [this.modules.reduce((sum, m) => sum + m.size, 0)] *)
Definition sum_size (ms : list BundleModule) : Q :=
  fold_left (fun sum m => Num.add sum (mod_size m)) ms 0%Q.

(** [this.modules.reduce((sum, m) => sum + (m.gzipSize || m.size * 0.3), 0)] *)
Definition sum_gzipSize (ms : list BundleModule) : Q :=
  fold_left
    (fun sum m =>
       Num.add sum
               (Num.or_else (mod_gzipSize m)
                            (Num.mul (mod_size m) (Num.double (3 # 10)))))
    ms 0%Q.

(** [((totalSize - totalGzipSize) / totalSize) * 100] *)
Definition compression_percent (totalSize totalGzipSize : Q) : Num.xnum :=
  Num.scale (Num.div (totalSize - totalGzipSize) totalSize) 100.

Definition type_eqb (a b : ModuleType) : bool :=
  match a, b with
  | t_js, t_js | t_css, t_css | t_json, t_json | t_map, t_map
  | t_other, t_other => true
  | _, _ => false
  end.

(** [m.type === ty] *)
Definition is_type (ty : ModuleType) (m : BundleModule) : bool :=
  type_eqb (mod_type m) ty.

Definition type_name (ty : ModuleType) : string :=
  match ty with
  | t_js => "js"
  | t_css => "css"
  | t_json => "json"
  | t_map => "map"
  | t_other => "other"
  end.

(** [items.sort((a, b) => b.size - a.size)]: by decreasing size, equal
    sizes in their order of arrival. *)
Fixpoint insert_desc {A : Type} (size : A -> Q) (x : A) (sorted : list A)
  : list A :=
  match sorted with
  | [] => [x]
  | y :: rest =>
      if Num.Qltb (size x) (size y) then y :: insert_desc size x rest
      else x :: sorted
  end.

Definition sort_desc {A : Type} (size : A -> Q) (items : list A) : list A :=
  fold_right (insert_desc size) [] items.

Definition generatePerformanceInsights (totalSize totalGzipSize : Q) (this : t)
  : t :=
  let fast3GTime := (totalSize * 8 / ((16 # 10) * 1024 * 1024))%Q in
  let this :=
    if Num.Qgtb fast3GTime 3 then
      push_insight
        (mkInsight "slow-3g-load" warning "Slow Loading on Mobile Networks"
           ("Your bundle takes " ++ toFixed P (Num.Fin fast3GTime) 1
            ++ "s to load on fast 3G networks, which may impact mobile user experience.")
           high
           "Implement aggressive code splitting and lazy loading to improve mobile performance."
           None cat_performance)
        this
    else this in
  let compressionRatio := compression_percent totalSize totalGzipSize in
  let this :=
    if Num.ltb compressionRatio 30 then
      push_insight
        (mkInsight "poor-compression" warning "Poor Compression Efficiency"
           ("Your bundle only compresses by " ++ toFixed P compressionRatio 1
            ++ "%, which is below the typical 30-70% range.")
           medium
           "Review your code for opportunities to improve compression (remove comments, minify, use shorter variable names)."
           None cat_performance)
        this
    else this in
  if Num.Qgtb totalSize (1024 * 1024) then
    push_insight
      (mkInsight "large-bundle-performance" warning "Large Bundle Size"
         ("Your total bundle size is " ++ formatSize totalSize
          ++ ", which may impact loading performance.")
         high
         "Consider implementing code splitting, lazy loading, and analyzing dependencies for optimization opportunities."
         None cat_performance)
      this
  else if Num.Qgtb totalSize (500 * 1024) then
    push_insight
      (mkInsight "medium-bundle-performance" info "Moderate Bundle Size"
         ("Your bundle size is " ++ formatSize totalSize
          ++ ", which is acceptable but could be optimized further.")
         medium
         "Implement code splitting for non-critical features to improve initial load time."
         None cat_performance)
      this
  else
    push_insight
      (mkInsight "good-bundle-size" success "Good Bundle Size"
         ("Your bundle size is " ++ formatSize totalSize
          ++ ", which is excellent for performance.")
         low
         "Maintain this size and focus on other optimization areas like caching and delivery."
         None cat_performance)
      this.

(** [new Set(items)], in insertion order. *)
Definition distinct_types (items : list ModuleType) : list ModuleType :=
  fold_left
    (fun set x => if existsb (type_eqb x) set then set else set ++ [x])
    items [].

Definition generateBasicInsights (this : t) : t :=
  let totalSize := sum_size (st_modules this) in
  let totalGzipSize := sum_gzipSize (st_modules this) in
  let compressionRatio := compression_percent totalSize totalGzipSize in
  let jsModules := filter (is_type t_js) (st_modules this) in
  let cssModules := filter (is_type t_css) (st_modules this) in
  let otherModules :=
    filter (fun m => negb (is_type t_js m || is_type t_css m)) (st_modules this) in
  let this :=
    if 0 <? List.length jsModules then
      push_insight
        (mkInsight "bundle-composition" info "Bundle Composition Analysis"
           ("Your bundle contains " ++ Str.of_nat (List.length jsModules)
            ++ " JavaScript modules, " ++ Str.of_nat (List.length cssModules)
            ++ " CSS modules, and " ++ Str.of_nat (List.length otherModules)
            ++ " other assets.")
           low
           "Consider code splitting JavaScript modules and optimizing CSS delivery for better performance."
           None cat_performance)
        this
    else this in
  let this :=
    if Num.gtb compressionRatio 0 then
      push_insight
        (mkInsight "compression-efficiency" success "Good Compression Ratio"
           ("Your bundle compresses well with gzip, achieving "
            ++ toFixed P compressionRatio 1 ++ "% size reduction.")
           low
           "Ensure your server is configured to serve gzipped content for optimal performance."
           None cat_performance)
        this
    else this in
  let this :=
    if 10 <? List.length (st_modules this) then
      push_insight
        (mkInsight "module-count" info "Modular Bundle Structure"
           ("Your bundle is well-modularized with "
            ++ Str.of_nat (List.length (st_modules this))
            ++ " individual modules.")
           low
           "This modular structure enables better caching and code splitting opportunities."
           None cat_code_splitting)
        this
    else if List.length (st_modules this) <=? 5 then
      push_insight
        (mkInsight "module-count-low" warning "Limited Module Separation"
           ("Your bundle has only " ++ Str.of_nat (List.length (st_modules this))
            ++ " modules, which may limit caching benefits.")
           medium
           "Consider breaking down large modules into smaller, more focused pieces for better caching and maintainability."
           None cat_code_splitting)
        this
    else this in
  let this := generatePerformanceInsights totalSize totalGzipSize this in
  let fileTypes := distinct_types (map mod_type (st_modules this)) in
  if 2 <? List.length fileTypes then
    push_insight
      (mkInsight "file-type-diversity" info "Diverse Asset Types"
         ("Your bundle includes " ++ Str.of_nat (List.length fileTypes)
          ++ " different file types: "
          ++ Str.join ", " (map type_name fileTypes) ++ ".")
         low
         "Ensure each asset type is optimized appropriately (minification for JS/CSS, compression for images, etc.)."
         None cat_performance)
      this
  else this.

Definition analyzeLargeDependencies (this : t) : t :=
  let largeModules :=
    sort_desc mod_size
      (filter (fun m => Num.Qgtb (mod_size m) (100 * 1024)) (st_modules this)) in
  fold_left
    (fun this module =>
       push_insight
         (mkInsight ("large-dep-" ++ mod_id module) warning
            "Large Dependency Detected"
            ("The module " ++ String Re.dquote (mod_name module)
             ++ String Re.dquote " is " ++ formatSize (mod_size module)
             ++ " in size, which may impact bundle performance.")
            (if Num.Qgtb (mod_size module) (500 * 1024) then high else medium)
            (getLargeDependencyRecommendation module)
            (Some (mod_size module * (3 # 10))%Q)
            cat_dependency)
         this)
    largeModules this.

Definition analyzeCodeSplittingOpportunities (this : t) : t :=
  let largeChunks :=
    sort_desc chunk_size
      (filter (fun c => Num.Qgtb (chunk_size c) (200 * 1024)) (st_chunks this)) in
  fold_left
    (fun this chunk =>
       push_insight
         (mkInsight ("code-split-" ++ chunk_id chunk) info
            "Code Splitting Opportunity"
            ("The chunk " ++ String Re.dquote (chunk_name chunk)
             ++ String Re.dquote " is " ++ formatSize (chunk_size chunk)
             ++ " and could benefit from code splitting.")
            medium
            "Consider implementing dynamic imports or route-based code splitting to reduce initial bundle size."
            (Some (chunk_size chunk * (4 # 10))%Q)
            cat_code_splitting)
         this)
    largeChunks this.

Definition analyzeTreeShakingPotential (this : t) : t :=
  let jsModules := filter (is_type t_js) (st_modules this) in
  if 50 <? List.length jsModules then
    push_insight
      (mkInsight "tree-shaking" info "Tree Shaking Potential"
         ("Your bundle contains " ++ Str.of_nat (List.length jsModules)
          ++ " JavaScript modules. Tree shaking could help eliminate unused code.")
         medium
         "Ensure your bundler is configured for tree shaking and use ES6 modules consistently."
         None cat_tree_shaking)
      this
  else this.

(** [names.filter((name, index) => names.indexOf(name) !== index)] *)
Fixpoint repeated (seen names : list string) : list string :=
  match names with
  | [] => []
  | name :: rest =>
      if existsb (String.eqb name) seen then name :: repeated seen rest
      else repeated (seen ++ [name]) rest
  end.

Definition analyzeDuplicates (this : t) : t :=
  let moduleNames := map mod_name (st_modules this) in
  let duplicates := repeated [] moduleNames in
  if 0 <? List.length duplicates then
    push_insight
      (mkInsight "duplicates" warning "Duplicate Modules Detected"
         ("Found " ++ Str.of_nat (List.length duplicates)
          ++ " duplicate module names, which may indicate redundant dependencies.")
         medium
         "Check for duplicate package installations and consider using bundle analyzer plugins to identify duplicates."
         None cat_duplicates)
      this
  else this.

(** The body of [analyzePerformance] is empty. *)
Definition analyzePerformance (this : t) : t := this.

Definition generateInsights (this : t) : t :=
  let this := mkState (st_modules this) (st_chunks this) [] in
  let this := generateBasicInsights this in
  let this := analyzeLargeDependencies this in
  let this := analyzeCodeSplittingOpportunities this in
  let this := analyzeTreeShakingPotential this in
  let this := analyzeDuplicates this in
  analyzePerformance this.

(** *** The public method *)

(** [f.name.split('.').pop() || 'unknown'] *)
Definition fileType_of (file : File) : string :=
  let extension := extension_of (file_name file) in
  if Str.is_empty extension then "unknown" else extension.

(** [this.generateInsights()] as a step of a method. *)
Definition run_generateInsights : M unit :=
  fun this => (Returned tt, generateInsights this).

(** The three assignments at the head of [analyzeFiles]. *)
Definition reset : M unit := fun _ => (Returned tt, mkState [] [] []).

(** The record that [analyzeFiles] returns, from the fields. *)
Definition bundle_of (files : list File) (this : t) : BundleData :=
  mkBundleData
    (sum_size (st_modules this))
    (sum_gzipSize (st_modules this))
    (st_modules this)
    (st_chunks this)
    (st_insights this)
    (mkMetadata (Date_now P) (List.length files) (map fileType_of files)).

Definition analyzeFiles (files : list File) : M BundleData :=
  reset ;;;
  for_of files processFile ;;;
  run_generateInsights ;;;
  fun this => (Returned (bundle_of files this), this).

(** The fields after [processFile], and after the loop of [analyzeFiles]. *)
Definition after_file (this : t) (file : File) : t :=
  snd (processFile file this).

Definition loaded (files : list File) : t :=
  fold_left after_file files (mkState [] [] []).

End WithPlatform.

(** [this'] has the modules and the chunks of [this]. *)
Definition keeps (this this' : t) : Prop :=
  st_modules this' = st_modules this /\ st_chunks this' = st_chunks this.

End BundleAnalyzer.

(** ** The scoring engine ([class PerformanceAnalyzer]) *)

Module PerformanceAnalyzer.

(** The constructor stores its argument in the only field. *)
Record t : Type := mkAnalyzer {
  bundleData : BundleData
}.

Definition new (data : BundleData) : t := mkAnalyzer data.

Definition calculatePerformanceScore (this : t) : Z :=
  let totalSize := totalSize (bundleData this) in
  let totalGzipSize := totalGzipSize (bundleData this) in
  let modules := modules (bundleData this) in
  let score := 100%Z in
  (* Bundle size penalties *)
  let score :=
    if Num.Qgtb totalSize (1024 * 1024) then (score - 30)%Z
    else if Num.Qgtb totalSize (500 * 1024) then (score - 20)%Z
    else if Num.Qgtb totalSize (250 * 1024) then (score - 10)%Z
    else score in
  (* Compression efficiency *)
  let score :=
    if negb (Qeq_bool totalGzipSize 0) && Num.Qgtb totalSize 0 then
      let compressionRatio := (totalGzipSize / totalSize)%Q in
      if Num.Qgtb compressionRatio (4 # 10) then (score - 15)%Z
      else if Num.Qgtb compressionRatio (3 # 10) then (score - 5)%Z
      else score
    else score in
  (* Module count penalties *)
  let score :=
    if 200 <? List.length modules then (score - 15)%Z
    else if 100 <? List.length modules then (score - 10)%Z
    else if 50 <? List.length modules then (score - 5)%Z
    else score in
  (* External dependency penalties *)
  let externalModules := filter mod_isExternal modules in
  let score :=
    if 30 <? List.length externalModules then (score - 10)%Z
    else if 20 <? List.length externalModules then (score - 5)%Z
    else score in
  (* Code splitting bonus *)
  let score :=
    if 1 <? List.length (chunks (bundleData this)) then (score + 10)%Z
    else score in
  Z.max 0 (Z.min 100 (Num.round (inject_Z score))).

Record LoadTimeEstimate : Type := mkLoadTimeEstimate {
  fast3G : Q;
  slow3G : Q;
  fast4G : Q;
  wifi : Q
}.

Record CriticalPath : Type := mkCriticalPath {
  blockingModules : list BundleModule;
  totalBlockingTime : Q;
  optimizationOpportunities : list string
}.

Record PerformanceMetrics : Type := mkPerformanceMetrics {
  firstContentfulPaint : Q;
  largestContentfulPaint : Q;
  metricsTotalBlockingTime : Q;
  cumulativeLayoutShift : Q;
  speedIndex : Q;
  metricsPerformanceScore : Q
}.

Record PerformanceData : Type := mkPerformanceData {
  metrics : option PerformanceMetrics;
  loadTimeEstimates : LoadTimeEstimate;
  criticalPath : CriticalPath;
  performanceScore : Z;
  recommendations : list string
}.

Definition calculateLoadTimeEstimates (this : t) : LoadTimeEstimate :=
  let totalSize := totalSize (bundleData this) in
  mkLoadTimeEstimate
    (totalSize * 8 / ((16 # 10) * 1024 * 1024))%Q
    (totalSize * 8 / (780 * 1024))%Q
    (totalSize * 8 / (9 * 1024 * 1024))%Q
    (totalSize * 8 / (30 * 1024 * 1024))%Q.

Definition generateOptimizationOpportunities
           (this : t) (blockingModules : list BundleModule) : list string :=
  let opportunities : list string := [] in
  let totalSize := totalSize (bundleData this) in
  let jsModules :=
    filter (BundleAnalyzer.is_type t_js) (modules (bundleData this)) in
  let cssModules :=
    filter (BundleAnalyzer.is_type t_css) (modules (bundleData this)) in
  let externalModules := filter mod_isExternal (modules (bundleData this)) in
  (* Large bundle warnings *)
  let opportunities :=
    if Num.Qgtb totalSize (500 * 1024)
    then opportunities ++ ["Bundle size exceeds 500KB - consider code splitting"]
    else opportunities in
  let opportunities :=
    if Num.Qgtb totalSize (1024 * 1024)
    then opportunities
         ++ ["Bundle size exceeds 1MB - implement aggressive code splitting"]
    else opportunities in
  (* Module type analysis *)
  let opportunities :=
    if 100 <? List.length jsModules
    then opportunities ++ ["High module count - consider bundling strategies"]
    else opportunities in
  let opportunities :=
    if 10 <? List.length cssModules
    then opportunities ++ ["Multiple CSS files - consider CSS bundling"]
    else opportunities in
  (* External dependencies *)
  let opportunities :=
    if 20 <? List.length externalModules
    then opportunities ++ ["Many external dependencies - review necessity"]
    else opportunities in
  (* Large individual modules *)
  let opportunities :=
    fold_left
      (fun opportunities module =>
         if Num.Qgtb (mod_size module) (totalSize * (2 # 10))
         then opportunities
              ++ [("Large module " ++ String Re.dquote (mod_name module)
                   ++ String Re.dquote " - consider splitting")%string]
         else opportunities)
      blockingModules opportunities in
  (* Code splitting opportunities *)
  if List.length (chunks (bundleData this)) =? 1
  then opportunities ++ ["Single chunk detected - implement code splitting"]
  else opportunities.

Definition analyzeCriticalPath (this : t) : CriticalPath :=
  let modules := modules (bundleData this) in
  let totalSize := totalSize (bundleData this) in
  let blockingModules :=
    firstn 5
      (BundleAnalyzer.sort_desc mod_size
         (filter (fun module => Num.Qgtb (mod_size module) (totalSize * (1 # 10)))
                 modules)) in
  let totalBlockingTime :=
    fold_left
      (fun total module =>
         let parseTime := (mod_size module / 1024 * (1 # 10))%Q in
         (total + parseTime)%Q)
      blockingModules 0%Q in
  let optimizationOpportunities :=
    generateOptimizationOpportunities this blockingModules in
  mkCriticalPath blockingModules totalBlockingTime optimizationOpportunities.

Definition generateRecommendations (this : t) : list string :=
  let recommendations : list string := [] in
  let totalSize := totalSize (bundleData this) in
  let modules := modules (bundleData this) in
  (* Size-based recommendations *)
  let recommendations :=
    if Num.Qgtb totalSize (1024 * 1024) then
      recommendations
      ++ ["Implement aggressive code splitting to reduce bundle size";
          "Consider lazy loading for non-critical components"]
    else if Num.Qgtb totalSize (500 * 1024) then
      recommendations
      ++ ["Implement code splitting for better performance";
          "Review and remove unused dependencies"]
    else recommendations in
  (* Module-based recommendations *)
  let recommendations :=
    if 100 <? List.length modules then
      recommendations
      ++ ["Consolidate small modules to reduce HTTP requests";
          "Use tree shaking to eliminate dead code"]
    else recommendations in
  (* External dependency recommendations *)
  let externalModules := filter mod_isExternal modules in
  let recommendations :=
    if 20 <? List.length externalModules then
      recommendations
      ++ ["Audit external dependencies for necessity";
          "Consider bundling frequently used external libraries"]
    else recommendations in
  (* Code splitting recommendations *)
  let recommendations :=
    if List.length (chunks (bundleData this)) =? 1 then
      recommendations
      ++ ["Split vendor and application code into separate chunks";
          "Implement route-based code splitting"]
    else recommendations in
  (* Performance monitoring *)
  recommendations
  ++ ["Monitor Core Web Vitals in production";
      "Set up performance budgets for bundle size"].

Definition analyze (this : t) : PerformanceData :=
  let loadTimeEstimates := calculateLoadTimeEstimates this in
  let criticalPath := analyzeCriticalPath this in
  let performanceScore := calculatePerformanceScore this in
  let recommendations := generateRecommendations this in
  mkPerformanceData None loadTimeEstimates criticalPath performanceScore
                    recommendations.

End PerformanceAnalyzer.

(** ** The callers in the components *)

Module Components.

(** [validateFiles] of [FileUpload.tsx]: the message of the first check
    that fails, [None] for [null]. *)
Definition allowedTypes : list string := [".js"; ".json"; ".map"].

Definition validateFiles (files : list File) : option string :=
  if List.length files =? 0 then Some "Please select at least one file"
  else
    let invalidFiles :=
      filter
        (fun file =>
           let extension :=
             String.append
               "."
               (Str.toLowerCase (BundleAnalyzer.extension_of (file_name file))) in
           negb (existsb (String.eqb extension) allowedTypes))
        files in
    if 0 <? List.length invalidFiles then
      Some ("Invalid file type(s): "
            ++ Str.join ", " (map file_name invalidFiles)
            ++ ". Only .js, .json, and .map files are supported.")%string
    else
      let totalSize := fold_left (fun sum file => sum + file_size file)%N files 0%N in
      let maxSize := (50 * 1024 * 1024)%N in
      if (maxSize <? totalSize)%N then Some "Total file size exceeds 50MB limit"
      else None.

(** [getPerformanceLabel] of [PerformancePanel.tsx]. *)
Definition getPerformanceLabel (score : Z) : string :=
  if (90 <=? score)%Z then "Excellent"
  else if (70 <=? score)%Z then "Good"
  else if (50 <=? score)%Z then "Needs Improvement"
  else "Poor".

(** [getLargestModules] of [StatisticsPanel.tsx]. *)
Definition getLargestModules (bundleData : BundleData) : list BundleModule :=
  firstn 10 (BundleAnalyzer.sort_desc mod_size (modules bundleData)).

(** [truncateText] of [Treemap.tsx]; [substring] reads a negative end as 0. *)
Definition truncateText (text : string) (maxLength : Z) : string :=
  if (Z.of_nat (String.length text) <=? maxLength)%Z then text
  else String.append (Str.take (Z.to_nat (maxLength - 3)) text) "...".

End Components.

(** ** A reference host and sample inputs *)

Module Sample.

(** *** A host

    Enough of the built-ins of [Platform] to run the analyzers on the
    samples below: numbers print exactly, and [JSON.parse] knows the sample
    documents and rejects every other text. *)

Definition text_of_Z (z : Z) : string :=
  match z with
  | Z0 => "0"
  | _ => NilEmpty.string_of_int (Z.to_int z)
  end.

Fixpoint pad_left (width : nat) (s : string) : string :=
  match width - String.length s with
  | O => s
  | S _ =>
      match width with
      | O => s
      | S width' => "0" ++ pad_left width' s
      end
  end.

Definition fixed (q : Q) (digits : nat) : string :=
  let scale := (10 ^ Z.of_nat digits)%Z in
  let n := Qfloor (Qabs q * inject_Z scale + (1 # 2))%Q in
  (if Num.Qltb q 0 then "-" else "")
  ++ text_of_Z (n / scale)
  ++ (if digits =? 0 then ""
      else "." ++ pad_left digits (text_of_Z (n mod scale))).

Definition toFixed (x : Num.xnum) (digits : nat) : string :=
  match x with
  | Num.Fin q => fixed q digits
  | Num.PosInf => "Infinity"
  | Num.NegInf => "-Infinity"
  | Num.NaN => "NaN"
  end.

Fixpoint strip_zeros (reversed : string) : string :=
  match reversed with
  | String "0" rest => strip_zeros rest
  | String "." rest => rest
  | other => other
  end.

(** The shortest text of a number printed by [toFixed]. *)
Definition parseFloat_text (text : string) : string :=
  if Str.includes "." text then
    let short := Str.rev (strip_zeros (Str.rev text)) in
    if String.eqb short "-0" then "0" else short
  else text.

Fixpoint log1024_up (fuel : nat) (q : Q) (i : Z) : Z :=
  match fuel with
  | O => i
  | S fuel' =>
      if Qle_bool 1024 q then log1024_up fuel' (q / 1024)%Q (i + 1)%Z
      else if Num.Qltb q 1 then log1024_up fuel' (q * 1024)%Q (i - 1)%Z
      else i
  end.

Definition log1024_floor (q : Q) : option Z :=
  if Num.Qltb q 0 then None else Some (log1024_up 64 q 0).

Fixpoint ToString (v : Json.value) : string :=
  match v with
  | Json.Null => "null"
  | Json.Bool true => "true"
  | Json.Bool false => "false"
  | Json.Number q => parseFloat_text (fixed q 6)
  | Json.Str s => s
  | Json.Array items => Str.join "," (map ToString items)
  | Json.Object _ => "[object Object]"
  end.

(** Sample documents are written with single quotes for the double quotes
    of JSON. *)
Definition json_text (s : string) : string :=
  string_of_list_ascii
    (map (fun c => if Ascii.eqb c "'" then Re.dquote else c)
         (list_ascii_of_string s)).

(** A stats file with one module, measured at zero compressed bytes. *)
Definition stats_zero_gzip : string * Json.value :=
  (json_text "{'modules':[{'name':'a.js','size':1000,'gzipSize':0}]}",
   Json.Object
     [ ("modules",
        Json.Array
          [ Json.Object
              [ ("name", Json.Str "a.js");
                ("size", Json.Number 1000);
                ("gzipSize", Json.Number 0) ] ]) ]).

(** A stats file whose second entry is [null]. *)
Definition stats_null_entry : string * Json.value :=
  (json_text "{'modules':[{'name':'a.js','size':1000},null]}",
   Json.Object
     [ ("modules",
        Json.Array
          [ Json.Object [ ("name", Json.Str "a.js"); ("size", Json.Number 1000) ];
            Json.Null ]) ]).

(** A stats file with one large module that carries no [id]. *)
Definition stats_large : string * Json.value :=
  (json_text "{'modules':[{'name':'vendor.js','size':200000}]}",
   Json.Object
     [ ("modules",
        Json.Array
          [ Json.Object
              [ ("name", Json.Str "vendor.js");
                ("size", Json.Number 200000) ] ]) ]).

Definition zero_gzip_file : File :=
  mkFile "stats.json" 54 (Some (fst stats_zero_gzip)).

Definition null_entry_file : File :=
  mkFile "stats.json" 46 (Some (fst stats_null_entry)).

Definition large_file : File :=
  mkFile "vendor-stats.json" 48 (Some (fst stats_large)).

(** A stats file cut after its first character. *)
Definition truncated_file : File := mkFile "broken.json" 1 (Some "{").

(** A compiled bundle that requires its modules by number. *)
Definition unnamed_bundle : File :=
  mkFile "app.js" 31 (Some "var x = __webpack_require__(1);").

(** The text of a compiled bundle of 300,022 characters that requires its
    modules by number: one call, then padding. *)
Definition padded_text : string :=
  String.append "__webpack_require__(1)" (Str.repeat " " (3000 * 100)).

Definition main_bundle : File := mkFile "main.js" 300022 (Some padded_text).
Definition vendor_bundle : File := mkFile "vendor.js" 300022 (Some padded_text).

Definition documents : list (string * Json.value) :=
  [stats_zero_gzip; stats_null_entry; stats_large].

Definition JSON_parse (text : string) : option Json.value :=
  option_map snd (find (fun d => String.eqb (fst d) text) documents).

Definition host : Platform :=
  mkPlatform JSON_parse ToString toFixed parseFloat_text log1024_floor
             "2024-01-01T00:00:00.000Z".

(** *** Aggregates for the scoring engine *)

(** A module of the given size with nothing else of note. *)
Definition module (size : Q) (gzipSize : option Q) (isExternal : bool)
  : BundleModule :=
  mkModule "m" "m.js" size gzipSize ["m.js"] [] isExternal t_js None.

Definition chunk : ChunkData :=
  mkChunk "main" "main.js" 1572864 (Num.Fin 471859) [] true.

(** 250 modules, 35 of them external, 1.5 MB in all. *)
Definition modules_250 (gzipSize : option Q) : list BundleModule :=
  module 1572864 gzipSize false
  :: repeat (module 0 None true) 35 ++ repeat (module 0 None false) 214.

(** The compressed size of the large module was measured: 1,000,000 bytes. *)
Definition measured : BundleData :=
  mkBundleData 1572864 1000000 (modules_250 (Some 1000000%Q)) [chunk] []
               (mkMetadata "2024-01-01T00:00:00.000Z" 2 ["json"; "json"]).

(** No compressed size was measured: the total is the 30% estimate. *)
Definition estimated : BundleData :=
  mkBundleData 1572864 (4718592 # 10) (modules_250 None) [chunk] []
               (mkMetadata "2024-01-01T00:00:00.000Z" 2 ["json"; "json"]).

End Sample.

(** ** The statements of the specification *)

Module Spec.

(** The shape that the 1.5 MB example fixes. *)
Definition example_shape (data : BundleData) : Prop :=
  (totalSize data == 1572864)%Q
  /\ List.length (modules data) = 250
  /\ List.length (filter mod_isExternal (modules data)) = 35
  /\ List.length (chunks data) = 1.

(** The sum of a list of numbers. *)
Definition total (xs : list Q) : Q := fold_right Qplus 0%Q xs.

(** [value] is [exact] up to [k] roundings, each of a relative error of at
    most [2^-53]. *)
Definition rounded (k : nat) (exact value : Q) : Prop :=
  (exact * (1 - Num.unit_roundoff) ^ Z.of_nat k <= value
   /\ value <= exact * (1 + Num.unit_roundoff) ^ Z.of_nat k)%Q.

(** A whole number that is not negative. *)
Definition whole (q : Q) : Prop :=
  exists n : Z, (0 <= n)%Z /\ (q == inject_Z n)%Q.

(** A number of bytes as a stats file gives it: a whole number up to
    [2^53], which a double holds. *)
Definition byte_count (q : Q) : bool :=
  Qle_bool 0 q && Qle_bool q 9007199254740992
  && Qeq_bool q (inject_Z (Qfloor q)).

(** A [size] or [gzipSize] of the declared type: a number of bytes, or a
    value that [||] replaces ([null], [false], an empty string, none). *)
Definition plain_number (v : option Json.value) : bool :=
  match v with
  | Some (Json.Number q) => byte_count q
  | other => negb (Json.truthy other)
  end.

Definition plain_entry (entry : Json.value) : bool :=
  match entry with
  | Json.Object fields =>
      plain_number (Json.assoc "size" fields)
      && plain_number (Json.assoc "gzipSize" fields)
  | _ => true
  end.

(** The entries of the [modules] of a stats file have sizes of the
    declared type; the files of the other formats carry no size of their
    own. *)
Definition plain_sizes (P : Platform) (file : File) : bool :=
  if String.eqb
       (Str.toLowerCase (BundleAnalyzer.extension_of (file_name file))) "json"
  then
    match file_text file with
    | Some content =>
        match JSON_parse P content with
        | Some (Json.Object fields) =>
            match Json.assoc "modules" fields with
            | Some (Json.Array items) => forallb plain_entry items
            | _ => true
            end
        | _ => true
        end
    | None => true
    end
  else true.

(** The sizes of a module are whole numbers of bytes. *)
Definition in_bytes (m : BundleModule) : Prop :=
  whole (mod_size m)
  /\ match mod_gzipSize m with
     | Some gzipSize => whole gzipSize
     | None => True
     end.

(** What a module adds to the compressed total, as the data model words it:
    its compressed size when present, otherwise 30% of its size. *)
Definition gzip_share_stated (m : BundleModule) : Q :=
  match mod_gzipSize m with
  | Some gzipSize => gzipSize
  | None => ((3 # 10) * mod_size m)%Q
  end.

(** The same, with a compressed size of zero counted as not measured. *)
Definition gzip_share (m : BundleModule) : Q :=
  match mod_gzipSize m with
  | Some gzipSize =>
      if Qeq_bool gzipSize 0 then ((3 # 10) * mod_size m)%Q else gzipSize
  | None => ((3 # 10) * mod_size m)%Q
  end.

(** C1: the totals of an aggregate.  [totalSize] is the sum of the sizes
    up to the rounding of one addition for each module, and is that sum
    when a double holds it; [totalGzipSize] is the sum of the shares up to
    the rounding of the two products of a share and of one addition for
    each module. *)
Definition totals (data : BundleData) : Prop :=
  let count := List.length (modules data) in
  let sizes := total (map mod_size (modules data)) in
  rounded count sizes (totalSize data)
  /\ ((sizes <= 9007199254740992)%Q -> (totalSize data == sizes)%Q)
  /\ rounded (2 + count) (total (map gzip_share (modules data)))
             (totalGzipSize data).

(** Per-file processing of [file] fails: the [try] block of [processFile]
    is left by an exception. *)
Definition fails (P : Platform) (file : File) : Prop :=
  forall this, fst (BundleAnalyzer.processFile_body P file this)
               = BundleAnalyzer.Thrown.

(** The two failures that the specification names: the read is rejected, or
    the text of a [.json] or [.map] file is not JSON. *)
Definition unreadable_or_malformed (P : Platform) (file : File) : Prop :=
  file_text file = None
  \/ (let extension :=
        Str.toLowerCase (BundleAnalyzer.extension_of (file_name file)) in
      (extension = "json" \/ extension = "map")
      /\ exists content,
          file_text file = Some content /\ JSON_parse P content = None).

(** C6 as stated: the aggregate of a list with a failing file is the
    aggregate of the list without it. *)
Definition same_aggregate (P : Platform) (before after : list File)
           (bad : File) (this : BundleAnalyzer.t) : Prop :=
  exists data this1 this2,
    BundleAnalyzer.analyzeFiles P (before ++ bad :: after) this
    = (BundleAnalyzer.Returned data, this1)
    /\ BundleAnalyzer.analyzeFiles P (before ++ after) this
       = (BundleAnalyzer.Returned data, this2).

(** C6 as amended: the two aggregates agree on modules, chunks, insights
    and totals, and the metadata still count the failing file. *)
Definition same_but_metadata (P : Platform) (before after : list File)
           (bad : File) (this : BundleAnalyzer.t) : Prop :=
  exists with_bad without this1 this2,
    BundleAnalyzer.analyzeFiles P (before ++ bad :: after) this
    = (BundleAnalyzer.Returned with_bad, this1)
    /\ BundleAnalyzer.analyzeFiles P (before ++ after) this
       = (BundleAnalyzer.Returned without, this2)
    /\ modules with_bad = modules without
    /\ chunks with_bad = chunks without
    /\ insights with_bad = insights without
    /\ totalSize with_bad = totalSize without
    /\ totalGzipSize with_bad = totalGzipSize without
    /\ analyzedAt (metadata with_bad) = analyzedAt (metadata without)
    /\ fileCount (metadata with_bad) = S (fileCount (metadata without))
    /\ fileTypes (metadata with_bad)
       = (map BundleAnalyzer.fileType_of before
          ++ BundleAnalyzer.fileType_of bad
          :: map BundleAnalyzer.fileType_of after)%list
    /\ fileTypes (metadata without)
       = (map BundleAnalyzer.fileType_of before
          ++ map BundleAnalyzer.fileType_of after)%list.

(** The ids of the insights of the performance tier. *)
Definition size_tier_ids : list string :=
  ["large-bundle-performance"; "medium-bundle-performance"; "good-bundle-size"].

Definition performance_tier_ids : list string :=
  "slow-3g-load" :: "poor-compression" :: size_tier_ids.

(** The size tier of a total, by the thresholds of 1 MB and 500 KB. *)
Definition size_tier_id (totalSize : Q) : string :=
  if Num.Qgtb totalSize (1024 * 1024) then "large-bundle-performance"
  else if Num.Qgtb totalSize (500 * 1024) then "medium-bundle-performance"
  else "good-bundle-size".


(** The require calls of a text whose argument is a string literal: the
    matches of the first two of [modulePatterns]. *)
Definition string_literal_calls (content : string) : list Re.rmatch :=
  (Re.exec_all
     (BundleAnalyzer.require_call "webpack_require"
                                  BundleAnalyzer.string_argument) content
   ++ Re.exec_all
        (BundleAnalyzer.require_call "__webpack_require__"
                                     BundleAnalyzer.string_argument) content)%list.

(** The ratios of the estimation table. *)
Definition estimation_ratios : list Q :=
  [15 # 100; 12 # 100; 25 # 100; 35 # 100; 13 # 100]%Q.

(** The test that the loop of [parseCompiledWebpackBundle] makes on a match
    before it keeps its group as a module name. *)
Definition named (m : Re.rmatch) : bool :=
  match Re.group 1 m with
  | Some name =>
      negb (Str.is_empty name)
      && negb (Re.whole (Re.Plus (Re.Cls Re.digit)) name)
  | None => false
  end.

(** C9: what ingestion makes of a compiled bundle without named targets.
    A size is the floor of the product of the text length and of the
    ratio, both as doubles. *)
Definition estimated_from_table (P : Platform) (file : File) (content : string)
           (this : BundleAnalyzer.t) : Prop :=
  let added := BundleAnalyzer.estimateBundleModules content in
  let length := Num.of_nat (String.length content) in
  BundleAnalyzer.processFile P file this
  = (BundleAnalyzer.Returned tt,
     BundleAnalyzer.mkState
       (BundleAnalyzer.st_modules this ++ added)
       (BundleAnalyzer.st_chunks this)
       (BundleAnalyzer.st_insights this))
  /\ (exists data this',
        BundleAnalyzer.analyzeFiles P [file] this
        = (BundleAnalyzer.Returned data, this')
        /\ modules data = added)
  /\ List.length added = 5
  /\ map mod_name added
     = ["React Core"; "React DOM"; "Application Code"; "Dependencies"; "Runtime"]
  /\ map mod_size added
     = map (fun ratio =>
              inject_Z (Num.floor (Num.mul length (Num.double ratio))))
           estimation_ratios
  /\ (total (map mod_size added) <= length)%Q
  /\ (length - 5 <= total (map mod_size added))%Q.

(** A compiled bundle without named targets, as in C9. *)
Definition unnamed_bundle (file : File) (content : string) : Prop :=
  Str.toLowerCase (BundleAnalyzer.extension_of (file_name file)) = "js"
  /\ file_text file = Some content
  /\ Str.includes "__webpack_require__(1)" content = true
  /\ string_literal_calls content = [].

(** The modules that [analyzeLargeDependencies] reports, and the id of the
    insight of each. *)
Definition large (m : BundleModule) : bool :=
  Num.Qgtb (mod_size m) (100 * 1024).

Definition large_dep_id (m : BundleModule) : string :=
  "large-dep-" ++ mod_id m.

(** A rule that only adds to the insights. *)
Definition appends (f : BundleAnalyzer.t -> BundleAnalyzer.t) : Prop :=
  forall this,
  exists added,
    BundleAnalyzer.st_insights (f this)
    = BundleAnalyzer.st_insights this ++ added.

(** The ids of the insights held by the analyzer. *)
Definition ids (this : BundleAnalyzer.t) : list string :=
  map ins_id (BundleAnalyzer.st_insights this).

(** The entries of [fixed] whose flag is set. *)
Fixpoint select (flags : list bool) (fixed : list string) : list string :=
  match flags, fixed with
  | b :: flags', x :: fixed' =>
      if b then x :: select flags' fixed' else select flags' fixed'
  | _, _ => []
  end.

(** [this'] has the modules and chunks of [this], and its insights are
    those of [this] followed by some of the ids of [fixed], in their order. *)
Definition grows (fixed : list string) (this this' : BundleAnalyzer.t) : Prop :=
  BundleAnalyzer.keeps this this'
  /\ exists flags,
      List.length flags = List.length fixed
      /\ ids this' = ids this ++ select flags fixed.

(** The ids that [generateBasicInsights] may push, in the order of its rules. *)
Definition basic_ids : list string :=
  [ "bundle-composition"; "compression-efficiency"; "module-count";
    "module-count-low"; "slow-3g-load"; "poor-compression";
    "large-bundle-performance"; "medium-bundle-performance";
    "good-bundle-size"; "file-type-diversity" ].

(** The chunks that [analyzeCodeSplittingOpportunities] reports, and the id
    of the insight of each. *)
Definition large_chunk (c : ChunkData) : bool :=
  Num.Qgtb (chunk_size c) (200 * 1024).

Definition code_split_id (c : ChunkData) : string :=
  "code-split-" ++ chunk_id c.

(** The order of [sort((a, b) => b.size - a.size)]. *)
Definition descending {A : Type} (size : A -> Q) (x y : A) : Prop :=
  (size y <= size x)%Q.

End Spec.

(** ** Notions and inputs of the further properties *)

Module Notions.

(** The method [m] leaves the sizes of the modules whole numbers of bytes. *)
Definition keeps_bytes {A : Type} (m : BundleAnalyzer.M A) : Prop :=
  forall this,
    Forall Spec.in_bytes (BundleAnalyzer.st_modules this) ->
    Forall Spec.in_bytes (BundleAnalyzer.st_modules (snd (m this))).

(** The extensions that [processFile] dispatches on. *)
Definition supported (file : File) : Prop :=
  let extension :=
    Str.toLowerCase (BundleAnalyzer.extension_of (file_name file)) in
  extension = "json" \/ extension = "map" \/ extension = "js".

(** The test that [tryParseAsWebpackBundle] makes on the text of a file. *)
Definition has_marker (content : string) : bool :=
  Str.includes "webpack_require" content
  || Str.includes "__webpack_require__" content
  || Str.includes "webpackJsonp" content
  || Str.includes "webpackChunk" content.

(** The strings at the head of a list of JSON values, up to the first
    entry that is not a string. *)
Fixpoint leading_strings (items : list Json.value) : list string :=
  match items with
  | Json.Str s :: rest => s :: leading_strings rest
  | _ => []
  end.

(** [prefix-from], [prefix-(from+1)], ...: the ids that a [forEach] with an
    index gives. *)
Definition numbered (prefix : string) (from count : nat) : list string :=
  map (fun index => String.append prefix (Str.of_nat index)) (seq from count).

(** [this'] is [this] with [added] pushed on its modules. *)
Definition adds_modules (this this' : BundleAnalyzer.t)
           (added : list BundleModule) : Prop :=
  this' = BundleAnalyzer.mkState
            (BundleAnalyzer.st_modules this ++ added)
            (BundleAnalyzer.st_chunks this)
            (BundleAnalyzer.st_insights this).

(** Only the modules change, or only the chunks. *)
Definition modules_only (this this' : BundleAnalyzer.t) : Prop :=
  BundleAnalyzer.st_chunks this' = BundleAnalyzer.st_chunks this
  /\ BundleAnalyzer.st_insights this' = BundleAnalyzer.st_insights this.

Definition chunks_only (this this' : BundleAnalyzer.t) : Prop :=
  BundleAnalyzer.st_modules this' = BundleAnalyzer.st_modules this
  /\ BundleAnalyzer.st_insights this' = BundleAnalyzer.st_insights this.

(** The modules of a source map whose [sources] holds [items], numbered
    from [from]. *)
Definition source_modules (items : list Json.value) (from : nat)
           (added : list BundleModule) : Prop :=
  map mod_name added = leading_strings items
  /\ map mod_id added = numbered "sourcemap-" from (List.length added)
  /\ Forall (fun m =>
               mod_size m = (Num.of_nat (String.length (mod_name m)) * 2)%Q
               /\ mod_gzipSize m = None
               /\ mod_path m = Str.split "/" (mod_name m)
               /\ mod_type m = BundleAnalyzer.getFileType (mod_name m)
               /\ mod_isExternal m = false)
            added.

(** What ingestion makes of a compiled bundle that requires modules by
    name. *)
Definition split_evenly (P : Platform) (file : File) (content : string)
           (this : BundleAnalyzer.t) : Prop :=
  let names := BundleAnalyzer.collect_moduleNames content in
  let length := Num.of_nat (String.length content) in
  let share :=
    inject_Z (Num.floor (length / Num.of_nat (List.length names))%Q) in
  exists added chunk,
    BundleAnalyzer.after_file P this file
    = BundleAnalyzer.mkState
        (BundleAnalyzer.st_modules this ++ added)
        (BundleAnalyzer.st_chunks this ++ [chunk])
        (BundleAnalyzer.st_insights this)
    /\ map mod_name added = names
    /\ map mod_id added = numbered "compiled-" 0 (List.length names)
    /\ Forall (fun m => mod_size m = share) added
    /\ chunk_id chunk = "main-bundle"
    /\ chunk_name chunk = file_name file
    /\ chunk_size chunk = length
    /\ chunk_modules chunk = map mod_id added
    /\ (Spec.total (map mod_size added) <= length)%Q
    /\ (length - Num.of_nat (List.length names)
        < Spec.total (map mod_size added))%Q.

(** What ingestion makes of a script without a webpack marker. *)
Definition one_module (P : Platform) (file : File) (content : string)
           (this : BundleAnalyzer.t) : Prop :=
  exists m,
    adds_modules this (BundleAnalyzer.after_file P this file) [m]
    /\ mod_id m = String.append "js-" (file_name file)
    /\ mod_name m = file_name file
    /\ mod_size m = Num.of_N (file_size file)
    /\ mod_gzipSize m = None
    /\ mod_type m = t_js
    /\ mod_javascriptAnalysis m
       = Some (snd (JavaScriptAnalyzer.analyzeFile JavaScriptAnalyzer.new
                                                   content)).

(** A name that [parseCompiledWebpackBundle] keeps. *)
Definition proper_name (name : string) : Prop :=
  Str.is_empty name = false
  /\ Re.whole (Re.Plus (Re.Cls Re.digit)) name = false.

(** The fast-3G load time that [generatePerformanceInsights] tests. *)
Definition fast3GTime (totalSize : Q) : Q :=
  (totalSize * 8 / ((16 # 10) * 1024 * 1024))%Q.

(** The ids that one run of the performance-tier rule adds. *)
Definition tier_ids (totalSize totalGzipSize : Q) : list string :=
  (if Num.Qgtb (fast3GTime totalSize) 3 then ["slow-3g-load"] else [])
  ++ (if Num.ltb (BundleAnalyzer.compression_percent totalSize totalGzipSize) 30
      then ["poor-compression"] else [])
  ++ [Spec.size_tier_id totalSize].

(** The ids that [generateBasicInsights] adds, rule by rule. *)
Definition basic_added (this : BundleAnalyzer.t) : list string :=
  let modules := BundleAnalyzer.st_modules this in
  let totalSize := BundleAnalyzer.sum_size modules in
  let totalGzipSize := BundleAnalyzer.sum_gzipSize modules in
  (if 0 <? List.length (filter (BundleAnalyzer.is_type t_js) modules)
   then ["bundle-composition"] else [])
  ++ (if Num.gtb (BundleAnalyzer.compression_percent totalSize totalGzipSize) 0
      then ["compression-efficiency"] else [])
  ++ (if 10 <? List.length modules then ["module-count"]
      else if List.length modules <=? 5 then ["module-count-low"]
      else [])
  ++ tier_ids totalSize totalGzipSize
  ++ (if 2 <? List.length
                (BundleAnalyzer.distinct_types (map mod_type modules))
      then ["file-type-diversity"] else []).

(** The ids of a run of [generateInsights], rule by rule. *)
Definition run_ids (this : BundleAnalyzer.t) : list string :=
  let modules := BundleAnalyzer.st_modules this in
  basic_added this
  ++ map Spec.large_dep_id
         (BundleAnalyzer.sort_desc mod_size (filter Spec.large modules))
  ++ map Spec.code_split_id
         (BundleAnalyzer.sort_desc chunk_size
            (filter Spec.large_chunk (BundleAnalyzer.st_chunks this)))
  ++ (if 50 <? List.length (filter (BundleAnalyzer.is_type t_js) modules)
      then ["tree-shaking"] else [])
  ++ (if 0 <? List.length (BundleAnalyzer.repeated [] (map mod_name modules))
      then ["duplicates"] else []).

(** An insight as the rules build them: never of type [error], and with
    estimated savings only in the categories of the two rules that
    compute them. *)
Definition sound_insight (i : OptimizationInsight) : bool :=
  match ins_type i with
  | error => false
  | _ => true
  end
  && match ins_estimatedSavings i, ins_category i with
     | None, _ => true
     | Some _, cat_dependency => true
     | Some _, cat_code_splitting => true
     | Some _, _ => false
     end.

(** [this'] has the fields of [this] and more insights, all of them
    [good]. *)
Definition pushes (good : OptimizationInsight -> bool)
           (this this' : BundleAnalyzer.t) : Prop :=
  exists added,
    this' = BundleAnalyzer.mkState
              (BundleAnalyzer.st_modules this)
              (BundleAnalyzer.st_chunks this)
              (BundleAnalyzer.st_insights this ++ added)
    /\ forallb good added = true.

(** The 3 seconds on fast 3G, in bytes: 3 x 1.6 x 1024 x 1024 / 8. *)
Definition slow_3g_bytes : Q := 6291456 # 10.

(** The test of [analyzeCriticalPath] for a blocking module. *)
Definition blocking (this : PerformanceAnalyzer.t) (m : BundleModule) : bool :=
  Num.Qgtb (mod_size m)
           (totalSize (PerformanceAnalyzer.bundleData this) * (1 # 10)).

(** The bytes of a list of files, and the limit of [validateFiles]. *)
Definition bytes (files : list File) : N :=
  fold_right (fun file sum => file_size file + sum)%N 0%N files.

Definition maxSize : N := 52428800.

(** [kept] is the head of a list sorted by decreasing [size]: what was
    dropped is no larger than what was kept. *)
Definition largest_of {A : Type} (size : A -> Q) (kept items : list A) : Prop :=
  StronglySorted (Spec.descending size) kept
  /\ exists dropped,
      Permutation (kept ++ dropped) items
      /\ forall x y, In x kept -> In y dropped -> (size y <= size x)%Q.

(** The two recommendations that close every list. *)
Definition monitoring : list string :=
  ["Monitor Core Web Vitals in production";
   "Set up performance budgets for bundle size"].

(** The three ways in which [calculateMetrics] counts a line. *)
Definition is_blank (line : string) : bool := Str.is_empty (Str.trim line).

Definition is_code (line : string) : bool :=
  negb (Str.is_empty (Str.trim line))
  && negb (Str.starts_with "//" (Str.trim line))
  && negb (Str.starts_with "/*" (Str.trim line)).

(** The fields that one step of [analyzeFile] writes. *)
Inductive field : Type :=
| f_type | f_functions | f_classes | f_imports | f_exports | f_libraries
| f_metrics | f_advice.

(** [this'] is [this] but for the fields of [skip]. *)
Definition same_but (skip : field) (this this' : JavaScriptAnalyzer.t) : Prop :=
  let a := JavaScriptAnalyzer.analysis this in
  let a' := JavaScriptAnalyzer.analysis this' in
  JavaScriptAnalyzer.content this' = JavaScriptAnalyzer.content this
  /\ JavaScriptAnalyzer.lines this' = JavaScriptAnalyzer.lines this
  /\ (skip <> f_type ->
      JavaScriptAnalyzer.fileType a' = JavaScriptAnalyzer.fileType a
      /\ JavaScriptAnalyzer.confidence a' = JavaScriptAnalyzer.confidence a)
  /\ (skip <> f_functions ->
      JavaScriptAnalyzer.functions a' = JavaScriptAnalyzer.functions a)
  /\ (skip <> f_classes ->
      JavaScriptAnalyzer.classes a' = JavaScriptAnalyzer.classes a)
  /\ (skip <> f_imports ->
      JavaScriptAnalyzer.imports a' = JavaScriptAnalyzer.imports a
      /\ JavaScriptAnalyzer.dependencies a' = JavaScriptAnalyzer.dependencies a)
  /\ (skip <> f_exports ->
      JavaScriptAnalyzer.exports a' = JavaScriptAnalyzer.exports a)
  /\ (skip <> f_libraries ->
      JavaScriptAnalyzer.libraries a' = JavaScriptAnalyzer.libraries a)
  /\ (skip <> f_metrics ->
      JavaScriptAnalyzer.codeMetrics a' = JavaScriptAnalyzer.codeMetrics a)
  /\ (skip <> f_advice ->
      JavaScriptAnalyzer.optimizationOpportunities a'
      = JavaScriptAnalyzer.optimizationOpportunities a
      /\ JavaScriptAnalyzer.insights a' = JavaScriptAnalyzer.insights a).

(** The analyzer as [analyzeFile] has it after its first three
    assignments, and after each of its eight steps. *)
Definition started (text : string) : JavaScriptAnalyzer.t :=
  JavaScriptAnalyzer.mkAnalyzer text (Str.split JavaScriptAnalyzer.nl text)
                                JavaScriptAnalyzer.createEmptyAnalysis.

Definition typed (text : string) : JavaScriptAnalyzer.t :=
  JavaScriptAnalyzer.detectFileType (started text).

Definition with_functions (text : string) : JavaScriptAnalyzer.t :=
  JavaScriptAnalyzer.analyzeFunctions (typed text).

Definition with_classes (text : string) : JavaScriptAnalyzer.t :=
  JavaScriptAnalyzer.analyzeClasses (with_functions text).

Definition with_imports (text : string) : JavaScriptAnalyzer.t :=
  JavaScriptAnalyzer.analyzeImports (with_classes text).

Definition with_exports (text : string) : JavaScriptAnalyzer.t :=
  JavaScriptAnalyzer.analyzeExports (with_imports text).

Definition with_libraries (text : string) : JavaScriptAnalyzer.t :=
  JavaScriptAnalyzer.detectLibraries (with_exports text).

Definition with_metrics (text : string) : JavaScriptAnalyzer.t :=
  JavaScriptAnalyzer.calculateMetrics (with_libraries text).

(** The lines of a function or a class lie in the text, the first before
    the last. *)
Definition in_text (totalLines lineStart lineEnd : nat) : Prop :=
  1 <= lineStart /\ lineStart <= lineEnd /\ lineEnd <= totalLines.

(** The text has the lines that the analyzer holds. *)
Definition reads (text : string) (this : JavaScriptAnalyzer.t) : Prop :=
  JavaScriptAnalyzer.content this = text
  /\ JavaScriptAnalyzer.lines this = Str.split JavaScriptAnalyzer.nl text.

(** The four indicator scores of a text. *)
Definition indicators (text : string) : list Q :=
  [ JavaScriptAnalyzer.detectWebpackIndicators (started text);
    JavaScriptAnalyzer.detectBundleIndicators (started text);
    JavaScriptAnalyzer.detectModuleIndicators (started text);
    JavaScriptAnalyzer.detectVanillaIndicators (started text) ].

(** The names of the library table. *)
Definition library_names : list string :=
  map (fun library => fst (fst library)) JavaScriptAnalyzer.libraryPatterns.

End Notions.

Module Inputs.

(** An image dropped among the bundles. *)
Definition image : File := mkFile "logo.png" 2048 (Some "PNG").

(** A source map whose second source is [null]. *)
Definition map_null_source : string * Json.value :=
  (Sample.json_text "{'sources':['src/a.js',null,'src/b.css']}",
   Json.Object
     [ ("sources",
        Json.Array [Json.Str "src/a.js"; Json.Null; Json.Str "src/b.css"]) ]).

Definition map_file : File :=
  mkFile "app.js.map" 43 (Some (fst map_null_source)).

(** A stats file in the chunk format. *)
Definition stats_chunks : string * Json.value :=
  (Sample.json_text "{'chunks':[{'id':'main','size':300000}]}",
   Json.Object
     [ ("chunks",
        Json.Array
          [ Json.Object
              [ ("id", Json.Str "main"); ("size", Json.Number 300000) ] ]) ]).

Definition chunks_file : File :=
  mkFile "chunks.json" 41 (Some (fst stats_chunks)).

Definition documents : list (string * Json.value) :=
  [map_null_source; stats_chunks].

Definition JSON_parse (text : string) : option Json.value :=
  option_map snd (find (fun d => String.eqb (fst d) text) documents).

(** The host of [Sample], reading the documents above. *)
Definition host : Platform :=
  mkPlatform JSON_parse Sample.ToString Sample.toFixed Sample.parseFloat_text
             Sample.log1024_floor "2024-01-01T00:00:00.000Z".

(** A compiled bundle that requires two modules by name, one of them
    twice, and one by number. *)
Definition named_text : string :=
  "__webpack_require__('./src/index.js');__webpack_require__('react');__webpack_require__('react');__webpack_require__(7)".

Definition named_bundle : File := mkFile "app.js" 113 (Some named_text).

(** A plain script; the file is larger than its text is long. *)
Definition script_text : string :=
  "import { a } from './a'; const b = require('./b'); export const c = a;".

Definition script : File := mkFile "util.js" 4096 (Some script_text).

(** A module name too long for a tile of the treemap. *)
Definition long_name : string := "node_modules/react-dom/index.js".

(** A state with one large module and one large chunk. *)
Definition one_of_each : BundleAnalyzer.t :=
  BundleAnalyzer.mkState [Sample.module 1572864 None false] [Sample.chunk] [].

End Inputs.

(** * Properties *)

(** ** Arithmetic of the model *)

Lemma round_inject_Z (z : Z) : Num.round (inject_Z z) = z.
Proof.
  unfold Num.round, Qfloor, Qplus, inject_Z. simpl.
  replace (z * 2 + 1)%Z with (1 + z * 2)%Z by lia.
  rewrite Z.div_add by lia. reflexivity.
Qed.

Lemma Qgtb_true (a b : Q) : Num.Qgtb a b = true <-> (b < a)%Q.
Proof.
  unfold Num.Qgtb, Num.Qltb. rewrite negb_true_iff.
  split; intro H.
  - apply Qnot_le_lt. intro L. apply Qle_bool_iff in L. congruence.
  - destruct (Qle_bool a b) eqn:E; [|reflexivity].
    apply Qle_bool_iff in E. exfalso. apply (Qlt_not_le _ _ H E).
Qed.

Lemma Qgtb_false (a b : Q) : Num.Qgtb a b = false <-> (a <= b)%Q.
Proof.
  unfold Num.Qgtb, Num.Qltb. rewrite negb_false_iff. apply Qle_bool_iff.
Qed.

Lemma Qltb_true (a b : Q) : Num.Qltb a b = true <-> (a < b)%Q.
Proof. apply (Qgtb_true b a). Qed.

Lemma Qltb_false (a b : Q) : Num.Qltb a b = false <-> (b <= a)%Q.
Proof. apply (Qgtb_false b a). Qed.

Section Doubles.
Local Open Scope Q_scope.

(** *** Rounding to a double *)

Lemma round_even_close (q : Q) :
  inject_Z (Num.round_even q) - (1 # 2) <= q
  /\ q <= inject_Z (Num.round_even q) + (1 # 2).
Proof.
  unfold Num.round_even. cbv zeta.
  pose proof (Qfloor_le q) as L. pose proof (Qlt_floor q) as U.
  rewrite inject_Z_plus in U. change (inject_Z 1) with 1 in U.
  destruct (Qcompare (q - inject_Z (Qfloor q)) (1 # 2)) eqn:E.
  - apply Qeq_alt in E. destruct (Z.even (Qfloor q)).
    + split; lra.
    + rewrite inject_Z_plus. change (inject_Z 1) with 1. split; lra.
  - apply Qlt_alt in E. split; lra.
  - apply Qgt_alt in E. rewrite inject_Z_plus. change (inject_Z 1) with 1.
    split; lra.
Qed.

Lemma pow2_pos (z : Z) : 0 < 2 ^ z.
Proof. apply Qpower_0_lt. reflexivity. Qed.

Lemma exponent_le (q : Q) : 0 < q -> 2 ^ Num.exponent q <= q.
Proof.
  intro Hq. unfold Num.exponent. cbv zeta.
  destruct (Qle_bool _ q) eqn:E; [apply Qle_bool_iff; exact E|].
  destruct q as [n d]. cbn [Qnum Qden].
  assert (Hn : (0 < n)%Z).
  { unfold Qlt in Hq. cbn in Hq. lia. }
  pose proof (Z.log2_spec n Hn) as [Ln _].
  pose proof (Z.log2_spec (Zpos d) (Pos2Z.is_pos d)) as [_ Ud].
  pose proof (Z.log2_nonneg n) as Nn.
  pose proof (Z.log2_nonneg (Zpos d)) as Nd.
  replace (Z.log2 n - Z.log2 (Z.pos d) - 1)%Z
    with (Z.log2 n - Z.succ (Z.log2 (Z.pos d)))%Z by lia.
  rewrite Qpower_minus by (intro H; discriminate H).
  set (a := (2 ^ Z.log2 n)%Z) in *.
  set (b := (2 ^ Z.succ (Z.log2 (Z.pos d)))%Z) in *.
  assert (Ea : 2 ^ Z.log2 n == inject_Z a)
    by (unfold a; rewrite Zpower_Qpower by lia; reflexivity).
  assert (Eb : 2 ^ Z.succ (Z.log2 (Z.pos d)) == inject_Z b)
    by (unfold b; rewrite Zpower_Qpower by lia; reflexivity).
  rewrite Ea, Eb.
  assert (Hb : (0 < b)%Z) by lia.
  apply Qle_shift_div_r; [change 0 with (inject_Z 0); rewrite <- Zlt_Qlt; exact Hb|].
  unfold Qle, Qmult, inject_Z. cbn [Qnum Qden].
  rewrite !Z.mul_1_r. 
  assert (H1 : (a * Z.pos d <= n * Z.pos d)%Z) by nia.
  assert (H2 : (n * Z.pos d <= n * b)%Z) by nia.
  lia.
Qed.

(** The relative error of rounding is at most [2^-53]. *)
Lemma nearest_close (q : Q) :
  0 < q ->
  q * (1 - Num.unit_roundoff) <= Num.nearest q
  /\ Num.nearest q <= q * (1 + Num.unit_roundoff).
Proof.
  intro Hq. unfold Num.nearest. cbv zeta. rewrite Qred_correct.
  pose proof (exponent_le q Hq) as HE.
  set (E := Num.exponent q) in *.
  pose proof (pow2_pos (E - 52)) as Hs.
  assert (Es : 2 ^ E == 2 ^ (E - 52) * 4503599627370496).
  { replace E with ((E - 52) + 52)%Z at 1 by lia.
    rewrite Qpower_plus by (intro H; discriminate H). reflexivity. }
  set (s := 2 ^ (E - 52)) in *.
  destruct (round_even_close (q / s)) as [L U].
  set (m := inject_Z (Num.round_even (q / s))) in *.
  assert (Eq : q / s * s == q) by (field; lra).
  assert (L' : (m - (1 # 2)) * s <= q).
  { rewrite <- Eq. apply Qmult_le_compat_r; [exact L|lra]. }
  assert (U' : q <= (m + (1 # 2)) * s).
  { rewrite <- Eq at 1. apply Qmult_le_compat_r; [exact U|lra]. }
  unfold Num.unit_roundoff.
  rewrite Es in HE.
  split; lra.
Qed.

Lemma double_zero (q : Q) : q == 0 -> Num.double q = 0.
Proof.
  intro H. unfold Num.double.
  assert (E : Qnum q = 0%Z).
  { unfold Qeq in H. cbn in H. lia. }
  rewrite E. reflexivity.
Qed.

Lemma double_close (q : Q) :
  0 <= q ->
  q * (1 - Num.unit_roundoff) <= Num.double q
  /\ Num.double q <= q * (1 + Num.unit_roundoff).
Proof.
  intro Hq. unfold Num.double.
  destruct q as [[|n|n] d]; cbn [Qnum].
  - split; unfold Qle; cbn; lia.
  - apply nearest_close. reflexivity.
  - exfalso. unfold Qle in Hq. cbn in Hq. lia.
Qed.

Lemma double_nonneg (q : Q) : 0 <= q -> 0 <= Num.double q.
Proof.
  intro Hq. destruct (double_close q Hq) as [L _].
  unfold Num.unit_roundoff in L.
  assert (0 <= q * (1 - (1 # 9007199254740992))).
  { apply Qmult_le_0_compat; [exact Hq|]. unfold Qle. cbn. lia. }
  lra.
Qed.


(** *** Whole numbers are doubles *)

Lemma round_even_whole (q : Q) (k : Z) :
  q == inject_Z k -> Num.round_even q = k.
Proof.
  intro H. unfold Num.round_even. cbv zeta.
  assert (F : Qfloor q = k) by (rewrite H; apply Qfloor_Z).
  rewrite F.
  destruct (Qcompare (q - inject_Z k) (1 # 2)) eqn:C.
  - apply Qeq_alt in C. lra.
  - reflexivity.
  - apply Qgt_alt in C. lra.
Qed.

Lemma nearest_whole (q : Q) (n : Z) :
  q == inject_Z n -> (0 < n <= 9007199254740992)%Z ->
  Num.nearest q == inject_Z n.
Proof.
  intros E [Hpos Hmax].
  assert (Hq : 0 < q).
  { rewrite E. change 0 with (inject_Z 0). rewrite <- Zlt_Qlt. exact Hpos. }
  assert (Hle : q <= 2 ^ 53).
  { rewrite E. change (2 ^ 53) with (inject_Z 9007199254740992).
    rewrite <- Zle_Qle. exact Hmax. }
  pose proof (exponent_le q Hq) as HE.
  unfold Num.nearest. cbv zeta. rewrite Qred_correct.
  set (e := Num.exponent q) in *.
  assert (He : (e <= 53)%Z).
  { destruct (Z_le_gt_dec e 53) as [H|H]; [exact H|exfalso].
    assert (H54 : 2 ^ 54 <= 2 ^ e)
      by (apply Qpower_le_compat_l; [lia|discriminate]).
    assert (Hlt : 2 ^ 53 < 2 ^ 54) by reflexivity.
    lra. }
  pose proof (pow2_pos (e - 52)) as Hs.
  assert (Hk : exists k : Z, q / 2 ^ (e - 52) == inject_Z k).
  { destruct (Z_le_gt_dec e 52) as [H|H].
    - exists (n * 2 ^ (52 - e))%Z.
      rewrite inject_Z_mult, Zpower_Qpower by lia.
      replace (e - 52)%Z with (- (52 - e))%Z by lia.
      rewrite Qpower_opp. rewrite E.
      change (inject_Z 2) with 2.
      pose proof (pow2_pos (52 - e)).
      field. lra.
    - assert (e = 53%Z) by lia. subst e.
      exists 4503599627370496%Z.
      assert (E53 : q == 2 ^ 53).
      { apply Qle_antisym; [exact Hle|].
        replace (Num.exponent q) with 53%Z in HE by lia. exact HE. }
      replace (Num.exponent q) with 53%Z by lia.
      rewrite E53. reflexivity. }
  destruct Hk as (k & Hk).
  rewrite (round_even_whole _ k Hk), <- Hk, <- E.
  field. lra.
Qed.

Lemma double_whole (q : Q) (n : Z) :
  q == inject_Z n -> (0 <= n <= 9007199254740992)%Z ->
  Num.double q == inject_Z n.
Proof.
  intros E [Hpos Hmax].
  destruct (Z.eq_dec n 0) as [->|Hn].
  - rewrite (double_zero q E). reflexivity.
  - assert (Hq : 0 < q).
    { rewrite E. change 0 with (inject_Z 0). rewrite <- Zlt_Qlt. lia. }
    unfold Num.double.
    destruct q as [[|a|a] d]; cbn [Qnum].
    + exfalso. apply (Qlt_irrefl 0). exact Hq.
    + apply nearest_whole; [exact E|lia].
    + exfalso. unfold Qlt in Hq. cbn in Hq. lia.
Qed.

(** *** Powers of the rounding factors *)

Lemma Qpower_succ (q : Q) (k : nat) :
  q ^ Z.of_nat (S k) == q ^ Z.of_nat k * q.
Proof.
  rewrite Nat2Z.inj_succ. unfold Z.succ.
  rewrite Qpower_plus' by lia. reflexivity.
Qed.

Lemma up_pos : 0 < 1 + Num.unit_roundoff.
Proof. reflexivity. Qed.

Lemma down_pos : 0 < 1 - Num.unit_roundoff.
Proof. reflexivity. Qed.

Lemma up_power (j k : nat) :
  1 <= (1 + Num.unit_roundoff) ^ Z.of_nat j
  /\ (1 + Num.unit_roundoff) ^ Z.of_nat j
     <= (1 + Num.unit_roundoff) ^ Z.of_nat (j + k).
Proof.
  split.
  - apply Qpower_1_le; [discriminate|lia].
  - apply Qpower_le_compat_l; [lia|discriminate].
Qed.

Lemma down_power (j k : nat) :
  0 < (1 - Num.unit_roundoff) ^ Z.of_nat (j + k)
  /\ (1 - Num.unit_roundoff) ^ Z.of_nat (j + k)
     <= (1 - Num.unit_roundoff) ^ Z.of_nat j.
Proof.
  split; [apply Qpower_0_lt; reflexivity|].
  induction k as [|k IH].
  - rewrite Nat.add_0_r. apply Qle_refl.
  - rewrite Nat.add_succ_r, Qpower_succ.
    assert (P : 0 < (1 - Num.unit_roundoff) ^ Z.of_nat (j + k))
      by (apply Qpower_0_lt; reflexivity).
    unfold Num.unit_roundoff in *.
    set (a := (1 - (1 # 9007199254740992)) ^ Z.of_nat (j + k)) in *.
    lra.
Qed.

Lemma up_power_le (k : nat) :
  (Z.of_nat k <= 4503599627370496)%Z ->
  (1 + Num.unit_roundoff) ^ Z.of_nat k
  <= 1 + inject_Z (Z.of_nat k) * (2 * Num.unit_roundoff).
Proof.
  induction k as [|k IH]; intro Hk.
  - discriminate.
  - rewrite Qpower_succ, Nat2Z.inj_succ. unfold Z.succ.
    rewrite inject_Z_plus. change (inject_Z 1) with 1.
    assert (Hk' : (Z.of_nat k <= 4503599627370495)%Z) by lia.
    specialize (IH ltac:(lia)).
    rewrite Zle_Qle in Hk'.
    change (inject_Z 4503599627370495) with 4503599627370495 in Hk'.
    assert (H0 : 0 <= inject_Z (Z.of_nat k)).
    { change 0 with (inject_Z 0). rewrite <- Zle_Qle. lia. }
    unfold Num.unit_roundoff in *.
    set (a := inject_Z (Z.of_nat k)) in *.
    set (p := (1 + (1 # 9007199254740992)) ^ Z.of_nat k) in *.
    lra.
Qed.

Lemma down_power_ge (k : nat) :
  1 - inject_Z (Z.of_nat k) * Num.unit_roundoff
  <= (1 - Num.unit_roundoff) ^ Z.of_nat k.
Proof.
  induction k as [|k IH].
  - discriminate.
  - rewrite Qpower_succ, Nat2Z.inj_succ. unfold Z.succ.
    rewrite inject_Z_plus. change (inject_Z 1) with 1.
    assert (H0 : 0 <= inject_Z (Z.of_nat k)).
    { change 0 with (inject_Z 0). rewrite <- Zle_Qle. lia. }
    unfold Num.unit_roundoff in *.
    set (a := inject_Z (Z.of_nat k)) in *.
    set (p := (1 - (1 # 9007199254740992)) ^ Z.of_nat k) in *.
    lra.
Qed.

(** *** Sums in doubles *)

Lemma rounded_exact (k : nat) (exact exact' value : Q) :
  exact == exact' -> Spec.rounded k exact value -> Spec.rounded k exact' value.
Proof. unfold Spec.rounded. intros E [L U]. rewrite <- E. split; assumption. Qed.

Lemma rounded_step (j k : nat) (S F e c : Q) :
  0 <= S -> 0 <= e ->
  Spec.rounded (j + k) S F -> Spec.rounded j e c ->
  Spec.rounded (j + Datatypes.S k) (S + e) (Num.add F c).
Proof.
  intros HS He [LF UF] [Lc Uc].
  destruct (up_power j k) as [U1 U2].
  destruct (down_power j k) as [D1 D2].
  assert (D0 : 0 < (1 - Num.unit_roundoff) ^ Z.of_nat j)
    by (apply Qpower_0_lt; reflexivity).
  unfold Spec.rounded.
  rewrite Nat.add_succ_r, !Qpower_succ.
  set (P := (1 + Num.unit_roundoff) ^ Z.of_nat (j + k)) in *.
  set (Pj := (1 + Num.unit_roundoff) ^ Z.of_nat j) in *.
  set (M := (1 - Num.unit_roundoff) ^ Z.of_nat (j + k)) in *.
  set (Mj := (1 - Num.unit_roundoff) ^ Z.of_nat j) in *.
  assert (HSM : 0 <= S * M) by (apply Qmult_le_0_compat; lra).
  assert (HeM : 0 <= e * Mj) by (apply Qmult_le_0_compat; lra).
  assert (H1 : e * Pj <= e * P).
  { rewrite !(Qmult_comm e). apply Qmult_le_compat_r; assumption. }
  assert (H2 : e * M <= e * Mj).
  { rewrite !(Qmult_comm e). apply Qmult_le_compat_r; assumption. }
  assert (Hsum : 0 <= F + c) by lra.
  destruct (double_close (F + c) Hsum) as [L U].
  unfold Num.add. unfold Num.unit_roundoff in *.
  set (d := Num.double (F + c)) in *.
  split; lra.
Qed.

Lemma total_nonneg (xs : list Q) : Forall (fun x => 0 <= x) xs -> 0 <= Spec.total xs.
Proof.
  induction 1 as [|x xs Hx _ IH]; unfold Spec.total in *; cbn [fold_right]; lra.
Qed.

Lemma rounded_fold {A : Type} (c e : A -> Q) (j : nat) (items : list A) :
  Forall (fun x => 0 <= e x /\ Spec.rounded j (e x) (c x)) items ->
  forall (k : nat) (F S : Q),
    0 <= S -> Spec.rounded (j + k) S F ->
    Spec.rounded (j + (k + List.length items)) (S + Spec.total (map e items))
            (fold_left (fun sum x => Num.add sum (c x)) items F).
Proof.
  induction 1 as [|x items [He Hx] _ IH]; intros k F S HS HF.
  - cbn [List.length map fold_left]. rewrite Nat.add_0_r.
    apply (rounded_exact _ S); [unfold Spec.total; cbn [fold_right]; ring|exact HF].
  - cbn [List.length map fold_left].
    rewrite Nat.add_succ_r, <- Nat.add_succ_l.
    apply (rounded_exact _ (S + e x + Spec.total (map e items))).
    { unfold Spec.total. cbn [fold_right]. ring. }
    apply IH; [lra|].
    apply rounded_step; assumption.
Qed.

Lemma whole_nonneg (q : Q) : Spec.whole q -> 0 <= q.
Proof.
  intros (n & Hn & E). rewrite E. change 0 with (inject_Z 0).
  rewrite <- Zle_Qle. exact Hn.
Qed.

Lemma whole_plus (a b : Q) : Spec.whole a -> Spec.whole b -> Spec.whole (a + b).
Proof.
  intros (n & Hn & En) (m & Hm & Em). exists (n + m)%Z.
  split; [lia|]. rewrite inject_Z_plus, En, Em. reflexivity.
Qed.

Lemma add_whole (a b : Q) :
  Spec.whole a -> Spec.whole b -> a + b <= 9007199254740992 -> Num.add a b == a + b.
Proof.
  intros Ha Hb Hmax.
  destruct (whole_plus a b Ha Hb) as (n & Hn & E).
  unfold Num.add. rewrite (double_whole _ n E); [symmetry; exact E|].
  split; [exact Hn|].
  rewrite E in Hmax. change 9007199254740992 with (inject_Z 9007199254740992) in Hmax.
  rewrite <- Zle_Qle in Hmax. exact Hmax.
Qed.

Lemma whole_comp (a b : Q) : a == b -> Spec.whole a -> Spec.whole b.
Proof. intros E (n & Hn & En). exists n. split; [exact Hn|]. rewrite <- E. exact En. Qed.

Lemma whole_fold {A : Type} (c : A -> Q) (items : list A) :
  Forall (fun x => Spec.whole (c x)) items ->
  forall F : Q,
    Spec.whole F -> F + Spec.total (map c items) <= 9007199254740992 ->
    fold_left (fun sum x => Num.add sum (c x)) items F
    == F + Spec.total (map c items).
Proof.
  induction 1 as [|x items Hx Hall IH]; intros F HF Hmax.
  - cbn [map fold_left]. unfold Spec.total. cbn [fold_right]. ring.
  - cbn [map fold_left].
    assert (Hrest : 0 <= Spec.total (map c items)).
    { apply total_nonneg. apply Forall_map.
      revert Hall. apply Forall_impl. intro a. apply whole_nonneg. }
    assert (Et : Spec.total (c x :: map c items) == c x + Spec.total (map c items))
      by reflexivity.
    cbn [map] in Hmax. rewrite Et in Hmax.
    assert (E : Num.add F (c x) == F + c x) by (apply add_whole; [assumption..|lra]).
    rewrite IH.
    + rewrite E, Et. ring.
    + apply (whole_comp (F + c x)); [symmetry; exact E|].
      apply whole_plus; assumption.
    + rewrite E. lra.
Qed.

(** *** A product by a ratio of the estimation table *)

Lemma product_close (n ratio : Q) :
  0 <= n <= 4294967296 -> 0 <= ratio <= 1 ->
  n * ratio - (1 # 100) < Num.mul n (Num.double ratio)
  /\ Num.mul n (Num.double ratio) < n * ratio + (1 # 100).
Proof.
  intros [Hn Hmax] [Hr Hone].
  destruct (double_close ratio Hr) as [Lr Ur].
  pose proof (double_nonneg ratio Hr) as Hd.
  set (r := Num.double ratio) in *.
  assert (Hx : 0 <= n * r) by (apply Qmult_le_0_compat; assumption).
  destruct (double_close (n * r) Hx) as [L U].
  unfold Num.mul. set (w := Num.double (n * r)) in *.
  assert (Hv : 0 <= n * ratio) by (apply Qmult_le_0_compat; assumption).
  assert (Hv' : n * ratio <= 4294967296).
  { apply Qle_trans with (n * 1); [|lra].
    rewrite !(Qmult_comm n). apply Qmult_le_compat_r; assumption. }
  assert (L1 : n * (ratio * (1 - Num.unit_roundoff)) <= n * r).
  { rewrite !(Qmult_comm n). apply Qmult_le_compat_r; assumption. }
  assert (U1 : n * r <= n * (ratio * (1 + Num.unit_roundoff))).
  { rewrite !(Qmult_comm n). apply Qmult_le_compat_r; assumption. }
  unfold Num.unit_roundoff in *.
  split; lra.
Qed.

End Doubles.

(** ** The performance score *)

Section Score.

Import PerformanceAnalyzer.
Import Spec.

(** The score before the final clamp: 100, minus the four penalties, plus
    the bonus. *)
Lemma score_cases (this : t) :
  exists size ratio count external bonus : Z,
    calculatePerformanceScore this
    = Z.max 0 (Z.min 100 (100 - size - ratio - count - external + bonus))
    /\ (0 <= size <= 30 /\ 0 <= ratio <= 15 /\ 0 <= count <= 15
        /\ 0 <= external <= 10 /\ 0 <= bonus <= 10)%Z.
Proof.
  unfold calculatePerformanceScore. rewrite round_inject_Z.
  set (b1 := Num.Qgtb _ (1024 * 1024)). set (b2 := Num.Qgtb _ (500 * 1024)).
  set (b3 := Num.Qgtb _ (250 * 1024)).
  exists (if b1 then 30 else if b2 then 20 else if b3 then 10 else 0)%Z.
  match goal with
  | |- context [if ?g && ?p then (if ?r1 then _ else if ?r2 then _ else _) else _] =>
      exists (if g && p then (if r1 then 15 else if r2 then 5 else 0) else 0)%Z
  end.
  set (n := List.length (modules (bundleData this))).
  set (e := List.length (filter mod_isExternal (modules (bundleData this)))).
  exists (if (200 <? n)%nat then 15
          else if (100 <? n)%nat then 10
          else if (50 <? n)%nat then 5 else 0)%Z.
  exists (if (30 <? e)%nat then 10 else if (20 <? e)%nat then 5 else 0)%Z.
  exists (if (1 <? List.length (chunks (bundleData this)))%nat then 10 else 0)%Z.
  split.
  - f_equal. f_equal.
    repeat match goal with
           | |- context [if ?b then _ else _] => destruct b
           end; reflexivity.
  - repeat match goal with
           | |- context [if ?b then _ else _] => destruct b
           end; lia.
Qed.

(** C2. Whatever the aggregate, the performance score is an integer (a [Z],
    the value of [Math.round]) between 0 and 100. *)
Theorem performanceScore_in_0_100 (this : t) :
  (0 <= calculatePerformanceScore this <= 100)%Z.
Proof. unfold calculatePerformanceScore. lia. Qed.

(** C10. Whatever the aggregate, the performance score is at least 30: the
    penalties add up to 70 at most, so the clamp at 0 never binds. *)
Theorem performanceScore_at_least_30 (this : t) :
  (30 <= calculatePerformanceScore this)%Z.
Proof.
  destruct (score_cases this) as (a & b & c & d & e & -> & H). lia.
Qed.

(** C5, as stated, fails: an aggregate of that shape whose large module was
    measured at 1,000,000 compressed bytes (a ratio above 0.4) scores 30.
    Its totals are the sums over its modules. *)
Lemma score_of_measured_example :
  example_shape Sample.measured
  /\ (totalSize Sample.measured
      == BundleAnalyzer.sum_size (modules Sample.measured))%Q
  /\ (totalGzipSize Sample.measured
      == BundleAnalyzer.sum_gzipSize (modules Sample.measured))%Q
  /\ calculatePerformanceScore (new Sample.measured) = 30%Z
  /\ calculatePerformanceScore (new Sample.measured) <> 45%Z.
Proof.
  unfold example_shape. repeat split; try (vm_compute; reflexivity).
  vm_compute. discriminate.
Qed.

(** The compression penalty of an aggregate that compresses to 30% or less. *)
Lemma no_compression_penalty (size gzip : Q) (score : Z) :
  (gzip <= (3 # 10) * size)%Q ->
  (if negb (Qeq_bool gzip 0) && Num.Qgtb size 0 then
     if Num.Qgtb (gzip / size) (4 # 10) then (score - 15)%Z
     else if Num.Qgtb (gzip / size) (3 # 10) then (score - 5)%Z
     else score
   else score) = score.
Proof.
  intros Hle.
  destruct (negb (Qeq_bool gzip 0) && Num.Qgtb size 0) eqn:E; [|reflexivity].
  apply andb_true_iff in E. destruct E as [_ Hpos].
  apply Qgtb_true in Hpos.
  assert (Hratio : (gzip / size <= 3 # 10)%Q).
  { apply Qle_shift_div_r; [exact Hpos|exact Hle]. }
  assert (H4 : Num.Qgtb (gzip / size) (4 # 10) = false).
  { apply Qgtb_false. eapply Qle_trans; [exact Hratio|]. discriminate. }
  assert (H3 : Num.Qgtb (gzip / size) (3 # 10) = false).
  { apply Qgtb_false. exact Hratio. }
  rewrite H4, H3. reflexivity.
Qed.

(** C5, amended. An aggregate of 1,572,864 bytes, 250 modules of which 35
    external, and one chunk, whose compressed total is at most 30% of its
    size, scores 100 - 30 - 15 - 10 = 45. *)
Theorem score_of_example (this : t) :
  example_shape (bundleData this) ->
  (totalGzipSize (bundleData this) <= (3 # 10) * totalSize (bundleData this))%Q ->
  calculatePerformanceScore this = 45%Z.
Proof.
  intros (Hsize & Hcount & Hext & Hchunks) Hgzip.
  unfold calculatePerformanceScore.
  rewrite (no_compression_penalty _ _ _ Hgzip).
  rewrite Hcount, Hext, Hchunks.
  assert (H1 : Num.Qgtb (totalSize (bundleData this)) (1024 * 1024) = true).
  { apply Qgtb_true. rewrite Hsize. reflexivity. }
  rewrite H1. reflexivity.
Qed.

Lemma score_of_example_witness :
  example_shape Sample.estimated
  /\ calculatePerformanceScore (new Sample.estimated) = 45%Z.
Proof.
  assert (H : example_shape Sample.estimated).
  { unfold example_shape. repeat split; vm_compute; reflexivity. }
  split; [exact H|].
  apply (score_of_example (new Sample.estimated) H).
  vm_compute. discriminate.
Defined.

End Score.

(** ** Ingestion *)

Section Ingestion.

Import BundleAnalyzer.

Variable P : Platform.

(** [processFile] catches whatever its body throws. *)
Lemma processFile_returns (file : File) (this : t) :
  fst (processFile P file this) = Returned tt.
Proof.
  unfold processFile, try_catch.
  destruct (processFile_body P file this) as [[[]|] this']; reflexivity.
Qed.

Lemma for_of_processFile (files : list File) (this : t) :
  for_of files (processFile P) this
  = (Returned tt, fold_left (after_file P) files this).
Proof.
  revert this. induction files as [|file files IH]; intro this.
  - reflexivity.
  - simpl. unfold bind at 1.
    pose proof (processFile_returns file this) as H.
    unfold after_file at 2.
    destruct (processFile P file this) as [r this']. simpl in H. subst r.
    simpl. apply IH.
Qed.

(** [analyzeFiles] returns, whatever the files and the earlier fields. *)
Lemma analyzeFiles_returns (files : list File) (this : t) :
  analyzeFiles P files this
  = (Returned (bundle_of P files (generateInsights P (loaded P files))),
     generateInsights P (loaded P files)).
Proof.
  unfold analyzeFiles, bind, reset.
  rewrite for_of_processFile. reflexivity.
Qed.

Lemma fold_push_insight {A : Type} (f : A -> OptimizationInsight)
      (items : list A) (this : t) :
  fold_left (fun this x => push_insight (f x) this) items this
  = mkState (st_modules this) (st_chunks this)
            (st_insights this ++ map f items).
Proof.
  revert this. induction items as [|x items IH]; intro this; simpl.
  - rewrite app_nil_r. destruct this; reflexivity.
  - rewrite IH. simpl. rewrite <- app_assoc. reflexivity.
Qed.

(** *** The insight rules leave modules and chunks alone *)

Lemma keeps_refl this : keeps this this.
Proof. split; reflexivity. Qed.

Lemma keeps_trans a b c : keeps a b -> keeps b c -> keeps a c.
Proof. intros [H1 H2] [H3 H4]. split; congruence. Qed.

Lemma keeps_push i this : keeps this (push_insight i this).
Proof. split; reflexivity. Qed.

Lemma keeps_if (c : bool) i a this :
  keeps a this -> keeps a (if c then push_insight i this else this).
Proof.
  destruct c; [intro H; eapply keeps_trans; [exact H|apply keeps_push]|auto].
Qed.

Lemma keeps_if2 (c1 c2 : bool) i1 i2 a this :
  keeps a this ->
  keeps a (if c1 then push_insight i1 this
           else if c2 then push_insight i2 this else this).
Proof. destruct c1; [apply (keeps_if true)|apply keeps_if]. Qed.

Lemma keeps_if3 (c1 c2 : bool) i1 i2 i3 a this :
  keeps a this ->
  keeps a (if c1 then push_insight i1 this
           else if c2 then push_insight i2 this else push_insight i3 this).
Proof.
  intro H. destruct c1; [|destruct c2];
    (eapply keeps_trans; [exact H|apply keeps_push]).
Qed.

Lemma keeps_fold {A : Type} (f : A -> OptimizationInsight) items this :
  keeps this (fold_left (fun this x => push_insight (f x) this) items this).
Proof. rewrite fold_push_insight. split; reflexivity. Qed.

(** Name the next [let] of the method under scrutiny. *)
Ltac pull_let :=
  match goal with
  | |- keeps ?a (let x := ?e in @?b x) =>
      let y := fresh x in
      pose (y := e); change (keeps a (b y)); cbv beta
  end.

Ltac keeps_step :=
  first
    [ apply keeps_refl
    | apply keeps_if3
    | apply keeps_if2
    | apply keeps_if
    | (eapply keeps_trans; [|apply keeps_push])
    | (eapply keeps_trans; [|apply keeps_fold])
    | match goal with
      | x := _ : t |- keeps _ ?x => subst x
      end ].

Lemma keeps_generatePerformanceInsights totalSize totalGzipSize this :
  keeps this (generatePerformanceInsights P totalSize totalGzipSize this).
Proof.
  unfold generatePerformanceInsights.
  repeat pull_let. repeat keeps_step.
Qed.

Lemma keeps_generateBasicInsights this :
  keeps this (generateBasicInsights P this).
Proof.
  unfold generateBasicInsights.
  repeat pull_let.
  repeat first
         [ keeps_step
         | (eapply keeps_trans; [|apply keeps_generatePerformanceInsights]) ].
Qed.

Lemma keeps_generateInsights this : keeps this (generateInsights P this).
Proof.
  unfold generateInsights, analyzePerformance, analyzeDuplicates,
    analyzeTreeShakingPotential, analyzeCodeSplittingOpportunities,
    analyzeLargeDependencies.
  repeat pull_let.
  repeat first
         [ keeps_step
         | (eapply keeps_trans; [|apply keeps_generateBasicInsights]) ].
  split; reflexivity.
Qed.

(** *** Totals *)

Lemma rounded_same (k : nat) (q : Q) : (0 <= q)%Q -> Spec.rounded k q q.
Proof.
  intro Hq. unfold Spec.rounded.
  destruct (up_power 0 k) as [_ U]. destruct (down_power 0 k) as [_ D].
  cbn [Nat.add] in U, D.
  change ((1 + Num.unit_roundoff) ^ Z.of_nat 0)%Q with 1%Q in U.
  change ((1 - Num.unit_roundoff) ^ Z.of_nat 0)%Q with 1%Q in D.
  split.
  - apply Qle_trans with (q * 1)%Q; [|rewrite Qmult_1_r; apply Qle_refl].
    rewrite !(Qmult_comm q). apply Qmult_le_compat_r; assumption.
  - apply Qle_trans with (q * 1)%Q; [rewrite Qmult_1_r; apply Qle_refl|].
    rewrite !(Qmult_comm q). apply Qmult_le_compat_r; assumption.
Qed.

(** The share of a module, as the code computes it, is its share up to
    the two roundings of [0.3] and of the product. *)
Lemma share_rounded (m : BundleModule) :
  Spec.in_bytes m ->
  (0 <= Spec.gzip_share m)%Q
  /\ Spec.rounded 2 (Spec.gzip_share m)
                  (Num.or_else (mod_gzipSize m)
                               (Num.mul (mod_size m) (Num.double (3 # 10)))).
Proof.
  intros [Hsize Hgzip]. apply whole_nonneg in Hsize.
  assert (Hestimate :
            (0 <= (3 # 10) * mod_size m)%Q
            /\ Spec.rounded 2 ((3 # 10) * mod_size m)%Q
                            (Num.mul (mod_size m) (Num.double (3 # 10)))).
  { split; [lra|].
    assert (H3 : (0 <= 3 # 10)%Q) by discriminate.
    destruct (double_close (3 # 10) H3) as [Lr Ur].
    pose proof (double_nonneg (3 # 10) H3) as Hd.
    set (r := Num.double (3 # 10)) in *.
    assert (Hx : (0 <= mod_size m * r)%Q)
      by (apply Qmult_le_0_compat; assumption).
    destruct (double_close (mod_size m * r) Hx) as [L U].
    assert (L1 : (mod_size m * ((3 # 10) * (1 - Num.unit_roundoff))
                  <= mod_size m * r)%Q).
    { rewrite !(Qmult_comm (mod_size m)).
      apply Qmult_le_compat_r; assumption. }
    assert (U1 : (mod_size m * r
                  <= mod_size m * ((3 # 10) * (1 + Num.unit_roundoff)))%Q).
    { rewrite !(Qmult_comm (mod_size m)).
      apply Qmult_le_compat_r; assumption. }
    unfold Spec.rounded, Num.mul.
    change ((1 - Num.unit_roundoff) ^ Z.of_nat 2)%Q
      with ((1 - Num.unit_roundoff) * (1 - Num.unit_roundoff))%Q.
    change ((1 + Num.unit_roundoff) ^ Z.of_nat 2)%Q
      with ((1 + Num.unit_roundoff) * (1 + Num.unit_roundoff))%Q.
    unfold Num.unit_roundoff in *.
    set (w := Num.double (mod_size m * r)) in *.
    split; lra. }
  unfold Spec.gzip_share, Num.or_else.
  destruct (mod_gzipSize m) as [g|]; [|exact Hestimate].
  destruct (Qeq_bool g 0); [exact Hestimate|].
  apply whole_nonneg in Hgzip.
  split; [exact Hgzip|apply rounded_same; exact Hgzip].
Qed.

Lemma sum_size_rounded (ms : list BundleModule) :
  Forall Spec.in_bytes ms ->
  Spec.rounded (List.length ms) (Spec.total (map mod_size ms)) (sum_size ms).
Proof.
  intro H.
  apply (rounded_exact _ (0 + Spec.total (map mod_size ms))%Q); [ring|].
  apply (rounded_fold mod_size mod_size 0 ms) with (k := 0).
  - revert H. apply Forall_impl. intros m [Hm _].
    apply whole_nonneg in Hm. split; [exact Hm|apply rounded_same; exact Hm].
  - apply Qle_refl.
  - apply rounded_same. apply Qle_refl.
Qed.

Lemma sum_size_exact (ms : list BundleModule) :
  Forall Spec.in_bytes ms ->
  (Spec.total (map mod_size ms) <= 9007199254740992)%Q ->
  (sum_size ms == Spec.total (map mod_size ms))%Q.
Proof.
  intros H Hmax. unfold sum_size.
  rewrite (whole_fold mod_size ms).
  - ring.
  - revert H. apply Forall_impl. intros m [Hm _]. exact Hm.
  - exists 0%Z. split; [lia|reflexivity].
  - lra.
Qed.

Lemma sum_gzipSize_rounded (ms : list BundleModule) :
  Forall Spec.in_bytes ms ->
  Spec.rounded (2 + List.length ms) (Spec.total (map Spec.gzip_share ms))
               (sum_gzipSize ms).
Proof.
  intro H.
  apply (rounded_exact _ (0 + Spec.total (map Spec.gzip_share ms))%Q); [ring|].
  apply (rounded_fold
           (fun m => Num.or_else (mod_gzipSize m)
                                 (Num.mul (mod_size m) (Num.double (3 # 10))))
           Spec.gzip_share 2 ms) with (k := 0).
  - revert H. apply Forall_impl. exact share_rounded.
  - apply Qle_refl.
  - apply rounded_same. apply Qle_refl.
Qed.

(** *** Sizes are whole numbers of bytes *)

Lemma whole_of_nat (n : nat) : Spec.whole (Num.of_nat n).
Proof. exists (Z.of_nat n). split; [lia|reflexivity]. Qed.

Lemma whole_of_N (n : N) : Spec.whole (Num.of_N n).
Proof. exists (Z.of_N n). split; [lia|reflexivity]. Qed.

Lemma whole_floor (q : Q) : (0 <= q)%Q -> Spec.whole (inject_Z (Num.floor q)).
Proof.
  intro Hq. exists (Num.floor q). split; [|reflexivity].
  unfold Num.floor. rewrite <- (Qfloor_Z 0). apply Qfloor_resp_le. exact Hq.
Qed.

Lemma whole_byte_count (q : Q) : Spec.byte_count q = true -> Spec.whole q.
Proof.
  unfold Spec.byte_count. rewrite !andb_true_iff.
  intros [[Hpos _] Hwhole].
  apply Qle_bool_iff in Hpos. apply Qeq_bool_iff in Hwhole.
  exists (Qfloor q). split; [|exact Hwhole].
  rewrite <- (Qfloor_Z 0). apply Qfloor_resp_le. exact Hpos.
Qed.

Lemma plain_entry_sizes (entry : Json.value) (size gzipSize : option Json.value) :
  Spec.plain_entry entry = true ->
  Json.get "size" entry = Some size ->
  Json.get "gzipSize" entry = Some gzipSize ->
  Spec.whole (Num.or_else (as_number size) 0)
  /\ match as_number gzipSize with
     | Some g => Spec.whole g
     | None => True
     end.
Proof.
  assert (Hzero : Spec.whole 0) by (exists 0%Z; split; [lia|reflexivity]).
  assert (Hnumber :
            forall v, Spec.plain_number v = true ->
                      Spec.whole (Num.or_else (as_number v) 0)
                      /\ match as_number v with
                         | Some g => Spec.whole g
                         | None => True
                         end).
  { intros [[| |q| | |]|] Hv; cbn [as_number Num.or_else];
      try (split; [exact Hzero|exact I]).
    cbn [Spec.plain_number] in Hv. apply whole_byte_count in Hv.
    split; [|exact Hv]. destruct (Qeq_bool q 0); assumption. }
  intros Hplain Hsize Hgzip.
  destruct entry as [| | | | |fields]; cbn [Json.get] in Hsize, Hgzip;
    try discriminate;
    try (injection Hsize as <-; injection Hgzip as <-;
         split; [exact Hzero|exact I]).
  injection Hsize as <-. injection Hgzip as <-.
  cbn [Spec.plain_entry] in Hplain. apply andb_true_iff in Hplain.
  destruct Hplain as [H1 H2].
  split; [apply (Hnumber _ H1)|apply (Hnumber _ H2)].
Qed.

Lemma bytes_ret {A : Type} (a : A) : Notions.keeps_bytes (ret a).
Proof. intros this H. exact H. Qed.

Lemma bytes_throw {A : Type} : Notions.keeps_bytes (@throw A).
Proof. intros this H. exact H. Qed.

Lemma bytes_bind {A B : Type} (m : M A) (f : A -> M B) :
  Notions.keeps_bytes m -> (forall a, Notions.keeps_bytes (f a)) ->
  Notions.keeps_bytes (bind m f).
Proof.
  intros Hm Hf this H. unfold bind. specialize (Hm this H).
  destruct (m this) as [[a|] this']; cbn [snd] in *.
  - apply Hf. exact Hm.
  - exact Hm.
Qed.

Lemma bytes_must {A B : Type} (o : option A) (f : A -> M B) :
  (forall a, o = Some a -> Notions.keeps_bytes (f a)) ->
  Notions.keeps_bytes (bind (must o) f).
Proof.
  intros Hf this H. unfold bind, must, ret, throw.
  destruct o as [a|]; [apply (Hf a eq_refl this H)|exact H].
Qed.

Lemma bytes_try_catch {A : Type} (body handler : M A) :
  Notions.keeps_bytes body -> Notions.keeps_bytes handler ->
  Notions.keeps_bytes (try_catch body handler).
Proof.
  intros Hbody Hhandler this H. unfold try_catch. specialize (Hbody this H).
  destruct (body this) as [[a|] this']; cbn [snd] in *.
  - exact Hbody.
  - apply Hhandler. exact Hbody.
Qed.

Lemma bytes_push_modules (ms : list BundleModule) :
  Forall Spec.in_bytes ms -> Notions.keeps_bytes (push_modules ms).
Proof.
  intros Hms this H. unfold push_modules. cbn [snd st_modules].
  apply Forall_app. split; assumption.
Qed.

Lemma bytes_push_chunk (c : ChunkData) : Notions.keeps_bytes (push_chunk c).
Proof. intros this H. exact H. Qed.

Lemma bytes_forEach_from {A : Type} (body : A -> nat -> M unit)
      (items : list A) :
  Forall (fun item => forall index, Notions.keeps_bytes (body item index))
         items ->
  forall index, Notions.keeps_bytes (forEach_from index items body).
Proof.
  induction 1 as [|item items Hitem _ IH]; intro index.
  - apply bytes_ret.
  - cbn [forEach_from]. apply bytes_bind; [apply Hitem|intros _; apply IH].
Qed.

Lemma bytes_mapi_from {A : Type} (f : A -> nat -> BundleModule)
      (items : list A) (index : nat) :
  (forall item i, Spec.in_bytes (f item i)) ->
  Forall Spec.in_bytes (mapi_from index f items).
Proof.
  intro Hf. revert index.
  induction items as [|item items IH]; intro index; cbn [mapi_from].
  - constructor.
  - constructor; [apply Hf|apply IH].
Qed.

Lemma bytes_name_argument (v : option Json.value) :
  Notions.keeps_bytes (name_argument v).
Proof.
  unfold name_argument.
  destruct (Json.truthy v); [|apply bytes_ret].
  destruct v as [[]|]; first [apply bytes_ret|apply bytes_throw].
Qed.

Lemma bytes_processWebpackModules (v : option Json.value) :
  match v with
  | Some (Json.Array items) => forallb Spec.plain_entry items = true
  | _ => True
  end ->
  Notions.keeps_bytes (processWebpackModules P v).
Proof.
  intro Hplain. unfold processWebpackModules.
  destruct v as [[| | | |items|]|]; cbn [as_array];
    try (intros this H; exact H).
  intros this H. unfold bind at 1, ret at 1.
  revert this H. apply bytes_forEach_from.
  rewrite forallb_forall in Hplain. apply Forall_forall.
  intros entry Hin index. specialize (Hplain entry Hin).
  unfold prop.
  apply bytes_must. intros id _.
  apply bytes_must. intros name _.
  apply bytes_must. intros identifier _.
  apply bytes_must. intros size Hsize.
  apply bytes_must. intros gzipSize Hgzip.
  apply bytes_must. intros dependencies _.
  apply bytes_must. intros external _.
  cbv zeta.
  apply bytes_bind; [apply bytes_name_argument|]. intro argument.
  apply bytes_push_modules. constructor; [|constructor].
  unfold Spec.in_bytes. cbn [mod_size mod_gzipSize].
  apply (plain_entry_sizes entry); assumption.
Qed.

Lemma bytes_processWebpackChunks (v : option Json.value) :
  Notions.keeps_bytes (processWebpackChunks P v).
Proof.
  unfold processWebpackChunks.
  destruct v as [[| | | |items|]|]; cbn [as_array];
    try (intros this H; exact H).
  intros this H. unfold bind at 1, ret at 1.
  revert this H. apply bytes_forEach_from.
  apply Forall_forall. intros entry _ index.
  unfold prop.
  do 6 (apply bytes_must; intros ? _).
  apply bytes_push_chunk.
Qed.

Lemma bytes_processWebpackBundle (file : File) :
  Spec.plain_sizes P file = true ->
  Str.toLowerCase (extension_of (file_name file)) = "json" ->
  Notions.keeps_bytes (processWebpackBundle P file).
Proof.
  intros Hplain Hext. unfold Spec.plain_sizes in Hplain.
  rewrite Hext in Hplain. change (String.eqb "json" "json") with true in Hplain.
  cbv iota in Hplain.
  unfold processWebpackBundle, text, prop.
  apply bytes_must. intros content Htext. rewrite Htext in Hplain.
  apply bytes_must. intros data Hparse. rewrite Hparse in Hplain.
  apply bytes_must. intros modules Hmodules.
  destruct (Json.truthy modules).
  - apply bytes_processWebpackModules.
    destruct modules as [[| | | |items|]|]; try exact I.
    destruct data as [| | | | |fields]; cbn [Json.get] in Hmodules;
      try discriminate.
    injection Hmodules as Hmodules. rewrite Hmodules in Hplain. exact Hplain.
  - apply bytes_must. intros chunks _.
    destruct (Json.truthy chunks); [|apply bytes_ret].
    apply bytes_processWebpackChunks.
Qed.

Lemma bytes_processSourceMap (file : File) :
  Notions.keeps_bytes (processSourceMap P file).
Proof.
  unfold processSourceMap, text, prop.
  apply bytes_must. intros content _.
  apply bytes_must. intros data _.
  apply bytes_must. intros sources _.
  destruct (Json.truthy sources); [|apply bytes_ret].
  destruct sources as [[| | | |items|]|]; cbn [as_array];
    try (intros this H; exact H).
  intros this H. unfold bind at 1, ret at 1. unfold forEach.
  revert this H. apply bytes_forEach_from.
  apply Forall_forall. intros source _ index.
  destruct source; try apply bytes_throw.
  apply bytes_push_modules. constructor; [|constructor].
  split; [|exact I]. cbn [mod_size]. unfold estimateSourceSize.
  exists (Z.of_nat (String.length s) * 2)%Z. split; [lia|].
  unfold Num.of_nat. rewrite inject_Z_mult. reflexivity.
Qed.

Lemma bytes_processJavaScriptFile (file : File) :
  Notions.keeps_bytes (processJavaScriptFile file).
Proof.
  unfold processJavaScriptFile, text.
  apply bytes_must. intros content _. cbv zeta.
  apply bytes_push_modules. constructor; [|constructor].
  split; [|exact I]. cbn [mod_size]. apply whole_of_N.
Qed.

Lemma of_nat_nonneg (n : nat) : (0 <= Num.of_nat n)%Q.
Proof. apply whole_nonneg. apply whole_of_nat. Qed.

Lemma whole_estimate (n : nat) (ratio : Q) :
  (0 <= ratio)%Q ->
  Spec.whole (inject_Z (Num.floor (Num.mul (Num.of_nat n) (Num.double ratio)))).
Proof.
  intro H. apply whole_floor. unfold Num.mul. apply double_nonneg.
  apply Qmult_le_0_compat; [apply of_nat_nonneg|apply double_nonneg; exact H].
Qed.

Lemma bytes_estimateBundleModules (content : string) :
  Forall Spec.in_bytes (estimateBundleModules content).
Proof.
  unfold estimateBundleModules, mapi, moduleTypes. cbv zeta.
  cbn [mapi_from].
  repeat constructor; cbn [mod_size]; apply whole_estimate; discriminate.
Qed.

Lemma bytes_parseCompiledWebpackBundle (content filename : string) :
  Notions.keeps_bytes (parseCompiledWebpackBundle content filename).
Proof.
  unfold parseCompiledWebpackBundle. cbv zeta.
  destruct (0 <? _).
  - apply bytes_bind; [apply bytes_push_chunk|]. intros _.
    apply bytes_push_modules. unfold mapi. apply bytes_mapi_from.
    intros name index. split; [|exact I]. cbn [mod_size].
    apply whole_floor. unfold Qdiv.
    apply Qmult_le_0_compat; [apply of_nat_nonneg|].
    apply Qinv_le_0_compat. apply of_nat_nonneg.
  - apply bytes_push_modules. apply bytes_estimateBundleModules.
Qed.

Lemma bytes_tryParseAsWebpackBundle (file : File) :
  Notions.keeps_bytes (tryParseAsWebpackBundle file).
Proof.
  unfold tryParseAsWebpackBundle, text.
  apply bytes_try_catch; [|apply bytes_ret].
  apply bytes_must. intros content _. cbv zeta.
  destruct (_ || _); [|apply bytes_ret].
  apply bytes_bind; [apply bytes_parseCompiledWebpackBundle|].
  intros _. apply bytes_ret.
Qed.

Lemma bytes_processFile (file : File) :
  Spec.plain_sizes P file = true -> Notions.keeps_bytes (processFile P file).
Proof.
  intro Hplain. unfold processFile.
  apply bytes_try_catch; [|apply bytes_ret].
  unfold processFile_body. cbv zeta.
  destruct (String.eqb_spec
              (Str.toLowerCase (extension_of (file_name file))) "json")
    as [Hext|_].
  { apply bytes_processWebpackBundle; assumption. }
  destruct (String.eqb _ "map"); [apply bytes_processSourceMap|].
  destruct (String.eqb _ "js"); [|apply bytes_ret].
  apply bytes_bind; [apply bytes_tryParseAsWebpackBundle|].
  intros [|]; cbn [negb]; [apply bytes_ret|apply bytes_processJavaScriptFile].
Qed.

Lemma bytes_loaded (files : list File) :
  forallb (Spec.plain_sizes P) files = true ->
  Forall Spec.in_bytes (st_modules (loaded P files)).
Proof.
  unfold loaded.
  assert (H : forall this,
             forallb (Spec.plain_sizes P) files = true ->
             Forall Spec.in_bytes (st_modules this) ->
             Forall Spec.in_bytes
                    (st_modules (fold_left (after_file P) files this))).
  { induction files as [|file files IH]; intros this Hplain Hthis.
    - exact Hthis.
    - cbn [forallb] in Hplain. apply andb_true_iff in Hplain.
      destruct Hplain as [Hfile Hfiles].
      cbn [fold_left]. apply IH; [exact Hfiles|].
      unfold after_file. apply bytes_processFile; assumption. }
  intro Hplain. apply H; [exact Hplain|constructor].
Qed.

(** C1, amended. For every list of files whose stats entries carry sizes of
    the declared type (a whole number of bytes up to [2^53], or a value
    that [||] replaces), [analyzeFiles] returns an aggregate whose
    [totalSize] is the sum of the sizes of its modules, exactly when that
    sum is at most [2^53] and up to the rounding of the additions
    otherwise, and whose [totalGzipSize] is, up to the rounding of the
    products by [0.3] and of the additions, the sum over its modules of
    the compressed size when it is present and not zero, and of 30% of the
    size otherwise. *)
Theorem totals_of_aggregate (files : list File) (this : t) :
  forallb (Spec.plain_sizes P) files = true ->
  exists data this',
    analyzeFiles P files this = (Returned data, this')
    /\ Spec.totals data.
Proof.
  intro Hplain.
  eexists. eexists. split; [apply analyzeFiles_returns|].
  unfold Spec.totals, bundle_of. cbv zeta.
  cbn [totalSize totalGzipSize modules].
  destruct (keeps_generateInsights (loaded P files)) as [Hmodules _].
  rewrite Hmodules.
  pose proof (bytes_loaded files Hplain) as Hbytes.
  split; [apply sum_size_rounded; exact Hbytes|].
  split; [apply sum_size_exact; exact Hbytes|].
  apply sum_gzipSize_rounded. exact Hbytes.
Qed.

(** *** Files that fail *)

Lemma unreadable_is_skipped (file : File) (this : t) :
  file_text file = None -> processFile P file this = (Returned tt, this).
Proof.
  intro H.
  unfold processFile, processFile_body, try_catch.
  destruct (String.eqb _ "json").
  { unfold processWebpackBundle, bind, text, must. rewrite H. reflexivity. }
  destruct (String.eqb _ "map").
  { unfold processSourceMap, bind, text, must. rewrite H. reflexivity. }
  destruct (String.eqb _ "js"); [|reflexivity].
  unfold tryParseAsWebpackBundle, processJavaScriptFile, try_catch, bind, text,
    must.
  rewrite H. reflexivity.
Qed.

Lemma malformed_is_skipped (file : File) (content : string) (this : t) :
  (let extension := Str.toLowerCase (extension_of (file_name file)) in
   extension = "json" \/ extension = "map") ->
  file_text file = Some content ->
  JSON_parse P content = None ->
  processFile P file this = (Returned tt, this).
Proof.
  intros Hext Htext Hparse.
  unfold processFile, processFile_body, try_catch.
  cbv zeta in Hext.
  destruct Hext as [-> | ->].
  - change (String.eqb "json" "json") with true. cbv iota.
    unfold processWebpackBundle, bind, text, must, ret. rewrite Htext.
    cbv beta iota. rewrite Hparse. reflexivity.
  - change (String.eqb "map" "json") with false.
    change (String.eqb "map" "map") with true. cbv iota.
    unfold processSourceMap, bind, text, must, ret. rewrite Htext.
    cbv beta iota. rewrite Hparse. reflexivity.
Qed.

Lemma failed_file_is_skipped (file : File) (this : t) :
  Spec.unreadable_or_malformed P file ->
  after_file P this file = this.
Proof.
  unfold after_file.
  intros [H | (Hext & content & Htext & Hparse)].
  - rewrite unreadable_is_skipped by exact H. reflexivity.
  - rewrite (malformed_is_skipped file content) by assumption. reflexivity.
Qed.

Lemma loaded_without (before after : list File) (bad : File) :
  Spec.unreadable_or_malformed P bad ->
  loaded P (before ++ bad :: after) = loaded P (before ++ after).
Proof.
  intro H. unfold loaded. rewrite !fold_left_app.
  cbn [fold_left].
  rewrite failed_file_is_skipped by exact H. reflexivity.
Qed.

(** C6, amended. When the read of a file is rejected, or the text of a
    [.json] or [.map] file is not JSON, [analyzeFiles] still returns an
    aggregate; its modules, chunks, insights and totals are those of the
    list without that file, and [fileCount] and [fileTypes] still count it. *)
Theorem failed_read_or_parse_is_skipped
        (before after : list File) (bad : File) (this : t) :
  Spec.unreadable_or_malformed P bad ->
  Spec.same_but_metadata P before after bad this.
Proof.
  intro H.
  do 4 eexists.
  split; [apply analyzeFiles_returns|].
  split; [apply analyzeFiles_returns|].
  rewrite (loaded_without before after bad H).
  unfold bundle_of.
  cbn [modules chunks insights totalSize totalGzipSize metadata analyzedAt
       fileCount fileTypes].
  repeat split.
  - rewrite !length_app. cbn [List.length]. lia.
  - rewrite map_app. reflexivity.
  - rewrite map_app. reflexivity.
Qed.

End Ingestion.

Lemma totals_of_aggregate_witness :
  forallb (Spec.plain_sizes Sample.host)
          [Sample.zero_gzip_file; Sample.large_file; Sample.unnamed_bundle]
  = true
  /\ exists data this',
      BundleAnalyzer.analyzeFiles
        Sample.host
        [Sample.zero_gzip_file; Sample.large_file; Sample.unnamed_bundle]
        BundleAnalyzer.new
      = (BundleAnalyzer.Returned data, this')
      /\ Spec.totals data.
Proof.
  split; [vm_compute; reflexivity|].
  apply (totals_of_aggregate
           Sample.host
           [Sample.zero_gzip_file; Sample.large_file; Sample.unnamed_bundle]
           BundleAnalyzer.new).
  vm_compute. reflexivity.
Defined.

(** C1, as stated, fails: a module whose stats entry carries
    [gzipSize: 0] has its compressed size present, and still adds 30% of
    its size to [totalGzipSize]. *)
Lemma zero_gzipSize_counts_as_unmeasured :
  exists data this',
    BundleAnalyzer.analyzeFiles Sample.host [Sample.zero_gzip_file]
                                BundleAnalyzer.new
    = (BundleAnalyzer.Returned data, this')
    /\ map mod_size (modules data) = [1000%Q]
    /\ map mod_gzipSize (modules data) = [Some 0%Q]
    /\ (totalGzipSize data == 300)%Q
    /\ (Spec.total (map Spec.gzip_share_stated (modules data)) == 0)%Q
    /\ ~ (totalGzipSize data
          == Spec.total (map Spec.gzip_share_stated (modules data)))%Q.
Proof.
  eexists. eexists. split; [apply analyzeFiles_returns|].
  vm_compute. repeat split; discriminate.
Qed.

(** C6, as stated, fails: the stats file whose second entry is [null]
    leaves the [try] block by an exception, after its first entry has been
    pushed; and the metadata count it. *)
Lemma throwing_file_still_contributes :
  Spec.fails Sample.host Sample.null_entry_file
  /\ ~ Spec.same_aggregate Sample.host [] [] Sample.null_entry_file
                            BundleAnalyzer.new
  /\ exists with_bad without this1 this2,
      BundleAnalyzer.analyzeFiles Sample.host [Sample.null_entry_file]
                                  BundleAnalyzer.new
      = (BundleAnalyzer.Returned with_bad, this1)
      /\ BundleAnalyzer.analyzeFiles Sample.host [] BundleAnalyzer.new
         = (BundleAnalyzer.Returned without, this2)
      /\ map mod_name (modules with_bad) = ["a.js"]
      /\ modules without = []
      /\ fileCount (metadata with_bad) = 1
      /\ fileCount (metadata without) = 0.
Proof.
  split; [|split].
  - intros [ms cs ins]; vm_compute; reflexivity.
  - intros (data & this1 & this2 & H1 & H2).
    cbn [app] in H1, H2.
    rewrite analyzeFiles_returns in H1, H2.
    apply (f_equal fst) in H1, H2.
    cbn [fst] in H1, H2.
    rewrite <- H1 in H2.
    apply (f_equal (fun r => match r with
                            | BundleAnalyzer.Returned d => fileCount (metadata d)
                            | BundleAnalyzer.Thrown => 0
                            end)) in H2.
    vm_compute in H2. discriminate.
  - do 4 eexists.
    split; [apply analyzeFiles_returns|].
    split; [apply analyzeFiles_returns|].
    vm_compute. repeat split.
Qed.

Lemma failed_read_or_parse_is_skipped_witness :
  Spec.unreadable_or_malformed Sample.host Sample.truncated_file
  /\ Spec.same_but_metadata Sample.host [Sample.large_file] []
                            Sample.truncated_file BundleAnalyzer.new.
Proof.
  assert (H : Spec.unreadable_or_malformed Sample.host Sample.truncated_file).
  { right. split; [left; reflexivity|].
    exists "{". split; reflexivity. }
  split; [exact H|].
  apply (failed_read_or_parse_is_skipped
           Sample.host [Sample.large_file] [] Sample.truncated_file
           BundleAnalyzer.new H).
Defined.

(** ** The performance tier of the insight rules *)

Section PerformanceTier.

Import BundleAnalyzer.

Variable P : Platform.


End PerformanceTier.


(** ** The lexical analyzer *)

Section Lexical.

Import JavaScriptAnalyzer.

(** C7. The record that [analyzeFile] returns depends on the text alone:
    two analyzers, whatever their fields, hence whatever the calls made on
    them before, return equal records for equal texts. *)
Theorem analyzeFile_depends_on_text_only (this1 this2 : t) (text : string) :
  snd (analyzeFile this1 text) = snd (analyzeFile this2 text)
  /\ forall history : list string,
      snd (analyzeFile (after_calls history) text) = snd (analyzeFile new text).
Proof.
  split; [|intro history]; reflexivity.
Qed.

(** C8. The confidence is not bounded by 100: on thirteen repetitions of
    [webpackJsonp] the webpack score is 13 * 0.2 * 0.4 = 1.04, and the
    confidence is 104. *)
Theorem confidence_exceeds_100 :
  exists text : string,
    forall this : t,
      (100 < confidence (snd (analyzeFile this text)))%Z
      /\ confidence (snd (analyzeFile this text)) = 104%Z.
Proof.
  exists (Str.repeat "webpackJsonp" 13).
  intro this. vm_compute. split; reflexivity.
Qed.

End Lexical.

(** ** The regular expressions *)

Section Matching.

Import Re.

Lemma star_cls {R : Type} (p : ascii -> bool) (s : string) (n : nat) (c : caps)
      (k : string -> nat -> caps -> option R) (x : R) :
  mt (Star (Cls p)) s n c k = Some x ->
  exists j, Str.all_chars p (Str.take j s) = true /\ k (Str.drop j s) (n - j) c = Some x.
Proof.
  cbn [mt].
  generalize n at 1. intro fuel.
  revert s n.
  induction fuel as [|fuel IH]; intros s n H.
  - exists 0. rewrite Nat.sub_0_r. destruct s; split; auto.
  - destruct s as [|b t].
    + exists 0. rewrite Nat.sub_0_r. split; auto.
    + destruct (p b) eqn:Hb.
      * destruct (pred n <? n) eqn:Hn.
        -- match type of H with
           | match ?e with _ => _ end = _ => destruct e as [y|] eqn:E
           end.
           ++ injection H as ->. apply IH in E. destruct E as (j & Hj & Hk).
              exists (S j). cbn [Str.take Str.drop Str.all_chars]. rewrite Hb, Hj.
              split; [reflexivity|].
              replace (n - S j) with (pred n - j) by lia. exact Hk.
           ++ exists 0. rewrite Nat.sub_0_r. split; auto.
        -- exists 0. rewrite Nat.sub_0_r. split; auto.
      * exists 0. rewrite Nat.sub_0_r. split; auto.
Qed.

Lemma all_chars_take (p : ascii -> bool) (i j : nat) (s : string) :
  i <= j -> Str.all_chars p (Str.take j s) = true -> Str.all_chars p (Str.take i s) = true.
Proof.
  revert j s. induction i as [|i IH]; intros j s Hij H.
  - reflexivity.
  - destruct j as [|j]; [lia|]. destruct s as [|b t]; [reflexivity|].
    cbn [Str.take Str.all_chars] in *. apply andb_true_iff in H. destruct H as [Hb Ht].
    rewrite Hb. apply (IH j); [lia|exact Ht].
Qed.

(** A literal leaves the groups alone. *)
Lemma mt_Lit {R : Type} (p s : string) (n : nat) (c : caps)
      (k : string -> nat -> caps -> option R) (x : R) :
  mt (Lit p) s n c k = Some x -> exists s' n', k s' n' c = Some x.
Proof.
  revert s n k. induction p as [|a p IH]; intros s n k H.
  - exists s, n. exact H.
  - destruct p as [|a' p'].
    + cbn [Lit mt] in H. destruct s as [|b t]; [discriminate|].
      destruct (Ascii.eqb a b); [|discriminate]. eauto.
    + change (Lit (String a (String a' p'))) with (Seq (Chr a) (Lit (String a' p'))) in H.
      cbn [mt] in H. destruct s as [|b t]; [discriminate|].
      destruct (Ascii.eqb a b); [|discriminate].
      apply IH in H. exact H.
Qed.

(** What the group of a call with a number holds: digits only. *)
Lemma number_call_group (callee s : string) (n : nat) r :
  match_here (BundleAnalyzer.require_call callee BundleAnalyzer.number_argument) s n = Some r ->
  exists d, snd r = [(1, d)] /\ Str.all_chars digit d = true.
Proof.
  unfold match_here, BundleAnalyzer.require_call, BundleAnalyzer.number_argument.
  cbn [Cat]. intro H.
  change (mt (Seq ?a ?b) ?s ?n ?c ?k) with (mt a s n c (fun s' n' c' => mt b s' n' c' k)) in H.
  apply mt_Lit in H. destruct H as (s1 & n1 & H).
  cbn [mt] in H. unfold Plus in H. cbn [mt] in H. revert H.
  destruct s1 as [|b1 t1]; [discriminate|].
  destruct (Ascii.eqb _ b1); [|discriminate].
  destruct t1 as [|b2 t2]; [discriminate|].
  destruct (digit b2) eqn:Hb2; [|discriminate].
  intro H.
  change (mt (Star (Cls digit)) t2 (pred (pred n1)) []
             (fun s' n' c' =>
                match s' with
                | EmptyString => None
                | String b s'0 =>
                    if Ascii.eqb ")" b
                    then Some (s'0, pred n',
                               (1, Str.take (pred n1 - n') (String b2 t2)) :: c')
                    else None
                end) = Some r) in H.
  apply star_cls in H. destruct H as (j & Hj & H). revert H.
  destruct (Str.drop j t2) as [|b3 t3]; [discriminate|].
  destruct (Ascii.eqb _ b3); [|discriminate].
  intro H. injection H as <-. cbn [snd].
  eexists. split; [reflexivity|].
  apply (all_chars_take digit _ (S j)); [lia|].
  cbn [Str.take Str.all_chars]. rewrite Hb2. exact Hj.
Qed.

Lemma star_cls_all {R : Type} (p : ascii -> bool) (s : string) (c : caps)
      (k : string -> nat -> caps -> option R) (x : R) :
  Str.all_chars p s = true ->
  k EmptyString 0 c = Some x ->
  mt (Star (Cls p)) s (String.length s) c k = Some x.
Proof.
  intros Hall Hk. induction s as [|b t IH].
  - exact Hk.
  - cbn [Str.all_chars] in Hall. apply andb_true_iff in Hall. destruct Hall as [Hb Ht].
    cbn [mt String.length]. rewrite Hb.
    cbn [pred]. rewrite (proj2 (Nat.ltb_lt _ _) (Nat.lt_succ_diag_r _)).
    change (match mt (Star (Cls p)) t (String.length t) c k with
            | Some y => Some y
            | None => k (String b t) (S (String.length t)) c
            end = Some x).
    rewrite (IH Ht). reflexivity.
Qed.

Lemma whole_digits (d : string) :
  Str.all_chars digit d = true -> Str.is_empty d = false ->
  whole (Plus (Cls digit)) d = true.
Proof.
  intros Hall Hne. destruct d as [|b t]; [discriminate|].
  cbn [Str.all_chars] in Hall. apply andb_true_iff in Hall. destruct Hall as [Hb Ht].
  assert (E : forall (k : string -> nat -> caps -> option unit),
             mt (Plus (Cls digit)) (String b t) (String.length (String b t)) [] k
             = if digit b
               then mt (Star (Cls digit)) t (String.length t) [] k
               else None) by reflexivity.
  unfold whole. rewrite E, Hb.
  rewrite (star_cls_all digit t [] _ tt Ht); reflexivity.
Qed.

Lemma scan_groups (fuel : nat) (r : regex) (s : string) (n pos : nat) (m : rmatch) :
  In m (scan fuel r s n pos) ->
  exists s0 n0 res, match_here r s0 n0 = Some res /\ groups m = snd res.
Proof.
  revert s n pos. induction fuel as [|fuel IH]; intros s n pos H.
  - destruct H.
  - cbn [scan] in H.
    destruct (match_here r s n) as [[[s' n'] c]|] eqn:E.
    + destruct H as [<- | H].
      * exists s, n, (s', n', c). split; [exact E|reflexivity].
      * destruct (n - n' =? 0).
        -- destruct s as [|b t]; [destruct H|]. apply IH in H. exact H.
        -- apply IH in H. exact H.
    + destruct s as [|b t]; [destruct H|]. apply IH in H. exact H.
Qed.

End Matching.

(** ** Compiled bundles *)

Section Compiled.

Import Re.
Import BundleAnalyzer.

Variable P : Platform.

Lemma number_calls_unnamed (callee content : string) (m : rmatch) :
  In m (exec_all (require_call callee number_argument) content) ->
  Spec.named m = false.
Proof.
  intro H. apply scan_groups in H. destruct H as (s0 & n0 & res & Hres & Hg).
  apply number_call_group in Hres. destruct Hres as (d & Hd & Hall).
  unfold Spec.named, group. rewrite Hg, Hd. cbn [cap Nat.eqb].
  destruct (Str.is_empty d) eqn:E; [reflexivity|].
  rewrite (whole_digits d Hall E). reflexivity.
Qed.

Lemma fold_unnamed (ms : list rmatch) (moduleNames : list string) :
  (forall m, In m ms -> Spec.named m = false) ->
  fold_left
    (fun moduleNames m =>
       match group 1 m with
       | Some name =>
           if negb (Str.is_empty name)
              && negb (whole (Plus (Cls digit)) name)
           then set_add name moduleNames
           else moduleNames
       | None => moduleNames
       end)
    ms moduleNames = moduleNames.
Proof.
  revert moduleNames. induction ms as [|m ms IH]; intros moduleNames H.
  - reflexivity.
  - cbn [fold_left].
    assert (Hm : Spec.named m = false) by (apply H; left; reflexivity).
    unfold Spec.named in Hm. destruct (group 1 m) as [name|].
    + rewrite Hm. apply IH. intros m' Hm'. apply H. right. exact Hm'.
    + apply IH. intros m' Hm'. apply H. right. exact Hm'.
Qed.

Lemma no_names_without_string_calls (content : string) :
  exec_all (require_call "webpack_require" string_argument) content = [] ->
  exec_all (require_call "__webpack_require__" string_argument) content = [] ->
  collect_moduleNames content = [].
Proof.
  intros H1 H2. unfold collect_moduleNames, modulePatterns.
  cbn [fold_left]. rewrite H1, H2. cbn [fold_left].
  rewrite fold_unnamed by apply number_calls_unnamed.
  apply fold_unnamed. apply number_calls_unnamed.
Qed.

Lemma starts_with_app (p q s : string) :
  Str.starts_with (p ++ q) s = true -> Str.starts_with p s = true.
Proof.
  revert s. induction p as [|a p IH]; intros s H.
  - destruct s; reflexivity.
  - destruct s as [|b t]; [discriminate H|].
    cbn [append Str.starts_with] in *.
    apply andb_true_iff in H. destruct H as [Hab H].
    rewrite Hab. apply IH. exact H.
Qed.

Lemma includes_app (p q s : string) :
  Str.includes (p ++ q) s = true -> Str.includes p s = true.
Proof.
  induction s as [|b t IH]; intro H.
  - cbn [Str.includes] in *. apply orb_true_iff in H. destruct H as [H|H]; [|discriminate].
    rewrite (starts_with_app p q _ H). reflexivity.
  - cbn [Str.includes] in *. apply orb_true_iff in H. destruct H as [H|H].
    + rewrite (starts_with_app p q _ H). reflexivity.
    + rewrite (IH H). apply orb_true_r.
Qed.

Lemma unnamed_bundle_processFile (file : File) (content : string) (this : t) :
  Str.toLowerCase (extension_of (file_name file)) = "js" ->
  file_text file = Some content ->
  Str.includes "__webpack_require__(1)" content = true ->
  Spec.string_literal_calls content = [] ->
  processFile P file this
  = (Returned tt,
     mkState (st_modules this ++ estimateBundleModules content)
             (st_chunks this) (st_insights this)).
Proof.
  intros Hext Htext Hmark Hcalls.
  apply app_eq_nil in Hcalls. destruct Hcalls as [H1 H2].
  assert (Hinc : Str.includes "__webpack_require__" content = true).
  { apply (includes_app "__webpack_require__" "(1)"). exact Hmark. }
  unfold processFile, processFile_body. rewrite Hext.
  change (String.eqb "js" "json") with false.
  change (String.eqb "js" "map") with false.
  change (String.eqb "js" "js") with true. cbv iota.
  unfold tryParseAsWebpackBundle, try_catch, bind, text, must, ret.
  rewrite Htext. cbv beta iota. rewrite Hinc.
  rewrite orb_true_r. cbn [orb]. cbv beta iota.
  unfold parseCompiledWebpackBundle.
  rewrite (no_names_without_string_calls content H1 H2).
  reflexivity.
Qed.

Lemma estimated_sizes (content : string) :
  map mod_size (estimateBundleModules content)
  = map (fun ratio =>
           inject_Z (Num.floor (Num.mul (Num.of_nat (String.length content))
                                        (Num.double ratio))))
        Spec.estimation_ratios.
Proof. reflexivity. Qed.

(** The floor of a product that is within a hundredth of [exact]. *)
Lemma floor_near (exact product : Q) :
  (exact - (1 # 100) < product /\ product < exact + (1 # 100))%Q ->
  (inject_Z (Num.floor product) < exact + (1 # 100)
   /\ exact - (101 # 100) < inject_Z (Num.floor product))%Q.
Proof.
  intros [L U]. unfold Num.floor.
  pose proof (Qfloor_le product) as Hle.
  pose proof (Qlt_floor product) as Hlt.
  rewrite inject_Z_plus in Hlt. change (inject_Z 1) with 1%Q in Hlt.
  split; lra.
Qed.

Lemma estimated_total (content : string) :
  (Z.of_nat (String.length content) < 4294967296)%Z ->
  (Spec.total (map mod_size (estimateBundleModules content))
   <= Num.of_nat (String.length content))%Q
  /\ (Num.of_nat (String.length content) - 5
      <= Spec.total (map mod_size (estimateBundleModules content)))%Q.
Proof.
  intro Hlength.
  rewrite estimated_sizes.
  unfold Spec.estimation_ratios, Spec.total. cbn [map fold_right].
  assert (Hn : (0 <= Num.of_nat (String.length content) <= 4294967296)%Q).
  { split; [apply of_nat_nonneg|].
    unfold Num.of_nat. change 4294967296%Q with (inject_Z 4294967296).
    rewrite <- Zle_Qle. lia. }
  assert (Hrow : forall ratio,
             (0 <= ratio <= 1)%Q ->
             (inject_Z (Num.floor (Num.mul (Num.of_nat (String.length content))
                                           (Num.double ratio)))
              < Num.of_nat (String.length content) * ratio + (1 # 100)
              /\ Num.of_nat (String.length content) * ratio - (101 # 100)
                 < inject_Z (Num.floor
                               (Num.mul (Num.of_nat (String.length content))
                                        (Num.double ratio))))%Q).
  { intros ratio Hratio. apply floor_near. apply product_close; assumption. }
  assert (Hratio : forall ratio, In ratio Spec.estimation_ratios ->
                                 (0 <= ratio <= 1)%Q).
  { intros ratio [<-|[<-|[<-|[<-|[<-|[]]]]]]; split; discriminate. }
  destruct (Hrow (15 # 100)) as [U1 L1]; [apply Hratio; cbn; tauto|].
  destruct (Hrow (12 # 100)) as [U2 L2]; [apply Hratio; cbn; tauto|].
  destruct (Hrow (25 # 100)) as [U3 L3]; [apply Hratio; cbn; tauto|].
  destruct (Hrow (35 # 100)) as [U4 L4]; [apply Hratio; cbn; tauto|].
  destruct (Hrow (13 # 100)) as [U5 L5]; [apply Hratio; cbn; tauto|].
  clear Hrow Hratio Hn Hlength.
  unfold Num.of_nat in *.
  set (n := Z.of_nat (String.length content)) in *.
  set (f1 := Num.floor (Num.mul (inject_Z n) (Num.double (15 # 100)))) in *.
  set (f2 := Num.floor (Num.mul (inject_Z n) (Num.double (12 # 100)))) in *.
  set (f3 := Num.floor (Num.mul (inject_Z n) (Num.double (25 # 100)))) in *.
  set (f4 := Num.floor (Num.mul (inject_Z n) (Num.double (35 # 100)))) in *.
  set (f5 := Num.floor (Num.mul (inject_Z n) (Num.double (13 # 100)))) in *.
  assert (E : (inject_Z f1 + (inject_Z f2 + (inject_Z f3
                + (inject_Z f4 + (inject_Z f5 + 0))))
               == inject_Z (f1 + f2 + f3 + f4 + f5))%Q).
  { rewrite !inject_Z_plus. ring. }
  rewrite E.
  assert (U : (inject_Z (f1 + f2 + f3 + f4 + f5) < inject_Z (n + 1))%Q).
  { rewrite <- E, (inject_Z_plus n 1). change (inject_Z 1) with 1%Q. lra. }
  assert (L : (inject_Z (n - 6) < inject_Z (f1 + f2 + f3 + f4 + f5))%Q).
  { unfold Z.sub. rewrite <- E, (inject_Z_plus n (- (6))).
    change (inject_Z (- (6))) with (- (6))%Q. lra. }
  rewrite <- Zlt_Qlt in U, L.
  split.
  - rewrite <- Zle_Qle. lia.
  - apply Qle_trans with (inject_Z (n - 5)).
    + unfold Z.sub. rewrite (inject_Z_plus n (- (5))).
      change (inject_Z (- (5))) with (- (5))%Q. lra.
    + rewrite <- Zle_Qle. lia.
Qed.

(** C9. A [.js] file whose text contains [__webpack_require__(1)] and no
    require call with a string-literal argument adds exactly the five
    modules of the estimation table, each of the floor of its ratio of the
    text length, ratio and product being doubles; for a text of less than
    [2^32] characters, which is every text that an engine holds, their
    sizes add up to at most the text length and to at least the text
    length minus 5. *)
Theorem unnamed_bundle_is_estimated
        (file : File) (content : string) (this : t) :
  Str.toLowerCase (extension_of (file_name file)) = "js" ->
  file_text file = Some content ->
  Str.includes "__webpack_require__(1)" content = true ->
  Spec.string_literal_calls content = [] ->
  (Z.of_nat (String.length content) < 4294967296)%Z ->
  Spec.estimated_from_table P file content this.
Proof.
  intros Hext Htext Hmark Hcalls Hlength.
  pose proof (unnamed_bundle_processFile file content (mkState [] [] [])
                Hext Htext Hmark Hcalls) as Hfirst.
  unfold Spec.estimated_from_table. cbv zeta.
  split; [apply unnamed_bundle_processFile; assumption|].
  split.
  { eexists. eexists. split; [apply analyzeFiles_returns|].
    unfold bundle_of. cbn [modules].
    destruct (keeps_generateInsights P (loaded P [file])) as [-> _].
    unfold loaded. cbn [fold_left]. unfold after_file.
    rewrite Hfirst. reflexivity. }
  split; [reflexivity|].
  split; [reflexivity|].
  split; [apply estimated_sizes|].
  apply estimated_total. exact Hlength.
Qed.

End Compiled.

Lemma unnamed_bundle_is_estimated_witness :
  Spec.estimated_from_table
    Sample.host Sample.unnamed_bundle "var x = __webpack_require__(1);"
    BundleAnalyzer.new.
Proof.
  apply (unnamed_bundle_is_estimated
           Sample.host Sample.unnamed_bundle
           "var x = __webpack_require__(1);" BundleAnalyzer.new);
    reflexivity.
Defined.

(** ** The ids of the insights *)

Section Sorting.
Import BundleAnalyzer.
Context {A : Type} (size : A -> Q).

Lemma insert_desc_perm (x : A) (l : list A) :
  Permutation (insert_desc size x l) (x :: l).
Proof.
  induction l as [|y l IH]; cbn [insert_desc].
  - apply Permutation_refl.
  - destruct (Num.Qltb (size x) (size y)).
    + eapply Permutation_trans; [apply perm_skip; exact IH|apply perm_swap].
    + apply Permutation_refl.
Qed.

Lemma sort_desc_perm (l : list A) : Permutation (sort_desc size l) l.
Proof.
  induction l as [|x l IH]; cbn [sort_desc fold_right].
  - apply Permutation_refl.
  - eapply Permutation_trans; [apply insert_desc_perm|].
    apply perm_skip. exact IH.
Qed.
End Sorting.

Lemma NoDup_app_disjoint {A : Type} (l1 l2 : list A) (a : A) :
  NoDup (l1 ++ l2) -> In a l1 -> In a l2 -> False.
Proof.
  induction l1 as [|x l1 IH]; intros H H1 H2.
  - destruct H1.
  - cbn [app] in H. inversion H as [|? ? Hx Hrest]; subst.
    destruct H1 as [-> | H1].
    + apply Hx. apply in_or_app. right. exact H2.
    + apply IH; assumption.
Qed.

Section Ids.

Import BundleAnalyzer.

Variable P : Platform.

Lemma ids_analyzeLargeDependencies (this : t) :
  map ins_id (st_insights (analyzeLargeDependencies P this))
  = map ins_id (st_insights this)
    ++ map Spec.large_dep_id (sort_desc mod_size (filter Spec.large (st_modules this))).
Proof.
  unfold analyzeLargeDependencies. cbv zeta.
  rewrite fold_push_insight. cbn [st_insights].
  rewrite map_app, map_map. reflexivity.
Qed.

Lemma appends_codeSplitting : Spec.appends (analyzeCodeSplittingOpportunities P).
Proof.
  intro this. unfold analyzeCodeSplittingOpportunities. cbv zeta.
  rewrite fold_push_insight. eexists. reflexivity.
Qed.

Lemma appends_treeShaking : Spec.appends analyzeTreeShakingPotential.
Proof.
  intro this. unfold analyzeTreeShakingPotential. cbv zeta.
  destruct (50 <? _).
  - eexists. reflexivity.
  - exists []. rewrite app_nil_r. reflexivity.
Qed.

Lemma appends_duplicates : Spec.appends analyzeDuplicates.
Proof.
  intro this. unfold analyzeDuplicates. cbv zeta.
  destruct (0 <? _).
  - eexists. reflexivity.
  - exists []. rewrite app_nil_r. reflexivity.
Qed.

Lemma ids_generateInsights (this : t) :
  exists before after,
    map ins_id (st_insights (generateInsights P this))
    = before
      ++ map Spec.large_dep_id (sort_desc mod_size (filter Spec.large (st_modules this)))
      ++ after.
Proof.
  set (s0 := mkState (st_modules this) (st_chunks this) []).
  set (s1 := generateBasicInsights P s0).
  set (s2 := analyzeLargeDependencies P s1).
  set (s3 := analyzeCodeSplittingOpportunities P s2).
  set (s4 := analyzeTreeShakingPotential s3).
  change (generateInsights P this) with (analyzeDuplicates s4).
  destruct (appends_duplicates s4) as (a4 & ->).
  unfold s4. destruct (appends_treeShaking s3) as (a3 & ->).
  unfold s3. destruct (appends_codeSplitting s2) as (a2 & ->).
  rewrite !map_app. unfold s2. rewrite ids_analyzeLargeDependencies.
  destruct (keeps_generateBasicInsights P s0) as [Hm _]. fold s1 in Hm.
  rewrite Hm. cbn [s0 st_modules].
  exists (map ins_id (st_insights s1)).
  exists (map ins_id a2 ++ map ins_id a3 ++ map ins_id a4).
  rewrite <- !app_assoc. reflexivity.
Qed.

(** Two large modules with one id make two insights with one id. *)
Lemma shared_module_id_repeats (this : t) (m1 m2 : BundleModule)
      (before between after : list BundleModule) :
  st_modules this = before ++ m1 :: between ++ m2 :: after ->
  mod_id m1 = mod_id m2 ->
  Spec.large m1 = true -> Spec.large m2 = true ->
  ~ NoDup (map ins_id (st_insights (generateInsights P this))).
Proof.
  intros Hmods Hid H1 H2 Hnodup.
  destruct (ids_generateInsights this) as (b & a & E).
  rewrite E in Hnodup.
  apply NoDup_app_remove_l in Hnodup.
  apply NoDup_app_remove_r in Hnodup.
  assert (Hperm : Permutation
                    (map Spec.large_dep_id (sort_desc mod_size (filter Spec.large (st_modules this))))
                    (map Spec.large_dep_id (filter Spec.large (st_modules this)))).
  { apply Permutation_map. apply sort_desc_perm. }
  apply (Permutation_NoDup Hperm) in Hnodup.
  rewrite Hmods in Hnodup.
  rewrite filter_app in Hnodup. cbn [filter] in Hnodup. rewrite H1 in Hnodup.
  rewrite filter_app in Hnodup. cbn [filter] in Hnodup. rewrite H2 in Hnodup.
  rewrite map_app in Hnodup. apply NoDup_app_remove_l in Hnodup.
  cbn [map] in Hnodup. inversion Hnodup as [|? ? Hnotin _]; subst.
  apply Hnotin. rewrite map_app. apply in_or_app. right. left.
  unfold Spec.large_dep_id. rewrite Hid. reflexivity.
Qed.

(** The fourth row of the estimation table is large from 292,575
    characters on. *)
Lemma dependencies_row_is_large (content : string) :
  (292575 <= Z.of_nat (String.length content))%Z ->
  exists m before after,
    estimateBundleModules content = before ++ m :: after
    /\ mod_id m = "estimated-3"
    /\ Spec.large m = true.
Proof.
  intro H.
  eexists. exists (firstn 3 (estimateBundleModules content)). eexists.
  split; [reflexivity|]. split; [reflexivity|].
  unfold Spec.large. cbn [mod_size]. apply Qgtb_true.
  assert (Hn : (inject_Z 292575 <= Num.of_nat (String.length content))%Q).
  { unfold Num.of_nat. rewrite <- Zle_Qle. exact H. }
  assert (Hf : (102401 <= Num.floor (Num.mul (Num.of_nat (String.length content))
                                              (Num.double (35 # 100))))%Z).
  { rewrite <- (Qfloor_Z 102401). apply Qfloor_resp_le.
    change (inject_Z 292575) with 292575%Q in Hn.
    change (inject_Z 102401) with 102401%Q.
    assert (H35 : (0 <= 35 # 100)%Q) by discriminate.
    destruct (double_close (35 # 100) H35) as [Lr _].
    pose proof (double_nonneg (35 # 100) H35) as Hd.
    set (r := Num.double (35 # 100)) in *.
    generalize dependent (Num.of_nat (String.length content)).
    intros q Hq.
    assert (Hx : (0 <= q * r)%Q) by (apply Qmult_le_0_compat; [lra|exact Hd]).
    destruct (double_close (q * r) Hx) as [L _].
    assert (L1 : (292575 * r <= q * r)%Q)
      by (apply Qmult_le_compat_r; assumption).
    unfold Num.mul. unfold Num.unit_roundoff in *.
    set (w := Num.double (q * r)) in *.
    lra. }
  rewrite Zle_Qle in Hf.
  change (inject_Z 102401) with 102401%Q in Hf.
  eapply Qlt_le_trans; [|exact Hf]. reflexivity.
Qed.

(** C4 fails on the code.  Two compiled bundles that fall back to the
    estimation table, each of 292,575 characters or more, get the module
    ids [estimated-0] to [estimated-4] twice, and the insights of one run
    hold the id [large-dep-estimated-3] twice. *)
Theorem insight_ids_repeat
        (first second : File) (content1 content2 : string) (this : t) :
  Spec.unnamed_bundle first content1 ->
  Spec.unnamed_bundle second content2 ->
  (292575 <= Z.of_nat (String.length content1))%Z ->
  (292575 <= Z.of_nat (String.length content2))%Z ->
  exists data this',
    analyzeFiles P [first; second] this = (Returned data, this')
    /\ modules data
       = estimateBundleModules content1 ++ estimateBundleModules content2
    /\ ~ NoDup (map ins_id (insights data)).
Proof.
  intros (Hext1 & Htext1 & Hmark1 & Hcalls1) (Hext2 & Htext2 & Hmark2 & Hcalls2)
         Hlen1 Hlen2.
  eexists. eexists. split; [apply analyzeFiles_returns|].
  unfold bundle_of. cbn [modules insights].
  assert (Hloaded : st_modules (loaded P [first; second])
                    = estimateBundleModules content1
                      ++ estimateBundleModules content2).
  { unfold loaded. cbn [fold_left]. unfold after_file.
    rewrite (unnamed_bundle_processFile P first content1 _
               Hext1 Htext1 Hmark1 Hcalls1).
    cbn [snd].
    rewrite (unnamed_bundle_processFile P second content2 _
               Hext2 Htext2 Hmark2 Hcalls2).
    reflexivity. }
  split.
  { destruct (keeps_generateInsights P (loaded P [first; second])) as [-> _].
    exact Hloaded. }
  destruct (dependencies_row_is_large content1 Hlen1)
    as (m1 & b1 & a1 & E1 & Hid1 & Hlarge1).
  destruct (dependencies_row_is_large content2 Hlen2)
    as (m2 & b2 & a2 & E2 & Hid2 & Hlarge2).
  apply (shared_module_id_repeats (loaded P [first; second]) m1 m2
                                  b1 (a1 ++ b2) a2).
  - rewrite Hloaded, E1, E2. rewrite <- !app_assoc. reflexivity.
  - congruence.
  - exact Hlarge1.
  - exact Hlarge2.
Qed.

End Ids.

Lemma padded_text_is_unnamed (file : File) :
  Str.toLowerCase (BundleAnalyzer.extension_of (file_name file)) = "js" ->
  file_text file = Some Sample.padded_text ->
  Spec.unnamed_bundle file Sample.padded_text
  /\ (292575 <= Z.of_nat (String.length Sample.padded_text))%Z.
Proof.
  intros Hext Htext.
  split; [split; [exact Hext|split; [exact Htext|split]]|].
  - vm_compute. reflexivity.
  - vm_compute. reflexivity.
  - vm_compute. discriminate.
Qed.

Lemma insight_ids_repeat_witness :
  exists data this',
    BundleAnalyzer.analyzeFiles Sample.host
                                [Sample.main_bundle; Sample.vendor_bundle]
                                BundleAnalyzer.new
    = (BundleAnalyzer.Returned data, this')
    /\ modules data
       = BundleAnalyzer.estimateBundleModules Sample.padded_text
         ++ BundleAnalyzer.estimateBundleModules Sample.padded_text
    /\ ~ NoDup (map ins_id (insights data)).
Proof.
  destruct (padded_text_is_unnamed Sample.main_bundle eq_refl eq_refl)
    as [H1 L1].
  destruct (padded_text_is_unnamed Sample.vendor_bundle eq_refl eq_refl)
    as [H2 L2].
  exact (insight_ids_repeat Sample.host Sample.main_bundle Sample.vendor_bundle
                            Sample.padded_text Sample.padded_text
                            BundleAnalyzer.new H1 H2 L1 L2).
Defined.

(** ** The rules of the insight engine *)

Lemma select_app f1 f2 F1 F2 :
  List.length f1 = List.length F1 ->
  Spec.select (f1 ++ f2) (F1 ++ F2) = Spec.select f1 F1 ++ Spec.select f2 F2.
Proof.
  revert F1. induction f1 as [|b f1 IH]; intros [|x F1] H; try discriminate.
  - reflexivity.
  - cbn [app Spec.select]. rewrite IH by (cbn in H; lia).
    destruct b; reflexivity.
Qed.

Lemma select_In f F x : In x (Spec.select f F) -> In x F.
Proof.
  revert F. induction f as [|b f IH]; intros [|y F] H; cbn [Spec.select] in H;
    try contradiction.
  destruct b.
  - destruct H as [<-|H]; [left; reflexivity|right; apply IH; exact H].
  - right. apply IH. exact H.
Qed.

Lemma select_NoDup f F : NoDup F -> NoDup (Spec.select f F).
Proof.
  intro H. revert f. induction H as [|x F Hx _ IH]; intros [|b f]; try constructor.
  cbn [Spec.select]. destruct b; [|apply IH].
  constructor; [|apply IH]. intro Hin. apply Hx. eapply select_In. exact Hin.
Qed.

Section Rules.

Import BundleAnalyzer.

Variable P : Platform.

Lemma grows_refl this : Spec.grows [] this this.
Proof.
  split; [apply keeps_refl|]. exists []. split; [reflexivity|].
  cbn [Spec.select]. rewrite app_nil_r. reflexivity.
Qed.

Lemma grows_trans F1 F2 a b c :
  Spec.grows F1 a b -> Spec.grows F2 b c -> Spec.grows (F1 ++ F2) a c.
Proof.
  intros [K1 (f1 & L1 & E1)] [K2 (f2 & L2 & E2)].
  split; [eapply keeps_trans; eassumption|].
  exists (f1 ++ f2). split; [rewrite !length_app; lia|].
  rewrite select_app by exact L1. rewrite E2, E1, app_assoc. reflexivity.
Qed.

Lemma grows_if (c : bool) i this :
  Spec.grows [ins_id i] this (if c then push_insight i this else this).
Proof.
  split; [apply keeps_if; apply keeps_refl|].
  exists [c]. split; [reflexivity|].
  destruct c; unfold Spec.ids; cbn [Spec.select push_insight st_insights].
  - rewrite map_app. reflexivity.
  - rewrite app_nil_r. reflexivity.
Qed.

Lemma grows_if2 (c1 c2 : bool) i1 i2 this :
  Spec.grows [ins_id i1; ins_id i2] this
        (if c1 then push_insight i1 this
         else if c2 then push_insight i2 this else this).
Proof.
  split; [apply keeps_if2; apply keeps_refl|].
  exists [c1; negb c1 && c2]. split; [reflexivity|].
  destruct c1, c2; unfold Spec.ids; cbn [Spec.select push_insight st_insights negb andb];
    rewrite ?map_app, ?app_nil_r; reflexivity.
Qed.

Lemma grows_if3 (c1 c2 : bool) i1 i2 i3 this :
  Spec.grows [ins_id i1; ins_id i2; ins_id i3] this
        (if c1 then push_insight i1 this
         else if c2 then push_insight i2 this else push_insight i3 this).
Proof.
  split; [apply keeps_if3; apply keeps_refl|].
  exists [c1; negb c1 && c2; negb c1 && negb c2]. split; [reflexivity|].
  destruct c1, c2; unfold Spec.ids; cbn [Spec.select push_insight st_insights negb andb];
    rewrite ?map_app, ?app_nil_r; reflexivity.
Qed.

Lemma grows_cast F F' a b : Spec.grows F a b -> F = F' -> Spec.grows F' a b.
Proof. intros H <-. exact H. Qed.

Ltac pull_let_grows :=
  match goal with
  | |- Spec.grows ?F ?a (let x := ?e in @?b x) =>
      let y := fresh x in
      pose (y := e); change (Spec.grows F a (b y)); cbv beta
  end.

Ltac grows_step :=
  first
    [ apply grows_refl
    | (eapply grows_trans; [|apply grows_if3])
    | (eapply grows_trans; [|apply grows_if2])
    | (eapply grows_trans; [|apply grows_if])
    | match goal with
      | x := _ : t |- Spec.grows _ _ ?x => subst x
      end ].

Lemma grows_generatePerformanceInsights totalSize totalGzipSize this :
  Spec.grows ("slow-3g-load" :: "poor-compression" :: Spec.size_tier_ids) this
        (generatePerformanceInsights P totalSize totalGzipSize this).
Proof.
  eapply grows_cast.
  - unfold generatePerformanceInsights.
    repeat pull_let_grows. repeat grows_step.
  - reflexivity.
Qed.

Lemma grows_generateBasicInsights this :
  Spec.grows Spec.basic_ids this (generateBasicInsights P this).
Proof.
  eapply grows_cast.
  - unfold generateBasicInsights.
    repeat pull_let_grows.
    repeat first
           [ grows_step
           | (eapply grows_trans; [|apply grows_generatePerformanceInsights]) ].
  - reflexivity.
Qed.


Lemma ids_analyzeCodeSplitting (this : t) :
  Spec.ids (analyzeCodeSplittingOpportunities P this)
  = Spec.ids this
    ++ map Spec.code_split_id (sort_desc chunk_size (filter Spec.large_chunk (st_chunks this))).
Proof.
  unfold analyzeCodeSplittingOpportunities, Spec.ids. cbv zeta.
  rewrite fold_push_insight. cbn [st_insights].
  rewrite map_app, map_map. reflexivity.
Qed.

Lemma ids_analyzeTreeShaking (this : t) :
  Spec.ids (analyzeTreeShakingPotential this)
  = Spec.ids this
    ++ (if 50 <? List.length (filter (is_type t_js) (st_modules this))
        then ["tree-shaking"] else []).
Proof.
  unfold analyzeTreeShakingPotential, Spec.ids. cbv zeta.
  destruct (50 <? _); cbn [push_insight st_insights];
    rewrite ?map_app, ?app_nil_r; reflexivity.
Qed.

Lemma ids_analyzeDuplicates (this : t) :
  Spec.ids (analyzeDuplicates this)
  = Spec.ids this
    ++ (if 0 <? List.length (repeated [] (map mod_name (st_modules this)))
        then ["duplicates"] else []).
Proof.
  unfold analyzeDuplicates, Spec.ids. cbv zeta.
  destruct (0 <? _); cbn [push_insight st_insights];
    rewrite ?map_app, ?app_nil_r; reflexivity.
Qed.

Lemma keeps_analyzeLargeDependencies this :
  keeps this (analyzeLargeDependencies P this).
Proof. unfold analyzeLargeDependencies. cbv zeta. apply keeps_fold. Qed.

Lemma keeps_analyzeCodeSplitting this :
  keeps this (analyzeCodeSplittingOpportunities P this).
Proof. unfold analyzeCodeSplittingOpportunities. cbv zeta. apply keeps_fold. Qed.

Lemma keeps_analyzeTreeShaking this :
  keeps this (analyzeTreeShakingPotential this).
Proof.
  unfold analyzeTreeShakingPotential. cbv zeta. apply keeps_if. apply keeps_refl.
Qed.

(** The ids of a run of [generateInsights], rule by rule. *)
Lemma ids_of_generateInsights (this : t) :
  exists flags,
    List.length flags = List.length Spec.basic_ids
    /\ Spec.ids (generateInsights P this)
       = Spec.select flags Spec.basic_ids
         ++ map Spec.large_dep_id
                (sort_desc mod_size (filter Spec.large (st_modules this)))
         ++ map Spec.code_split_id
                (sort_desc chunk_size (filter Spec.large_chunk (st_chunks this)))
         ++ (if 50 <? List.length (filter (is_type t_js) (st_modules this))
             then ["tree-shaking"] else [])
         ++ (if 0 <? List.length (repeated [] (map mod_name (st_modules this)))
             then ["duplicates"] else []).
Proof.
  set (s0 := mkState (st_modules this) (st_chunks this) []).
  set (s1 := generateBasicInsights P s0).
  set (s2 := analyzeLargeDependencies P s1).
  set (s3 := analyzeCodeSplittingOpportunities P s2).
  set (s4 := analyzeTreeShakingPotential s3).
  change (generateInsights P this) with (analyzeDuplicates s4).
  destruct (grows_generateBasicInsights s0) as [[M1 C1] (flags & Hlen & E1)].
  fold s1 in M1, C1, E1.
  destruct (keeps_analyzeLargeDependencies s1) as [M2 C2]. fold s2 in M2, C2.
  destruct (keeps_analyzeCodeSplitting s2) as [M3 C3]. fold s3 in M3, C3.
  destruct (keeps_analyzeTreeShaking s3) as [M4 C4]. fold s4 in M4, C4.
  exists flags. split; [exact Hlen|].
  rewrite ids_analyzeDuplicates. unfold s4 at 1. rewrite ids_analyzeTreeShaking.
  unfold s3 at 1. rewrite ids_analyzeCodeSplitting.
  unfold s2 at 1. unfold Spec.ids at 1. rewrite ids_analyzeLargeDependencies.
  fold (Spec.ids s1). rewrite E1.
  rewrite M4, M3, M2, M1, C2, C1.
  cbn [s0 st_modules st_chunks Spec.ids st_insights map app].
  rewrite <- !app_assoc. reflexivity.
Qed.

Lemma existsb_eqb_In (x : string) (l : list string) :
  existsb (String.eqb x) l = true <-> In x l.
Proof.
  rewrite existsb_exists. split.
  - intros (y & Hy & E). apply String.eqb_eq in E. subst. exact Hy.
  - intro H. exists x. split; [exact H|apply String.eqb_refl].
Qed.

Lemma repeated_nil (seen names : list string) :
  repeated seen names = []
  <-> NoDup names /\ forall x, In x names -> ~ In x seen.
Proof.
  revert seen. induction names as [|name names IH]; intro seen.
  - cbn [repeated]. split; [intros _; split; [constructor|intros x []]|reflexivity].
  - cbn [repeated]. destruct (existsb (String.eqb name) seen) eqn:E.
    + split; [discriminate|]. intros [_ H]. exfalso.
      apply (H name); [left; reflexivity|]. apply existsb_eqb_In. exact E.
    + rewrite IH. split.
      * intros [Hnd Hnot]. split.
        -- constructor; [|exact Hnd]. intro Hin.
           apply (Hnot name Hin). apply in_or_app. right. left. reflexivity.
        -- intros x [<-|Hx] Hseen.
           ++ apply existsb_eqb_In in Hseen. congruence.
           ++ apply (Hnot x Hx). apply in_or_app. left. exact Hseen.
      * intros [Hnd Hnot]. inversion Hnd as [|? ? Hname Hnd']; subst. split; [exact Hnd'|].
        intros x Hx Hin. apply in_app_or in Hin. destruct Hin as [Hin|[<-|[]]].
        -- apply (Hnot x); [right; exact Hx|exact Hin].
        -- apply Hname. exact Hx.
Qed.

Lemma not_in_fixed (x : string) (fixed : list string) (flags : list bool) :
  existsb (String.eqb x) fixed = false -> ~ In x (Spec.select flags fixed).
Proof.
  intros H Hin. apply select_In in Hin. apply existsb_eqb_In in Hin. congruence.
Qed.

(** X9. The duplicates insight is there exactly when two modules share a name. *)
Theorem duplicates_insight_iff (this : t) :
  In "duplicates" (Spec.ids (generateInsights P this))
  <-> ~ NoDup (map mod_name (st_modules this)).
Proof.
  destruct (ids_of_generateInsights this) as (flags & _ & ->).
  assert (Hrep : (0 <? List.length (repeated [] (map mod_name (st_modules this))))
                 = false
                 <-> NoDup (map mod_name (st_modules this))).
  { rewrite Nat.ltb_ge. split.
    - intro H. apply (repeated_nil []).
      destruct (repeated [] _); [reflexivity|cbn in H; lia].
    - intro H. assert (E : repeated [] (map mod_name (st_modules this)) = []).
      { apply repeated_nil. split; [exact H|intros x _ []]. }
      rewrite E. cbn. lia. }
  split.
  - intros Hin Hnd. apply Hrep in Hnd. rewrite Hnd in Hin.
    rewrite !in_app_iff in Hin.
    destruct Hin as [H|[H|[H|[H|H]]]].
    + revert H. apply not_in_fixed. reflexivity.
    + apply in_map_iff in H. destruct H as (m & E & _). discriminate E.
    + apply in_map_iff in H. destruct H as (c & E & _). discriminate E.
    + destruct (50 <? _); [destruct H as [E|[]]; discriminate E|destruct H].
    + destruct H.
  - intro Hnd.
    destruct (0 <? List.length
                     (repeated [] (map mod_name (st_modules this)))) eqn:E.
    + rewrite !in_app_iff. do 4 right. left. reflexivity.
    + exfalso. apply Hnd. apply Hrep. reflexivity.
Qed.

(** What [generateInsights] builds depends on the modules and the chunks
    only. *)
Lemma generateInsights_ext (a b : t) :
  st_modules a = st_modules b -> st_chunks a = st_chunks b ->
  generateInsights P a = generateInsights P b.
Proof. unfold generateInsights. intros -> ->. reflexivity. Qed.

(** X10. A second run of [generateInsights] builds the same insights: the rules
    start from an empty list and read the modules and the chunks only. *)
Theorem generateInsights_idempotent (this : t) :
  generateInsights P (generateInsights P this) = generateInsights P this.
Proof.
  apply generateInsights_ext; apply (keeps_generateInsights P this).
Qed.

Lemma NoDup_map_filter {X Y : Type} (key : X -> Y) (keep : X -> bool)
      (items : list X) :
  NoDup (map key items) -> NoDup (map key (filter keep items)).
Proof.
  intro H. induction items as [|x items IH]; [constructor|].
  cbn [map] in H. apply NoDup_cons_iff in H. destruct H as [Hx Hrest].
  cbn [filter]. destruct (keep x); [|apply IH; exact Hrest].
  cbn [map]. apply NoDup_cons; [|apply IH; exact Hrest].
  intro Hin. apply Hx. apply in_map_iff in Hin. destruct Hin as (y & E & Hy).
  apply filter_In in Hy. apply in_map_iff. exists y. split; [exact E|apply Hy].
Qed.

Lemma NoDup_map_append {A : Type} (prefix : string) (f : A -> string) (l : list A) :
  NoDup (map f l) -> NoDup (map (fun x => String.append prefix (f x)) l).
Proof.
  intro H. rewrite <- (map_map f (String.append prefix)).
  induction H as [|y ys Hy _ IH]; [constructor|].
  cbn [map]. constructor; [|exact IH].
  intro Hin. apply Hy. apply in_map_iff in Hin. destruct Hin as (z & E & Hz).
  assert (Hinj : forall a b, String.append prefix a = String.append prefix b -> a = b).
  { clear. induction prefix as [|c p IHp]; intros a b E; [exact E|].
    cbn [String.append] in E. injection E as E. apply IHp. exact E. }
  apply Hinj in E. subst. exact Hz.
Qed.

Lemma NoDup_sorted_ids {A : Type} (size : A -> Q) (id : A -> string)
      (prefix : string) (p : A -> bool) (l : list A) :
  NoDup (map id l) ->
  NoDup (map (fun x => String.append prefix (id x)) (sort_desc size (filter p l))).
Proof.
  intro H. apply NoDup_map_append.
  apply (Permutation_NoDup (l := map id (filter p l))).
  - apply Permutation_map. apply Permutation_sym. apply sort_desc_perm.
  - apply NoDup_map_filter. exact H.
Qed.

Lemma NoDup_basic_ids : NoDup Spec.basic_ids.
Proof.
  unfold Spec.basic_ids.
  repeat (constructor; [cbn [In]; intuition discriminate|]). constructor.
Qed.

(** X11. The ids of the insights of a run are distinct when the ids of the
    modules are and those of the chunks are. *)
Theorem insight_ids_distinct (this : t) :
  NoDup (map mod_id (st_modules this)) ->
  NoDup (map chunk_id (st_chunks this)) ->
  NoDup (Spec.ids (generateInsights P this)).
Proof.
  intros Hm Hc.
  destruct (ids_of_generateInsights this) as (flags & _ & ->).
  apply NoDup_app.
  { apply select_NoDup. apply NoDup_basic_ids. }
  { apply NoDup_app.
    { apply (NoDup_sorted_ids mod_size mod_id "large-dep-" Spec.large). exact Hm. }
    { apply NoDup_app.
      { apply (NoDup_sorted_ids chunk_size chunk_id "code-split-" Spec.large_chunk).
        exact Hc. }
      { destruct (50 <? _); destruct (0 <? _); cbn [app];
          repeat (constructor; [cbn [In]; intuition discriminate|]); constructor. }
      { intros x Hx Hin. apply in_map_iff in Hx. destruct Hx as (c & <- & _).
        destruct (50 <? _); destruct (0 <? _); cbn [app In] in Hin;
          intuition discriminate. } }
    { intros x Hx Hin. apply in_map_iff in Hx. destruct Hx as (m & <- & _).
      apply in_app_or in Hin. destruct Hin as [Hin|Hin].
      - apply in_map_iff in Hin. destruct Hin as (c & E & _). discriminate E.
      - destruct (50 <? _); destruct (0 <? _); cbn [app In] in Hin;
          intuition discriminate. } }
  { intros x Hx Hin. apply select_In in Hx. apply existsb_eqb_In in Hx.
    rewrite !in_app_iff in Hin. destruct Hin as [H|[H|[H|H]]].
    - apply in_map_iff in H. destruct H as (m & <- & _). discriminate Hx.
    - apply in_map_iff in H. destruct H as (c & <- & _). discriminate Hx.
    - destruct (50 <? _); [|destruct H]. destruct H as [<-|[]]. discriminate Hx.
    - destruct (0 <? _); [|destruct H]. destruct H as [<-|[]]. discriminate Hx. }
Qed.

End Rules.

Section Sorted.

Import BundleAnalyzer.

Context {A : Type} (size : A -> Q).

Lemma insert_desc_sorted (x : A) (l : list A) :
  StronglySorted (Spec.descending size) l -> StronglySorted (Spec.descending size) (insert_desc size x l).
Proof.
  induction l as [|y l IH]; intro H; cbn [insert_desc].
  - constructor; constructor.
  - inversion H as [|? ? Hl Hy]; subst.
    destruct (Num.Qltb (size x) (size y)) eqn:E.
    + constructor; [apply IH; exact Hl|].
      rewrite insert_desc_perm.
      constructor; [|exact Hy]. apply Qltb_true in E. apply Qlt_le_weak. exact E.
    + apply Qltb_false in E. constructor; [exact H|].
      constructor; [exact E|].
      eapply Forall_impl; [|exact Hy]. intros z Hz. unfold Spec.descending in *.
      eapply Qle_trans; eassumption.
Qed.

Lemma sort_desc_sorted (l : list A) : StronglySorted (Spec.descending size) (sort_desc size l).
Proof.
  induction l as [|x l IH]; cbn [sort_desc fold_right].
  - constructor.
  - apply insert_desc_sorted. exact IH.
Qed.
End Sorted.

(** ** What each kind of file adds *)

Section Formats.
Import BundleAnalyzer.
Variable P : Platform.

(** X1. The singleton can be reused: a run never throws, what it returns does
    not depend on the fields that an earlier run left, and the fields it
    leaves are the lists it returns. *)
Theorem analyzeFiles_ignores_earlier_runs (files : list File) (this1 this2 : t) :
  analyzeFiles P files this1 = analyzeFiles P files this2
  /\ exists data this',
      analyzeFiles P files this1 = (Returned data, this')
      /\ modules data = st_modules this'
      /\ chunks data = st_chunks this'
      /\ insights data = st_insights this'.
Proof.
  rewrite !analyzeFiles_returns. split; [reflexivity|].
  do 2 eexists. split; [reflexivity|].
  unfold bundle_of. cbn [modules chunks insights]. repeat split.
Qed.

Lemma after_file_body (file : File) (this : t) :
  after_file P this file = snd (processFile_body P file this).
Proof.
  unfold after_file, processFile, try_catch.
  destruct (processFile_body P file this) as [[[]|] this']; reflexivity.
Qed.

(** X2. A file of another extension is not read and adds nothing. *)
Theorem unsupported_file_is_ignored (file : File) (this : t) :
  ~ Notions.supported file ->
  processFile P file this = (Returned tt, this)
  /\ processFile P (mkFile (file_name file) (file_size file) None) this
     = (Returned tt, this).
Proof.
  unfold Notions.supported. cbv zeta. intro H.
  assert (E : forall text,
             processFile P (mkFile (file_name file) (file_size file) text) this
             = (Returned tt, this)).
  { intro text. unfold processFile, processFile_body, try_catch. cbn [file_name].
    destruct (String.eqb_spec (Str.toLowerCase (extension_of (file_name file))) "json");
      [tauto|].
    destruct (String.eqb_spec (Str.toLowerCase (extension_of (file_name file))) "map");
      [tauto|].
    destruct (String.eqb_spec (Str.toLowerCase (extension_of (file_name file))) "js");
      [tauto|].
    reflexivity. }
  split; [|apply E].
  destruct file as [name size text]. apply (E text).
Qed.

(** *** Source maps *)

Lemma adds_modules_nil (this : t) : Notions.adds_modules this this [].
Proof. unfold Notions.adds_modules. rewrite app_nil_r. destruct this; reflexivity. Qed.

Lemma numbered_cons (prefix : string) (from count : nat) :
  Notions.numbered prefix from (S count)
  = String.append prefix (Str.of_nat from) :: Notions.numbered prefix (S from) count.
Proof. reflexivity. Qed.

Lemma forEach_sources (items : list Json.value) (index : nat) (this : t) :
  exists added,
    Notions.adds_modules this
      (snd (forEach_from index items
              (fun source index =>
                 match source with
                 | Json.Str source =>
                     push_modules
                       [ mkModule ("sourcemap-" ++ Str.of_nat index)
                                  source
                                  (estimateSourceSize source)
                                  None
                                  (Str.split "/" source)
                                  []
                                  false
                                  (getFileType source)
                                  None ]
                 | _ => throw
                 end) this))
      added
    /\ Notions.source_modules items index added.
Proof.
  revert index this. induction items as [|item items IH]; intros index this.
  - exists []. split; [apply adds_modules_nil|]. repeat split. constructor.
  - cbn [forEach_from]. unfold bind at 1.
    destruct item as [|b|q|s|l|f];
      try (exists []; split; [apply adds_modules_nil|]; repeat split; constructor).
    unfold push_modules at 1. cbv beta iota.
    match goal with
    | |- context [forEach_from (S index) items ?body ?s] =>
        destruct (IH (S index) s) as (added & Hadd & Hnames & Hids & Hall)
    end.
    eexists (_ :: added). split; [|split; [|split]].
    + unfold Notions.adds_modules in *. rewrite Hadd.
      cbn [st_modules st_chunks st_insights]. rewrite <- app_assoc. reflexivity.
    + cbn [map mod_name Notions.leading_strings]. rewrite Hnames. reflexivity.
    + cbn [map mod_id List.length]. rewrite numbered_cons, Hids. reflexivity.
    + constructor; [|exact Hall].
      cbn [mod_size mod_name mod_gzipSize mod_path mod_type mod_isExternal].
      repeat split.
Qed.

(** X3. A source map gives one module for each of its sources up to the first
    that is not a string; what follows that entry is lost, what precedes
    it is kept. *)
Theorem source_map_stops_at_first_bad_entry
        (file : File) (content : string) (data : Json.value)
        (items : list Json.value) (this : t) :
  Str.toLowerCase (extension_of (file_name file)) = "map" ->
  file_text file = Some content ->
  JSON_parse P content = Some data ->
  Json.get "sources" data = Some (Some (Json.Array items)) ->
  exists added,
    Notions.adds_modules this (after_file P this file) added
    /\ Notions.source_modules items 0 added.
Proof.
  intros Hext Htext Hparse Hsources.
  rewrite after_file_body. unfold processFile_body. cbv zeta. rewrite Hext.
  change (String.eqb "map" "json") with false.
  change (String.eqb "map" "map") with true. cbv iota.
  unfold processSourceMap, bind, text, prop, must, ret. rewrite Htext.
  cbv beta iota. rewrite Hparse. cbv beta iota. rewrite Hsources.
  cbv beta iota. cbn [Json.truthy as_array]. unfold ret. cbv beta iota.
  unfold forEach. apply forEach_sources.
Qed.

(** *** Stats files *)

Lemma forEach_from_snd {A : Type} (R : t -> t -> Prop) (body : A -> nat -> M unit) :
  (forall this, R this this) ->
  (forall a b c, R a b -> R b c -> R a c) ->
  (forall x i this, R this (snd (body x i this))) ->
  forall items index this, R this (snd (forEach_from index items body this)).
Proof.
  intros Hrefl Htrans Hbody. induction items as [|x items IH]; intros index this.
  - apply Hrefl.
  - cbn [forEach_from]. unfold bind at 1.
    pose proof (Hbody x index this) as H.
    destruct (body x index this) as [[[]|] this']; cbn [snd] in *.
    + eapply Htrans; [exact H|apply IH].
    + exact H.
Qed.


Lemma processWebpackModules_modules_only (v : option Json.value) (this : t) :
  Notions.modules_only this (snd (processWebpackModules P v this)).
Proof.
  unfold processWebpackModules, bind at 1.
  destruct v as [[| | | |items|]|]; try (split; reflexivity).
  cbn [as_array]. unfold ret at 1. cbv beta iota.
  apply (forEach_from_snd Notions.modules_only).
  - split; reflexivity.
  - intros a b c [H1 H2] [H3 H4]. split; congruence.
  - intros x i s. unfold bind, prop, must, ret, throw.
    destruct (Json.get "id" x); [|split; reflexivity].
    destruct (Json.get "name" x); [|split; reflexivity].
    destruct (Json.get "identifier" x); [|split; reflexivity].
    destruct (Json.get "size" x); [|split; reflexivity].
    destruct (Json.get "gzipSize" x); [|split; reflexivity].
    destruct (Json.get "dependencies" x); [|split; reflexivity].
    destruct (Json.get "external" x); [|split; reflexivity].
    cbv beta iota zeta.
    destruct (name_argument _ s) as [[a|] s'] eqn:E.
    + unfold name_argument in E.
      destruct (Json.truthy _) in E.
      * destruct (if Json.truthy o0 then o0 else o1) as [[]|] in E;
          inversion E; subst; split; reflexivity.
      * inversion E; subst. split; reflexivity.
    + unfold name_argument in E.
      destruct (Json.truthy _) in E.
      * destruct (if Json.truthy o0 then o0 else o1) as [[]|] in E;
          inversion E; subst; split; reflexivity.
      * inversion E.
Qed.

Lemma processWebpackChunks_chunks_only (v : option Json.value) (this : t) :
  Notions.chunks_only this (snd (processWebpackChunks P v this)).
Proof.
  unfold processWebpackChunks, bind at 1.
  destruct v as [[| | | |items|]|]; try (split; reflexivity).
  cbn [as_array]. unfold ret at 1. cbv beta iota.
  apply (forEach_from_snd Notions.chunks_only).
  - split; reflexivity.
  - intros a b c [H1 H2] [H3 H4]. split; congruence.
  - intros x i s. unfold bind, prop, must, ret, throw.
    destruct (Json.get "id" x); [|split; reflexivity].
    destruct (Json.get "name" x); [|split; reflexivity].
    destruct (Json.get "size" x); [|split; reflexivity].
    destruct (Json.get "gzipSize" x); [|split; reflexivity].
    destruct (Json.get "modules" x); [|split; reflexivity].
    destruct (Json.get "entry" x); [|split; reflexivity].
    split; reflexivity.
Qed.

(** X4. A stats file is read in one of its two formats: when [modules] is
    there, [chunks] is not read, and only modules are added; otherwise
    only chunks are, and the totals of the run do not see the file. *)
Theorem stats_file_gives_modules_or_chunks
        (file : File) (content : string) (data : Json.value)
        (modules chunks : option Json.value) (this : t) :
  Str.toLowerCase (extension_of (file_name file)) = "json" ->
  file_text file = Some content ->
  JSON_parse P content = Some data ->
  Json.get "modules" data = Some modules ->
  Json.get "chunks" data = Some chunks ->
  if Json.truthy modules
  then Notions.modules_only this (after_file P this file)
  else Notions.chunks_only this (after_file P this file).
Proof.
  intros Hext Htext Hparse Hmodules Hchunks.
  rewrite after_file_body. unfold processFile_body. cbv zeta. rewrite Hext.
  change (String.eqb "json" "json") with true. cbv iota.
  unfold processWebpackBundle, bind, text, prop, must, ret. rewrite Htext.
  cbv beta iota. rewrite Hparse. cbv beta iota. rewrite Hmodules.
  cbv beta iota.
  destruct (Json.truthy modules).
  - apply processWebpackModules_modules_only.
  - rewrite Hchunks. cbv beta iota.
    destruct (Json.truthy chunks).
    + apply processWebpackChunks_chunks_only.
    + split; reflexivity.
Qed.

(** *** Compiled bundles and plain scripts *)

Lemma marked_script_is_parsed (file : File) (content : string) (this : t) :
  Str.toLowerCase (extension_of (file_name file)) = "js" ->
  file_text file = Some content ->
  Notions.has_marker content = true ->
  after_file P this file
  = snd (parseCompiledWebpackBundle content (file_name file) this).
Proof.
  intros Hext Htext Hmark.
  rewrite after_file_body. unfold processFile_body. cbv zeta. rewrite Hext.
  change (String.eqb "js" "json") with false.
  change (String.eqb "js" "map") with false.
  change (String.eqb "js" "js") with true. cbv iota.
  unfold tryParseAsWebpackBundle, try_catch, bind, text, must, ret.
  rewrite Htext. cbv beta iota zeta.
  unfold Notions.has_marker in Hmark. rewrite Hmark. cbv beta iota.
  assert (H : fst (parseCompiledWebpackBundle content (file_name file) this)
              = Returned tt).
  { unfold parseCompiledWebpackBundle. cbv zeta.
    destruct (0 <? _); reflexivity. }
  destruct (parseCompiledWebpackBundle content (file_name file) this)
    as [[[]|] this']; [reflexivity|discriminate H].
Qed.

Lemma mapi_from_names {B : Type} (f : string -> nat -> B) (name : B -> string)
      (id : B -> string) (prefix : string) :
  (forall x i, name (f x i) = x) ->
  (forall x i, id (f x i) = String.append prefix (Str.of_nat i)) ->
  forall names index,
    map name (mapi_from index f names) = names
    /\ map id (mapi_from index f names)
       = Notions.numbered prefix index (List.length names)
    /\ List.length (mapi_from index f names) = List.length names.
Proof.
  intros Hname Hid. induction names as [|x names IH]; intro index.
  - repeat split.
  - cbn [mapi_from map List.length]. destruct (IH (S index)) as (E1 & E2 & E3).
    rewrite E1, E2, E3, Hname, Hid, numbered_cons. repeat split.
Qed.

Lemma mapi_from_Forall {A B : Type} (f : A -> nat -> B) (good : B -> Prop) :
  (forall x i, good (f x i)) ->
  forall items index, Forall good (mapi_from index f items).
Proof.
  intros H. induction items as [|x items IH]; intro index; cbn [mapi_from];
    constructor; [apply H|apply IH].
Qed.

Lemma total_of_equal_sizes (c : Q) (ms : list BundleModule) :
  Forall (fun m => mod_size m = c) ms ->
  (Spec.total (map mod_size ms) == Num.of_nat (List.length ms) * c)%Q.
Proof.
  induction 1 as [|m ms Hm _ IH].
  - unfold Spec.total, Num.of_nat. cbn [map fold_right List.length].
    change (inject_Z (Z.of_nat 0)) with 0%Q. ring.
  - cbn [map List.length]. unfold Spec.total in *. cbn [fold_right].
    rewrite IH, Hm. unfold Num.of_nat. rewrite Nat2Z.inj_succ.
    unfold Z.succ. rewrite inject_Z_plus. change (inject_Z 1) with 1%Q. ring.
Qed.

Lemma floor_share (len : Q) (k : nat) :
  0 < k ->
  (Num.of_nat k * inject_Z (Num.floor (len / Num.of_nat k)) <= len
   /\ len - Num.of_nat k
      < Num.of_nat k * inject_Z (Num.floor (len / Num.of_nat k)))%Q.
Proof.
  intro Hk.
  assert (Hpos : (0 < Num.of_nat k)%Q).
  { unfold Num.of_nat. change 0%Q with (inject_Z 0). rewrite <- Zlt_Qlt. lia. }
  set (n := Num.of_nat k) in *.
  unfold Num.floor.
  pose proof (Qfloor_le (len / n)) as L.
  pose proof (Qlt_floor (len / n)) as U.
  rewrite inject_Z_plus in U. change (inject_Z 1) with 1%Q in U.
  set (c := inject_Z (Qfloor (len / n))) in *.
  assert (E : (len / n * n == len)%Q) by (field; lra).
  split.
  - apply Qle_trans with (len / n * n)%Q; [|rewrite E; apply Qle_refl].
    rewrite (Qmult_comm n c).
    apply Qmult_le_compat_r; [exact L|lra].
  - assert (H : (len / n * n < (c + 1) * n)%Q).
    { apply Qmult_lt_compat_r; [exact Hpos|exact U]. }
    rewrite E in H. lra.
Qed.

(** X5. A compiled bundle that requires modules by name is split evenly among
    the names: one module for each, of the floor of the text length by
    their number, and one chunk for the file that lists them. The sizes add
    up to the text length, less than one byte for each module apart. *)
Theorem named_bundle_is_split_evenly
        (file : File) (content : string) (this : t) :
  Str.toLowerCase (extension_of (file_name file)) = "js" ->
  file_text file = Some content ->
  Notions.has_marker content = true ->
  collect_moduleNames content <> [] ->
  Notions.split_evenly P file content this.
Proof.
  intros Hext Htext Hmark Hnames. unfold Notions.split_evenly. cbv zeta.
  rewrite (marked_script_is_parsed file content this Hext Htext Hmark).
  unfold parseCompiledWebpackBundle. cbv zeta.
  assert (Hk : 0 < List.length (collect_moduleNames content)).
  { destruct (collect_moduleNames content); [contradiction|cbn; lia]. }
  assert (Hk' : (0 <? List.length (collect_moduleNames content)) = true)
    by (apply Nat.ltb_lt; exact Hk).
  rewrite Hk'.
  unfold bind, push_chunk, push_modules. cbv beta iota. cbn [snd st_modules st_chunks st_insights].
  unfold mapi.
  match goal with
  | |- context [mapi_from 0 ?f (collect_moduleNames content)] =>
      set (added := mapi_from 0 f (collect_moduleNames content));
      destruct (mapi_from_names f mod_name mod_id "compiled-"
                  (fun x i => eq_refl) (fun x i => eq_refl)
                  (collect_moduleNames content) 0) as (E1 & E2 & E3);
      pose proof (mapi_from_Forall f
                    (fun m => mod_size m
                              = inject_Z
                                  (Num.floor
                                     (Num.of_nat (String.length content)
                                      / Num.of_nat
                                          (List.length
                                             (collect_moduleNames content)))))
                    (fun x i => eq_refl) (collect_moduleNames content) 0) as E4
  end.
  fold added in E1, E2, E3, E4.
  do 2 eexists. split; [reflexivity|].
  cbn [chunk_id chunk_name chunk_size chunk_modules].
  split; [exact E1|]. split; [exact E2|]. split; [exact E4|].
  do 4 (split; [reflexivity|]).
  rewrite (total_of_equal_sizes _ added E4), E3.
  apply floor_share. exact Hk.
Qed.

Lemma set_add_distinct (good : string -> Prop) (x : string) (set : list string) :
  good x -> NoDup set /\ Forall good set ->
  NoDup (set_add x set) /\ Forall good (set_add x set).
Proof.
  intros Hx [Hnd Hall]. unfold set_add.
  destruct (existsb (String.eqb x) set) eqn:E; [split; assumption|].
  split.
  - apply NoDup_app; [exact Hnd|constructor; [intros []|constructor]|].
    intros y Hy [<-|[]]. apply existsb_eqb_In in Hy. congruence.
  - apply Forall_app. split; [exact Hall|]. constructor; [exact Hx|constructor].
Qed.

Lemma fold_left_keeps {A B : Type} (inv : B -> Prop) (f : B -> A -> B) :
  (forall acc x, inv acc -> inv (f acc x)) ->
  forall items acc, inv acc -> inv (fold_left f items acc).
Proof.
  intros H. induction items as [|x items IH]; intros acc Hacc; [exact Hacc|].
  cbn [fold_left]. apply IH. apply H. exact Hacc.
Qed.

(** X6. The names collected from a compiled bundle are distinct; none is
    empty, and none is a number. *)
Theorem module_names_are_distinct (content : string) :
  NoDup (collect_moduleNames content)
  /\ Forall Notions.proper_name (collect_moduleNames content).
Proof.
  unfold collect_moduleNames.
  apply (fold_left_keeps
           (fun acc => NoDup acc /\ Forall Notions.proper_name acc)).
  - intros acc pattern Hacc.
    apply (fold_left_keeps
             (fun acc => NoDup acc /\ Forall Notions.proper_name acc));
      [|exact Hacc].
    intros acc' m Hacc'.
    destruct (Re.group 1 m) as [name|]; [|exact Hacc'].
    destruct (Str.is_empty name) eqn:E1; [exact Hacc'|].
    destruct (Re.whole (Re.Plus (Re.Cls Re.digit)) name) eqn:E2; [exact Hacc'|].
    cbn [negb andb].
    apply set_add_distinct; [split; assumption|exact Hacc'].
  - split; constructor.
Qed.

(** X7. A script without a webpack marker is one module: it carries the name
    and the byte size of the file, whatever the length of its text, and the
    analysis of the text. *)
Theorem plain_script_is_one_module
        (file : File) (content : string) (this : t) :
  Str.toLowerCase (extension_of (file_name file)) = "js" ->
  file_text file = Some content ->
  Notions.has_marker content = false ->
  Notions.one_module P file content this.
Proof.
  intros Hext Htext Hmark. unfold Notions.one_module.
  rewrite after_file_body. unfold processFile_body. cbv zeta. rewrite Hext.
  change (String.eqb "js" "json") with false.
  change (String.eqb "js" "map") with false.
  change (String.eqb "js" "js") with true. cbv iota.
  unfold tryParseAsWebpackBundle, processJavaScriptFile, try_catch, bind, text,
    must, ret.
  rewrite Htext. cbv beta iota zeta.
  unfold Notions.has_marker in Hmark. rewrite Hmark. cbv beta iota.
  cbn [negb]. cbv beta iota.
  unfold push_modules. cbn [snd].
  eexists. split; [reflexivity|].
  cbn [mod_id mod_name mod_size mod_gzipSize mod_type mod_javascriptAnalysis].
  repeat split.
Qed.

(** X8. A run on no file: no module, no chunk, totals of zero, the two insights
    of an empty bundle, and the best score. *)
Theorem empty_run (this : t) :
  exists data this',
    analyzeFiles P [] this = (Returned data, this')
    /\ modules data = [] /\ chunks data = []
    /\ totalSize data = 0%Q /\ totalGzipSize data = 0%Q
    /\ map ins_id (insights data) = ["module-count-low"; "good-bundle-size"]
    /\ fileCount (metadata data) = 0
    /\ PerformanceAnalyzer.calculatePerformanceScore
         (PerformanceAnalyzer.new data) = 100%Z
    /\ PerformanceAnalyzer.generateRecommendations (PerformanceAnalyzer.new data)
       = Notions.monitoring.
Proof.
  do 2 eexists. split; [apply analyzeFiles_returns|].
  vm_compute. repeat split.
Qed.

End Formats.

Lemma source_map_stops_at_first_bad_entry_witness :
  Json.get "sources" (snd Inputs.map_null_source)
  = Some (Some (Json.Array [Json.Str "src/a.js"; Json.Null; Json.Str "src/b.css"]))
  /\ exists added,
      Notions.adds_modules BundleAnalyzer.new
        (BundleAnalyzer.after_file Inputs.host BundleAnalyzer.new Inputs.map_file)
        added
      /\ Notions.source_modules
           [Json.Str "src/a.js"; Json.Null; Json.Str "src/b.css"] 0 added.
Proof.
  split; [reflexivity|].
  apply (source_map_stops_at_first_bad_entry
           Inputs.host Inputs.map_file (fst Inputs.map_null_source)
           (snd Inputs.map_null_source)
           [Json.Str "src/a.js"; Json.Null; Json.Str "src/b.css"]
           BundleAnalyzer.new); reflexivity.
Defined.

Lemma unsupported_file_is_ignored_witness :
  ~ Notions.supported Inputs.image
  /\ BundleAnalyzer.processFile Inputs.host Inputs.image BundleAnalyzer.new
     = (BundleAnalyzer.Returned tt, BundleAnalyzer.new).
Proof.
  assert (H : ~ Notions.supported Inputs.image).
  { intros [H|[H|H]]; vm_compute in H; discriminate H. }
  split; [exact H|].
  apply (unsupported_file_is_ignored Inputs.host Inputs.image BundleAnalyzer.new H).
Defined.

Lemma stats_file_gives_modules_or_chunks_witness :
  Json.get "modules" (snd Inputs.stats_chunks) = Some None
  /\ Notions.chunks_only
       BundleAnalyzer.new
       (BundleAnalyzer.after_file Inputs.host BundleAnalyzer.new
                                  Inputs.chunks_file).
Proof.
  split; [reflexivity|].
  apply (stats_file_gives_modules_or_chunks
           Inputs.host Inputs.chunks_file (fst Inputs.stats_chunks)
           (snd Inputs.stats_chunks) None
           (Some (Json.Array
                    [ Json.Object
                        [ ("id", Json.Str "main");
                          ("size", Json.Number 300000) ] ]))
           BundleAnalyzer.new); reflexivity.
Defined.

Lemma named_bundle_is_split_evenly_witness :
  BundleAnalyzer.collect_moduleNames Inputs.named_text
  = ["./src/index.js"; "react"]
  /\ Notions.split_evenly Inputs.host Inputs.named_bundle Inputs.named_text
                          BundleAnalyzer.new.
Proof.
  split; [vm_compute; reflexivity|].
  apply (named_bundle_is_split_evenly
           Inputs.host Inputs.named_bundle Inputs.named_text BundleAnalyzer.new);
    [reflexivity|reflexivity|vm_compute; reflexivity|vm_compute; discriminate].
Defined.

Lemma plain_script_is_one_module_witness :
  Notions.has_marker Inputs.script_text = false
  /\ Notions.one_module Inputs.host Inputs.script Inputs.script_text
                        BundleAnalyzer.new.
Proof.
  split; [vm_compute; reflexivity|].
  apply (plain_script_is_one_module
           Inputs.host Inputs.script Inputs.script_text BundleAnalyzer.new);
    [reflexivity|reflexivity|vm_compute; reflexivity].
Defined.

(** ** The insights of a run, rule by rule *)

Section Exact.
Import BundleAnalyzer.
Variable P : Platform.

Lemma ids_push i this : Spec.ids (push_insight i this) = Spec.ids this ++ [ins_id i].
Proof. unfold Spec.ids. cbn [push_insight st_insights]. apply map_app. Qed.

Lemma ids_if (c : bool) i this :
  Spec.ids (if c then push_insight i this else this)
  = Spec.ids this ++ (if c then [ins_id i] else []).
Proof. destruct c; [apply ids_push|rewrite app_nil_r; reflexivity]. Qed.

Lemma ids_if2 (c1 c2 : bool) i1 i2 this :
  Spec.ids (if c1 then push_insight i1 this
            else if c2 then push_insight i2 this else this)
  = Spec.ids this
    ++ (if c1 then [ins_id i1] else if c2 then [ins_id i2] else []).
Proof. destruct c1; [apply ids_push|apply ids_if]. Qed.

Lemma ids_if3 (c1 c2 : bool) i1 i2 i3 this :
  Spec.ids (if c1 then push_insight i1 this
            else if c2 then push_insight i2 this else push_insight i3 this)
  = Spec.ids this
    ++ [if c1 then ins_id i1 else if c2 then ins_id i2 else ins_id i3].
Proof. destruct c1; [|destruct c2]; apply ids_push. Qed.

Ltac pull_let_ids :=
  match goal with
  | |- Spec.ids (let x := ?e in @?b x) = ?r =>
      let y := fresh x in
      pose (y := e); change (Spec.ids (b y) = r); cbv beta
  end.

Lemma ids_generatePerformanceInsights totalSize totalGzipSize this :
  Spec.ids (generatePerformanceInsights P totalSize totalGzipSize this)
  = Spec.ids this ++ Notions.tier_ids totalSize totalGzipSize.
Proof.
  cbv beta delta [generatePerformanceInsights]. repeat pull_let_ids.
  rewrite ids_if3. subst this1. rewrite ids_if. subst this0. rewrite ids_if.
  unfold Notions.tier_ids, Notions.fast3GTime, Spec.size_tier_id. cbn [ins_id].
  rewrite <- !app_assoc.
  reflexivity.
Qed.

Lemma ids_generateBasicInsights (this : t) :
  Spec.ids (generateBasicInsights P this)
  = Spec.ids this ++ Notions.basic_added this.
Proof.
  cbv beta delta [generateBasicInsights]. repeat pull_let_ids.
  assert (K0 : keeps this this0) by (apply keeps_if; apply keeps_refl).
  assert (K1 : keeps this this1).
  { eapply keeps_trans; [exact K0|]. apply keeps_if. apply keeps_refl. }
  assert (K2 : keeps this this2).
  { eapply keeps_trans; [exact K1|]. apply keeps_if2. apply keeps_refl. }
  assert (K3 : keeps this this3).
  { eapply keeps_trans; [exact K2|]. apply keeps_generatePerformanceInsights. }
  rewrite ids_if.
  match goal with
  | x := distinct_types _ |- _ => subst x
  end.
  destruct K3 as [-> _].
  subst this3. rewrite ids_generatePerformanceInsights.
  subst this2. rewrite ids_if2. destruct K1 as [-> _].
  subst this1. rewrite ids_if. subst this0. rewrite ids_if.
  unfold Notions.basic_added. cbv zeta. cbn [ins_id].
  rewrite <- !app_assoc. reflexivity.
Qed.

(** The ids of a run of [generateInsights], rule by rule. *)
Lemma ids_of_run (this : t) :
  Spec.ids (generateInsights P this) = Notions.run_ids this.
Proof.
  set (s0 := mkState (st_modules this) (st_chunks this) []).
  set (s1 := generateBasicInsights P s0).
  set (s2 := analyzeLargeDependencies P s1).
  set (s3 := analyzeCodeSplittingOpportunities P s2).
  set (s4 := analyzeTreeShakingPotential s3).
  change (generateInsights P this) with (analyzeDuplicates s4).
  destruct (keeps_generateBasicInsights P s0) as [M1 C1]. fold s1 in M1, C1.
  destruct (keeps_analyzeLargeDependencies P s1) as [M2 C2]. fold s2 in M2, C2.
  destruct (keeps_analyzeCodeSplitting P s2) as [M3 C3]. fold s3 in M3, C3.
  destruct (keeps_analyzeTreeShaking s3) as [M4 C4]. fold s4 in M4, C4.
  rewrite ids_analyzeDuplicates. unfold s4 at 1. rewrite ids_analyzeTreeShaking.
  unfold s3 at 1. rewrite ids_analyzeCodeSplitting.
  unfold s2 at 1. unfold Spec.ids at 1. rewrite ids_analyzeLargeDependencies.
  fold (Spec.ids s1). unfold s1 at 1. rewrite ids_generateBasicInsights.
  rewrite M4, M3, M2, M1, C2, C1.
  unfold Notions.run_ids, Notions.basic_added. cbv zeta.
  cbn [s0 st_modules st_chunks Spec.ids st_insights map app].
  rewrite <- !app_assoc. reflexivity.
Qed.

(** *** Compression *)

Lemma unmeasured_total (ms : list BundleModule) :
  Forall (fun m => mod_gzipSize m = None) ms ->
  (Spec.total (map Spec.gzip_share ms)
   == Spec.total (map mod_size ms) * (3 # 10))%Q.
Proof.
  intro H.
  induction H as [|m ms Hm _ IH]; unfold Spec.total in *; cbn [map fold_right].
  - ring.
  - rewrite IH. unfold Spec.gzip_share. rewrite Hm. ring.
Qed.

(** Up to [2^32 + 2] roundings move a number by less than a millionth of
    it. *)
Lemma rounded_millionth (k : nat) (exact value : Q) :
  (Z.of_nat k <= 4294967298)%Z -> (0 <= exact)%Q ->
  Spec.rounded k exact value ->
  (exact * (999999 # 1000000) <= value
   /\ value <= exact * (1000001 # 1000000))%Q.
Proof.
  intros Hk Hexact [L U].
  pose proof (up_power_le k ltac:(lia)) as Hup.
  pose proof (down_power_ge k) as Hdown.
  assert (H0 : (0 <= inject_Z (Z.of_nat k) <= 4294967298)%Q).
  { split.
    - change 0%Q with (inject_Z 0). rewrite <- Zle_Qle. lia.
    - change 4294967298%Q with (inject_Z 4294967298). rewrite <- Zle_Qle.
      exact Hk. }
  unfold Num.unit_roundoff in *.
  set (a := inject_Z (Z.of_nat k)) in *.
  set (p := ((1 + (1 # 9007199254740992)) ^ Z.of_nat k)%Q) in *.
  set (m := ((1 - (1 # 9007199254740992)) ^ Z.of_nat k)%Q) in *.
  assert (Hp : (exact * p <= exact * (1000001 # 1000000))%Q).
  { rewrite !(Qmult_comm exact). apply Qmult_le_compat_r; [lra|exact Hexact]. }
  assert (Hm : (exact * (999999 # 1000000) <= exact * m)%Q).
  { rewrite !(Qmult_comm exact). apply Qmult_le_compat_r; [lra|exact Hexact]. }
  split; lra.
Qed.

Lemma percent_of_unmeasured (totalSize totalGzipSize : Q) :
  (0 < totalSize)%Q ->
  (totalSize * (3 # 10) * (999999 # 1000000) <= totalGzipSize
   /\ totalGzipSize <= totalSize * (3 # 10) * (1000001 # 1000000))%Q ->
  exists q, compression_percent totalSize totalGzipSize = Num.Fin q
            /\ (699999 # 10000 <= q /\ q <= 700001 # 10000)%Q.
Proof.
  intros Hpos [L U]. unfold compression_percent, Num.div.
  destruct (Qeq_bool totalSize 0) eqn:E.
  - apply Qeq_bool_iff in E. lra.
  - cbn [Num.scale]. eexists. split; [reflexivity|].
    assert (Eq : ((totalSize - totalGzipSize) / totalSize * 100
                  == 100 - 100 * (totalGzipSize / totalSize))%Q)
      by (field; lra).
    assert (Hl : ((3 # 10) * (999999 # 1000000) <= totalGzipSize / totalSize)%Q)
      by (apply Qle_shift_div_l; [exact Hpos|lra]).
    assert (Hu : (totalGzipSize / totalSize <= (3 # 10) * (1000001 # 1000000))%Q)
      by (apply Qle_shift_div_r; [exact Hpos|lra]).
    rewrite Eq. split; lra.
Qed.

Ltac other_rule H :=
  first
    [ contradiction
    | (apply in_map_iff in H; destruct H as (? & H & _); discriminate H)
    | (revert H;
       repeat match goal with
              | |- context [if ?c then _ else _] => destruct c
              end;
       cbn [In app]; intuition discriminate) ].

(** X12. When no module carries a compressed size, as is the case of every
    module not read from a stats file, and the sizes are whole numbers of
    bytes that add up to more than 0 and to at most [2^53], in at most
    [2^32] modules: [totalSize] is the sum of the sizes, [totalGzipSize]
    is 30% of it up to the rounding of the two products and of one
    addition for each module, the compression ratio lies between 69.9999
    and 70.0001, and the run reports a good compression ratio and never a
    poor one. *)
Theorem unmeasured_modules_compress_well (this : t) :
  Forall (fun m => mod_gzipSize m = None /\ Spec.whole (mod_size m))
         (st_modules this) ->
  (0 < Spec.total (map mod_size (st_modules this)) <= 9007199254740992)%Q ->
  (Z.of_nat (List.length (st_modules this)) <= 4294967296)%Z ->
  (sum_size (st_modules this)
   == Spec.total (map mod_size (st_modules this)))%Q
  /\ Spec.rounded (2 + List.length (st_modules this))
                  (Spec.total (map mod_size (st_modules this)) * (3 # 10))
                  (sum_gzipSize (st_modules this))
  /\ (exists percent,
         compression_percent (sum_size (st_modules this))
                             (sum_gzipSize (st_modules this))
         = Num.Fin percent
         /\ (699999 # 10000 <= percent /\ percent <= 700001 # 10000)%Q)
  /\ In "compression-efficiency" (Spec.ids (generateInsights P this))
  /\ ~ In "poor-compression" (Spec.ids (generateInsights P this)).
Proof.
  intros Hnone [Hpos Hmax] Hcount.
  assert (Hbytes : Forall Spec.in_bytes (st_modules this)).
  { revert Hnone. apply Forall_impl. intros m [Hm Hsize].
    split; [exact Hsize|]. rewrite Hm. exact I. }
  assert (Hunmeasured : Forall (fun m => mod_gzipSize m = None)
                               (st_modules this)).
  { revert Hnone. apply Forall_impl. intros m [Hm _]. exact Hm. }
  pose proof (sum_size_exact _ Hbytes Hmax) as Esize.
  pose proof (sum_gzipSize_rounded _ Hbytes) as Hgzip.
  apply (rounded_exact _ _ _ _ (unmeasured_total _ Hunmeasured)) in Hgzip.
  assert (Hshare : (0 <= Spec.total (map mod_size (st_modules this))
                         * (3 # 10))%Q) by lra.
  assert (Hk : (Z.of_nat (2 + List.length (st_modules this)) <= 4294967298)%Z)
    by lia.
  pose proof (rounded_millionth _ _ _ Hk Hshare Hgzip) as Hnear.
  assert (Hpos' : (0 < sum_size (st_modules this))%Q)
    by (rewrite Esize; exact Hpos).
  rewrite <- Esize in Hnear.
  destruct (percent_of_unmeasured _ _ Hpos' Hnear) as (q & Eq & Hq).
  split; [exact Esize|].
  split; [exact Hgzip|].
  split; [exists q; split; [exact Eq|exact Hq]|].
  rewrite ids_of_run.
  unfold Notions.run_ids, Notions.basic_added, Notions.tier_ids,
    Spec.size_tier_id. cbv zeta.
  rewrite Eq. cbn [Num.gtb Num.ltb].
  assert (G : Num.Qgtb q 0 = true) by (apply Qgtb_true; lra).
  assert (L : Num.Qltb q 30 = false) by (apply Qltb_false; lra).
  rewrite G, L. split.
  - rewrite !in_app_iff. left. right. left. left. reflexivity.
  - rewrite !in_app_iff.
    intros [[H|[H|[H|[[H|[H|H]]|H]]]]|[H|[H|[H|H]]]]; other_rule H.
Qed.

(** *** Mobile networks *)

Lemma fast3GTime_slow (totalSize : Q) :
  Num.Qgtb (Notions.fast3GTime totalSize) 3 = true
  <-> (Notions.slow_3g_bytes < totalSize)%Q.
Proof.
  rewrite Qgtb_true. unfold Notions.fast3GTime, Notions.slow_3g_bytes.
  assert (E : (totalSize * 8 / ((16 # 10) * 1024 * 1024)
               == totalSize * (5 # 1048576))%Q) by field.
  rewrite E. split; intro H; lra.
Qed.

(** X13. The warning for mobile networks is there exactly when the modules add
    up to more than 629,145.6 bytes: with every bundle of the large tier,
    and with the larger ones of the medium tier. *)
Theorem slow_3g_threshold (this : t) :
  (In "slow-3g-load" (Spec.ids (generateInsights P this))
   <-> (Notions.slow_3g_bytes < sum_size (st_modules this))%Q)
  /\ (In "large-bundle-performance" (Spec.ids (generateInsights P this))
      -> In "slow-3g-load" (Spec.ids (generateInsights P this))).
Proof.
  rewrite ids_of_run.
  assert (Hslow : In "slow-3g-load" (Notions.run_ids this)
                  <-> (Notions.slow_3g_bytes < sum_size (st_modules this))%Q).
  { rewrite <- fast3GTime_slow.
    unfold Notions.run_ids, Notions.basic_added, Notions.tier_ids,
      Spec.size_tier_id. cbv zeta.
    rewrite !in_app_iff. split.
    - intros [[H|[H|[H|[[H|[H|H]]|H]]]]|[H|[H|[H|H]]]]; other_rule H.
    - intro H. rewrite H. left. do 3 right. left. left. left. reflexivity. }
  split; [exact Hslow|].
  intro H. apply Hslow.
  assert (Hlarge : Num.Qgtb (sum_size (st_modules this)) (1024 * 1024) = true).
  { revert H.
    unfold Notions.run_ids, Notions.basic_added, Notions.tier_ids,
      Spec.size_tier_id. cbv zeta.
    rewrite !in_app_iff.
    intros [[H|[H|[H|[[H|[H|H]]|H]]]]|[H|[H|[H|H]]]]; other_rule H. }
  apply Qgtb_true in Hlarge. unfold Notions.slow_3g_bytes. lra.
Qed.

(** *** Large dependencies *)

(** X14. The insights for large dependencies come largest first; each estimates
    its savings at 30% of the module. *)
Theorem large_dependencies_by_size (this : t) :
  exists listed added,
    Permutation listed (filter Spec.large (st_modules this))
    /\ StronglySorted (Spec.descending mod_size) listed
    /\ st_insights (analyzeLargeDependencies P this) = st_insights this ++ added
    /\ map ins_id added = map Spec.large_dep_id listed
    /\ map ins_estimatedSavings added
       = map (fun m => Some (mod_size m * (3 # 10))%Q) listed
    /\ map ins_impact added
       = map (fun m => if Num.Qgtb (mod_size m) (500 * 1024) then high
                       else medium) listed
    /\ Forall (fun i => ins_type i = warning /\ ins_category i = cat_dependency)
              added.
Proof.
  exists (sort_desc mod_size (filter Spec.large (st_modules this))).
  eexists.
  split; [apply sort_desc_perm|]. split; [apply sort_desc_sorted|].
  unfold analyzeLargeDependencies. cbv zeta. rewrite fold_push_insight.
  cbn [st_insights]. split; [reflexivity|].
  rewrite !map_map. cbn [ins_id ins_estimatedSavings ins_impact].
  repeat split.
  apply Forall_forall. intros i Hi. apply in_map_iff in Hi.
  destruct Hi as (m & <- & _). split; reflexivity.
Qed.

(** *** What the rules never build *)

Lemma pushes_refl good this : Notions.pushes good this this.
Proof.
  exists []. split; [|reflexivity]. rewrite app_nil_r. destruct this; reflexivity.
Qed.

Lemma pushes_trans good a b c :
  Notions.pushes good a b -> Notions.pushes good b c -> Notions.pushes good a c.
Proof.
  intros (x & -> & Hx) (y & -> & Hy). exists (x ++ y).
  cbn [st_modules st_chunks st_insights]. rewrite app_assoc.
  split; [reflexivity|]. rewrite forallb_app, Hx, Hy. reflexivity.
Qed.

Lemma pushes_push good i this :
  good i = true -> Notions.pushes good this (push_insight i this).
Proof.
  intro H. exists [i]. split; [reflexivity|]. cbn [forallb]. rewrite H. reflexivity.
Qed.

Lemma pushes_if good (c : bool) i this :
  good i = true ->
  Notions.pushes good this (if c then push_insight i this else this).
Proof. intro H. destruct c; [apply pushes_push; exact H|apply pushes_refl]. Qed.

Lemma pushes_if2 good (c1 c2 : bool) i1 i2 this :
  good i1 = true -> good i2 = true ->
  Notions.pushes good this
    (if c1 then push_insight i1 this
     else if c2 then push_insight i2 this else this).
Proof.
  intros H1 H2. destruct c1; [apply pushes_push; exact H1|apply pushes_if; exact H2].
Qed.

Lemma pushes_if3 good (c1 c2 : bool) i1 i2 i3 this :
  good i1 = true -> good i2 = true -> good i3 = true ->
  Notions.pushes good this
    (if c1 then push_insight i1 this
     else if c2 then push_insight i2 this else push_insight i3 this).
Proof.
  intros H1 H2 H3. destruct c1; [|destruct c2]; apply pushes_push; assumption.
Qed.

Lemma pushes_fold good {A : Type} (f : A -> OptimizationInsight) items this :
  (forall x, good (f x) = true) ->
  Notions.pushes good this
    (fold_left (fun this x => push_insight (f x) this) items this).
Proof.
  intro H. rewrite fold_push_insight. eexists. split; [reflexivity|].
  rewrite forallb_forall. intros i Hi. apply in_map_iff in Hi.
  destruct Hi as (x & <- & _). apply H.
Qed.

Ltac pull_let_pushes :=
  match goal with
  | |- Notions.pushes ?g ?a (let x := ?e in @?b x) =>
      let y := fresh x in
      pose (y := e); change (Notions.pushes g a (b y)); cbv beta
  end.

Ltac pushes_step :=
  first
    [ apply pushes_refl
    | (apply pushes_if3; reflexivity)
    | (apply pushes_if2; reflexivity)
    | (apply pushes_if; reflexivity)
    | (apply pushes_fold; intro; reflexivity)
    | match goal with
      | x := _ : t |- Notions.pushes _ _ ?x => subst x
      end ].

Lemma sound_generatePerformanceInsights totalSize totalGzipSize this :
  Notions.pushes Notions.sound_insight this
                 (generatePerformanceInsights P totalSize totalGzipSize this).
Proof.
  cbv beta delta [generatePerformanceInsights]. repeat pull_let_pushes.
  eapply pushes_trans; [|apply pushes_if3; reflexivity].
  subst this1. eapply pushes_trans; [|apply pushes_if; reflexivity].
  subst this0. apply pushes_if; reflexivity.
Qed.

Lemma sound_generateBasicInsights this :
  Notions.pushes Notions.sound_insight this (generateBasicInsights P this).
Proof.
  cbv beta delta [generateBasicInsights]. repeat pull_let_pushes.
  eapply pushes_trans; [|apply pushes_if; reflexivity].
  subst this3. eapply pushes_trans; [|apply sound_generatePerformanceInsights].
  subst this2. eapply pushes_trans; [|apply pushes_if2; reflexivity].
  subst this1. eapply pushes_trans; [|apply pushes_if; reflexivity].
  subst this0. apply pushes_if; reflexivity.
Qed.

Lemma sound_rules this :
  Notions.pushes Notions.sound_insight this (analyzeLargeDependencies P this)
  /\ Notions.pushes Notions.sound_insight this
                    (analyzeCodeSplittingOpportunities P this)
  /\ Notions.pushes Notions.sound_insight this (analyzeTreeShakingPotential this)
  /\ Notions.pushes Notions.sound_insight this (analyzeDuplicates this).
Proof.
  unfold analyzeLargeDependencies, analyzeCodeSplittingOpportunities,
    analyzeTreeShakingPotential, analyzeDuplicates. cbv zeta.
  repeat split.
  - apply pushes_fold. intro. reflexivity.
  - apply pushes_fold. intro. reflexivity.
  - apply pushes_if. reflexivity.
  - apply pushes_if. reflexivity.
Qed.

(** X15. No insight of a run has the type [error], and only the insights for
    large dependencies and for code splitting estimate savings. *)
Theorem insights_are_sound (this : t) :
  forallb Notions.sound_insight (st_insights (generateInsights P this)) = true.
Proof.
  set (s0 := mkState (st_modules this) (st_chunks this) []).
  set (s1 := generateBasicInsights P s0).
  set (s2 := analyzeLargeDependencies P s1).
  set (s3 := analyzeCodeSplittingOpportunities P s2).
  set (s4 := analyzeTreeShakingPotential s3).
  change (generateInsights P this) with (analyzeDuplicates s4).
  assert (H : Notions.pushes Notions.sound_insight s0 (analyzeDuplicates s4)).
  { eapply pushes_trans; [|apply sound_rules].
    eapply pushes_trans; [|apply sound_rules].
    eapply pushes_trans; [|apply sound_rules].
    eapply pushes_trans; [|apply sound_rules].
    apply sound_generateBasicInsights. }
  destruct H as (added & -> & Hadded). exact Hadded.
Qed.

End Exact.

Lemma unmeasured_modules_compress_well_witness :
  (BundleAnalyzer.sum_size (BundleAnalyzer.st_modules Inputs.one_of_each)
   == 1572864)%Q
  /\ Spec.rounded 3 (1572864 * (3 # 10))
                  (BundleAnalyzer.sum_gzipSize
                     (BundleAnalyzer.st_modules Inputs.one_of_each))
  /\ In "compression-efficiency"
        (Spec.ids (BundleAnalyzer.generateInsights Sample.host
                                                   Inputs.one_of_each))
  /\ ~ In "poor-compression"
         (Spec.ids (BundleAnalyzer.generateInsights Sample.host
                                                    Inputs.one_of_each)).
Proof.
  destruct (unmeasured_modules_compress_well Sample.host Inputs.one_of_each)
    as (Hsize & Hgzip & _ & Hgood & Hpoor).
  - repeat constructor. exists 1572864%Z. split; [lia|reflexivity].
  - split; [reflexivity|discriminate].
  - discriminate.
  - split; [exact Hsize|]. split; [exact Hgzip|]. split; assumption.
Defined.

Lemma insight_ids_distinct_witness :
  NoDup (Spec.ids (BundleAnalyzer.generateInsights Sample.host Inputs.one_of_each)).
Proof.
  apply (insight_ids_distinct Sample.host Inputs.one_of_each).
  - repeat constructor. intros [].
  - repeat constructor. intros [].
Defined.

(** ** The scoring engine beyond the score *)

Section Performance.
Import PerformanceAnalyzer.

(** X16. The penalties and the bonus are multiples of 5, and so is the score:
    one of the fifteen values from 30 to 100. *)
Theorem performanceScore_multiple_of_5 (this : t) :
  exists k : Z, calculatePerformanceScore this = (5 * k)%Z /\ (6 <= k <= 20)%Z.
Proof.
  unfold calculatePerformanceScore. rewrite round_inject_Z.
  repeat match goal with
         | |- context [if ?b then _ else _] => destruct b
         end;
    match goal with
    | |- exists k, Z.max 0 (Z.min 100 ?e) = _ /\ _ =>
        exists (Z.max 0 (Z.min 100 e) / 5)%Z; vm_compute; intuition discriminate
    end.
Qed.

Lemma in_firstn {A : Type} (n : nat) (l : list A) (x : A) :
  In x (firstn n l) -> In x l.
Proof.
  intro H. rewrite <- (firstn_skipn n l). apply in_or_app. left. exact H.
Qed.

Lemma in_skipn {A : Type} (n : nat) (l : list A) (x : A) :
  In x (skipn n l) -> In x l.
Proof.
  intro H. rewrite <- (firstn_skipn n l). apply in_or_app. right. exact H.
Qed.

Lemma firstn_sorted {A : Type} (R : A -> A -> Prop) (n : nat) (l : list A) :
  StronglySorted R l -> StronglySorted R (firstn n l).
Proof.
  revert n. induction l as [|x l IH]; intros [|n] H; cbn [firstn]; try constructor.
  - inversion H; subst. apply IH. assumption.
  - inversion H as [|? ? _ Hx]; subst.
    apply Forall_forall. intros y Hy. apply in_firstn in Hy.
    rewrite Forall_forall in Hx. apply Hx. exact Hy.
Qed.

Lemma dropped_are_smaller {A : Type} (R : A -> A -> Prop) (n : nat) (l : list A) :
  StronglySorted R l ->
  forall x y, In x (firstn n l) -> In y (skipn n l) -> R x y.
Proof.
  revert n. induction l as [|z l IH]; intros [|n] H x y Hx Hy;
    cbn [firstn skipn] in *; try contradiction.
  inversion H as [|? ? Hl Hz]; subst.
  destruct Hx as [<-|Hx].
  - rewrite Forall_forall in Hz. apply Hz. apply (in_skipn n). exact Hy.
  - apply (IH n Hl); assumption.
Qed.

(** [sort((a, b) => b.size - a.size).slice(0, n)] keeps the largest. *)
Lemma top_of_sorted {A : Type} (size : A -> Q) (n : nat) (items : list A) :
  List.length (firstn n (BundleAnalyzer.sort_desc size items)) <= n
  /\ Notions.largest_of size (firstn n (BundleAnalyzer.sort_desc size items))
                        items.
Proof.
  pose proof (sort_desc_perm size items) as Hperm.
  pose proof (sort_desc_sorted size items) as Hsorted.
  split; [apply firstn_le_length|]. split; [apply firstn_sorted; exact Hsorted|].
  exists (skipn n (BundleAnalyzer.sort_desc size items)). split.
  - rewrite firstn_skipn. exact Hperm.
  - intros x y Hx Hy.
    apply (dropped_are_smaller (Spec.descending size) n _ Hsorted x y Hx Hy).
Qed.

(** X17. The blocking modules are at most five, each above a tenth of the total
    size; they come by decreasing size, and no module above a tenth that
    was left out is larger than one that was kept. *)
Theorem blockingModules_are_the_largest (this : t) :
  let kept := blockingModules (analyzeCriticalPath this) in
  List.length kept <= 5
  /\ Forall (fun m => Notions.blocking this m = true) kept
  /\ Notions.largest_of mod_size kept
       (filter (Notions.blocking this) (modules (bundleData this))).
Proof.
  cbv zeta. unfold analyzeCriticalPath. cbv zeta. cbn [blockingModules].
  fold (Notions.blocking this).
  destruct (top_of_sorted mod_size 5
              (filter (Notions.blocking this) (modules (bundleData this))))
    as [Hlen Hlargest].
  split; [exact Hlen|]. split; [|exact Hlargest].
  apply Forall_forall. intros m Hm. apply in_firstn in Hm.
  apply (Permutation_in _ (sort_desc_perm mod_size _)) in Hm.
  apply filter_In in Hm. apply Hm.
Qed.

(** X18. Each estimate is proportional to the size, and for a size that is not
    negative the estimates are ordered as the networks are. *)
Theorem loadTimeEstimates_ordered (this : t) :
  let e := calculateLoadTimeEstimates this in
  let size := totalSize (bundleData this) in
  (fast3G e == size * (5 # 1048576) /\ slow3G e == size * (1 # 99840)
   /\ fast4G e == size * (1 # 1179648) /\ wifi e == size * (1 # 3932160))%Q
  /\ (0 <= size ->
      0 <= wifi e /\ wifi e <= fast4G e /\ fast4G e <= fast3G e
      /\ fast3G e <= slow3G e)%Q.
Proof.
  cbv zeta. unfold calculateLoadTimeEstimates. cbv zeta.
  cbn [fast3G slow3G fast4G wifi].
  generalize (totalSize (bundleData this)). intro q.
  assert (E1 : (q * 8 / ((16 # 10) * 1024 * 1024) == q * (5 # 1048576))%Q) by field.
  assert (E2 : (q * 8 / (780 * 1024) == q * (1 # 99840))%Q) by field.
  assert (E3 : (q * 8 / (9 * 1024 * 1024) == q * (1 # 1179648))%Q) by field.
  assert (E4 : (q * 8 / (30 * 1024 * 1024) == q * (1 # 3932160))%Q) by field.
  split; [repeat split; assumption|].
  intro H. rewrite E1, E2, E3, E4. repeat split; lra.
Qed.

(** X19. Every list of recommendations ends with the two on monitoring; the
    rules before them add their advice in pairs, four pairs at most. *)
Theorem recommendations_end_with_monitoring (this : t) :
  exists advice pairs,
    generateRecommendations this = advice ++ Notions.monitoring
    /\ List.length advice = 2 * pairs /\ pairs <= 4.
Proof.
  unfold generateRecommendations. cbv zeta.
  repeat match goal with
         | |- context [if ?b then _ else _] => destruct b
         end;
    cbn [app];
    match goal with
    | |- exists advice pairs, ?l = _ /\ _ =>
        exists (firstn (List.length l - 2) l),
               (Nat.div2 (List.length l - 2))
    end;
    repeat split; cbn; lia.
Qed.

(** X20. A bundle above 1 MB scores 80 at most and is never labelled
    Excellent. *)
Theorem large_bundle_is_never_excellent (this : t) :
  (1024 * 1024 < totalSize (bundleData this))%Q ->
  (performanceScore (analyze this) <= 80)%Z
  /\ Components.getPerformanceLabel (performanceScore (analyze this))
     <> "Excellent".
Proof.
  intro H. apply Qgtb_true in H.
  assert (Hscore : (performanceScore (analyze this) <= 80)%Z).
  { unfold analyze. cbv zeta. cbn [performanceScore].
    unfold calculatePerformanceScore. rewrite round_inject_Z.
    cbv zeta. rewrite H.
    repeat match goal with
           | |- context [if ?b then _ else _] => destruct b
           end; vm_compute; discriminate. }
  split; [exact Hscore|].
  unfold Components.getPerformanceLabel.
  destruct (90 <=? performanceScore (analyze this))%Z eqn:E.
  - apply Z.leb_le in E. lia.
  - destruct (70 <=? _)%Z; [discriminate|].
    destruct (50 <=? _)%Z; discriminate.
Qed.

End Performance.

Lemma large_bundle_is_never_excellent_witness :
  (PerformanceAnalyzer.performanceScore
     (PerformanceAnalyzer.analyze (PerformanceAnalyzer.new Sample.estimated))
   <= 80)%Z
  /\ Components.getPerformanceLabel
       (PerformanceAnalyzer.performanceScore
          (PerformanceAnalyzer.analyze (PerformanceAnalyzer.new Sample.estimated)))
     <> "Excellent".
Proof.
  apply (large_bundle_is_never_excellent (PerformanceAnalyzer.new Sample.estimated)).
  vm_compute. reflexivity.
Defined.

(** ** The callers in the components *)

Section Callers.
Import Components.

Lemma allowed_iff_supported (file : File) :
  existsb
    (String.eqb
       (String.append
          "." (Str.toLowerCase (BundleAnalyzer.extension_of (file_name file)))))
    allowedTypes = true
  <-> Notions.supported file.
Proof.
  unfold Notions.supported. cbv zeta.
  generalize (Str.toLowerCase (BundleAnalyzer.extension_of (file_name file))).
  intro e. unfold allowedTypes. cbn [existsb String.append].
  change (String.eqb (String "." e) ".js") with (String.eqb e "js").
  change (String.eqb (String "." e) ".json") with (String.eqb e "json").
  change (String.eqb (String "." e) ".map") with (String.eqb e "map").
  rewrite !orb_true_iff, !String.eqb_eq. intuition discriminate.
Qed.

Lemma fold_left_bytes (files : list File) (start : N) :
  fold_left (fun sum file => sum + file_size file)%N files start
  = (start + Notions.bytes files)%N.
Proof.
  revert start. induction files as [|file files IH]; intro start.
  - cbn. lia.
  - cbn [fold_left Notions.bytes fold_right]. rewrite IH.
    unfold Notions.bytes. lia.
Qed.

(** X21. The upload form accepts a selection exactly when it is not empty,
    every file has one of the three extensions that [processFile]
    dispatches on, and the files add up to 50 MB at most. *)
Theorem validateFiles_accepts (files : list File) :
  validateFiles files = None
  <-> files <> [] /\ Forall Notions.supported files
      /\ (Notions.bytes files <= Notions.maxSize)%N.
Proof.
  unfold validateFiles.
  destruct files as [|file files].
  { cbn [List.length Nat.eqb]. split; [discriminate|]. intros [H _]. contradiction. }
  set (all := file :: files).
  change (List.length all =? 0) with false. cbv iota zeta.
  rewrite fold_left_bytes. change (0 + Notions.bytes all)%N with (Notions.bytes all).
  set (invalid := filter _ all).
  assert (Hinvalid : invalid = [] <-> Forall Notions.supported all).
  { unfold invalid. split.
    - intro H. apply Forall_forall. intros f Hf. apply allowed_iff_supported.
      destruct (existsb _ allowedTypes) eqn:E; [reflexivity|].
      assert (Hin : In f (filter
                            (fun file0 =>
                               negb (existsb
                                       (String.eqb
                                          (String.append
                                             "."
                                             (Str.toLowerCase
                                                (BundleAnalyzer.extension_of
                                                   (file_name file0)))))
                                       allowedTypes)) all)).
      { apply filter_In. split; [exact Hf|]. rewrite E. reflexivity. }
      rewrite H in Hin. destruct Hin.
    - intro H. rewrite Forall_forall in H.
      destruct (filter _ all) as [|f rest] eqn:E; [reflexivity|].
      assert (Hin : In f (f :: rest)) by (left; reflexivity).
      rewrite <- E in Hin. apply filter_In in Hin. destruct Hin as [Hf Hbad].
      apply H in Hf. apply allowed_iff_supported in Hf. rewrite Hf in Hbad.
      discriminate Hbad. }
  destruct invalid as [|bad rest].
  - cbn [List.length Nat.ltb Nat.leb].
    change (50 * 1024 * 1024)%N with Notions.maxSize.
    destruct (N.ltb_spec Notions.maxSize (Notions.bytes all)) as [Hlt|Hle].
    + split; [discriminate|]. intros (_ & _ & H). lia.
    + split; [|reflexivity]. intros _. split; [discriminate|].
      split; [apply Hinvalid; reflexivity|exact Hle].
  - change (0 <? List.length (bad :: rest)) with true. cbv iota.
    split; [discriminate|]. intros (_ & H & _). apply Hinvalid in H. discriminate H.
Qed.

Lemma length_take (n : nat) (s : string) :
  String.length (Str.take n s) = Nat.min n (String.length s).
Proof.
  revert s. induction n as [|n IH]; intros [|c s]; cbn [Str.take String.length Nat.min];
    try reflexivity.
  rewrite IH. reflexivity.
Qed.

Lemma length_append (a b : string) :
  String.length (String.append a b) = String.length a + String.length b.
Proof.
  induction a as [|c a IH]; cbn [String.append String.length]; [reflexivity|].
  rewrite IH. reflexivity.
Qed.

(** X22. A label of the treemap fits the length asked for, when that is three
    characters at least; a shorter label is the text itself, a longer one
    its head and three dots. *)
Theorem truncateText_fits (text : string) (maxLength : Z) :
  (3 <= maxLength)%Z ->
  (Z.of_nat (String.length (truncateText text maxLength)) <= maxLength)%Z
  /\ ((Z.of_nat (String.length text) <= maxLength)%Z ->
      truncateText text maxLength = text)
  /\ ((maxLength < Z.of_nat (String.length text))%Z ->
      truncateText text maxLength
      = String.append (Str.take (Z.to_nat (maxLength - 3)) text) "..."
      /\ Z.of_nat (String.length (truncateText text maxLength)) = maxLength).
Proof.
  intro H. unfold truncateText.
  destruct (Z.leb_spec (Z.of_nat (String.length text)) maxLength) as [Hle|Hgt].
  - split; [exact Hle|]. split; [reflexivity|]. lia.
  - assert (E : Z.of_nat
                  (String.length
                     (String.append (Str.take (Z.to_nat (maxLength - 3)) text)
                                    "..."))
                = maxLength).
    { rewrite length_append, length_take. cbn [String.length]. lia. }
    split; [lia|]. split; [lia|]. intros _. split; [reflexivity|exact E].
Qed.

(** X23. The statistics panel lists ten modules at most, by decreasing size,
    and no module left out is larger than one that is listed. *)
Theorem largestModules_are_the_largest (bundleData : BundleData) :
  List.length (getLargestModules bundleData) <= 10
  /\ Notions.largest_of mod_size (getLargestModules bundleData)
                        (modules bundleData).
Proof. unfold getLargestModules. apply top_of_sorted. Qed.

End Callers.

Lemma truncateText_fits_witness :
  (3 <= 20)%Z
  /\ (Z.of_nat (String.length (Components.truncateText Inputs.long_name 20)) <= 20)%Z
  /\ Components.truncateText Inputs.long_name 20 = "node_modules/reac...".
Proof.
  split; [lia|].
  split; [apply (truncateText_fits Inputs.long_name 20); lia|].
  reflexivity.
Defined.

(** ** The steps of the lexical analyzer *)

Section Steps.
Import JavaScriptAnalyzer.

Lemma fold_left_rel {A B : Type} (R : B -> B -> Prop) (f : B -> A -> B) :
  (forall b, R b b) ->
  (forall a b c, R a b -> R b c -> R a c) ->
  (forall b x, R b (f b x)) ->
  forall items b, R b (fold_left f items b).
Proof.
  intros Hrefl Htrans Hstep. induction items as [|x items IH]; intro b.
  - apply Hrefl.
  - cbn [fold_left]. eapply Htrans; [apply Hstep|apply IH].
Qed.

Ltac frame :=
  unfold Notions.same_but; cbv zeta;
  repeat first [split | intro]; try reflexivity; try congruence.

Lemma same_but_refl skip this : Notions.same_but skip this this.
Proof. frame. Qed.

Lemma same_but_trans skip a b c :
  Notions.same_but skip a b -> Notions.same_but skip b c ->
  Notions.same_but skip a c.
Proof.
  unfold Notions.same_but. cbv zeta.
  intros (A1 & A2 & A3 & A4 & A5 & A6 & A7 & A8 & A9 & A10)
         (B1 & B2 & B3 & B4 & B5 & B6 & B7 & B8 & B9 & B10).
  split; [congruence|]. split; [congruence|].
  split; [intro H; destruct (A3 H), (B3 H); split; congruence|].
  split; [intro H; specialize (A4 H); specialize (B4 H); congruence|].
  split; [intro H; specialize (A5 H); specialize (B5 H); congruence|].
  split; [intro H; destruct (A6 H), (B6 H); split; congruence|].
  split; [intro H; specialize (A7 H); specialize (B7 H); congruence|].
  split; [intro H; specialize (A8 H); specialize (B8 H); congruence|].
  split; [intro H; specialize (A9 H); specialize (B9 H); congruence|].
  intro H; destruct (A10 H), (B10 H); split; congruence.
Qed.

Lemma same_but_fold skip {A : Type} (f : t -> A -> t) :
  (forall this x, Notions.same_but skip this (f this x)) ->
  forall items this, Notions.same_but skip this (fold_left f items this).
Proof.
  intro H. apply fold_left_rel; [apply same_but_refl|apply same_but_trans|exact H].
Qed.

Lemma same_but_if skip (c : bool) (a this this' : t) :
  Notions.same_but skip a this -> Notions.same_but skip this this' ->
  Notions.same_but skip a (if c then this' else this).
Proof.
  intros H1 H2. destruct c; [eapply same_but_trans; eassumption|exact H1].
Qed.

Lemma detectFileType_frame this :
  Notions.same_but Notions.f_type this (detectFileType this).
Proof. unfold detectFileType. cbv zeta. frame. Qed.

Lemma function_loop_frame re kind this :
  Notions.same_but Notions.f_functions this (function_loop re kind this).
Proof. unfold function_loop. apply same_but_fold. intros. cbv zeta. frame. Qed.

Lemma analyzeFunctions_frame this :
  Notions.same_but Notions.f_functions this (analyzeFunctions this).
Proof.
  unfold analyzeFunctions. cbv zeta.
  eapply same_but_trans; [|apply function_loop_frame].
  eapply same_but_trans; [|apply function_loop_frame].
  apply function_loop_frame.
Qed.

Lemma analyzeClasses_frame this :
  Notions.same_but Notions.f_classes this (analyzeClasses this).
Proof. unfold analyzeClasses. apply same_but_fold. intros. cbv zeta. frame. Qed.

Lemma import_loop_frame re entry this :
  Notions.same_but Notions.f_imports this (import_loop re entry this).
Proof. unfold import_loop. apply same_but_fold. intros. frame. Qed.

Lemma analyzeImports_frame this :
  Notions.same_but Notions.f_imports this (analyzeImports this).
Proof.
  unfold analyzeImports. cbv zeta.
  eapply same_but_trans; [|apply import_loop_frame].
  eapply same_but_trans; [|apply import_loop_frame].
  apply import_loop_frame.
Qed.

Lemma export_loop_frame re kind this :
  Notions.same_but Notions.f_exports this (export_loop re kind this).
Proof. unfold export_loop. apply same_but_fold. intros. frame. Qed.

Lemma analyzeExports_frame this :
  Notions.same_but Notions.f_exports this (analyzeExports this).
Proof.
  unfold analyzeExports. cbv zeta.
  eapply same_but_trans; [|apply export_loop_frame].
  eapply same_but_trans; [|apply export_loop_frame].
  apply export_loop_frame.
Qed.

Lemma detectLibraries_frame this :
  Notions.same_but Notions.f_libraries this (detectLibraries this).
Proof.
  unfold detectLibraries. apply same_but_fold. intros s [[name patterns] c].
  cbv zeta. apply same_but_if; [apply same_but_refl|frame].
Qed.

Lemma calculateMetrics_frame this :
  Notions.same_but Notions.f_metrics this (calculateMetrics this).
Proof. unfold calculateMetrics. cbv zeta. frame. Qed.

Ltac pull_let_rel :=
  match goal with
  | |- ?R ?a (let x := ?e in @?b x) =>
      let y := fresh x in
      pose (y := e); change (R a (b y)); cbv beta
  end.

(** The last step first empties the two lists of advice and then only
    pushes opportunities. *)
Lemma generateInsights_rel (R : t -> t -> Prop) :
  (forall this, R this this) ->
  (forall a b c, R a b -> R b c -> R a c) ->
  (forall this o, R this (update (push_opportunity o) this)) ->
  forall this,
    R (update (set_opportunities [] []) this) (generateInsights this).
Proof.
  intros Hrefl Htrans Hpush this.
  assert (Hif : forall (c : bool) a s o,
             R a s -> R a (if c then update (push_opportunity o) s else s)).
  { intros c a s o H. destruct c; [eapply Htrans; [exact H|apply Hpush]|exact H]. }
  cbv beta delta [generateInsights]. repeat pull_let_rel.
  apply Hif.
  subst this4. eapply Htrans;
    [|apply fold_left_rel; [exact Hrefl|exact Htrans|];
      intros s l; apply Hif; apply Hrefl].
  subst this3. apply Hif.
  subst this2.
  match goal with
  | |- R _ (if ?c then ?x else ?y) => assert (H : R this1 x)
  end.
  { cbv zeta. apply Hif. apply Hrefl. }
  assert (H1 : R this0 this1).
  { subst this1. apply Hif. apply Hrefl. }
  match goal with
  | |- R _ (if ?c then _ else _) => destruct c
  end.
  - eapply Htrans; [exact H1|exact H].
  - exact H1.
Qed.

Lemma generateInsights_frame this :
  Notions.same_but Notions.f_advice this (generateInsights this).
Proof.
  eapply same_but_trans;
    [|apply (generateInsights_rel (Notions.same_but Notions.f_advice));
      [apply same_but_refl|apply same_but_trans|intros; frame]].
  frame.
Qed.

Lemma generateInsights_insights this :
  insights (analysis (generateInsights this)) = [].
Proof.
  apply (generateInsights_rel
           (fun a b => insights (analysis b) = insights (analysis a))).
  - reflexivity.
  - intros a b c H1 H2. congruence.
  - reflexivity.
Qed.

(** *** What [analyzeFile] returns *)

Lemma analyzeFile_steps (this : t) (text : string) :
  snd (analyzeFile this text)
  = analysis (generateInsights (Notions.with_metrics text)).
Proof.
  unfold analyzeFile, Notions.with_metrics, Notions.with_libraries,
    Notions.with_exports, Notions.with_imports, Notions.with_classes,
    Notions.with_functions, Notions.typed, Notions.started.
  cbv zeta. cbn [snd content lines analysis]. reflexivity.
Qed.

Lemma typed_frame text :
  Notions.same_but Notions.f_type (Notions.started text) (Notions.typed text).
Proof. apply detectFileType_frame. Qed.

Lemma with_functions_frame text :
  Notions.same_but Notions.f_functions (Notions.typed text)
                   (Notions.with_functions text).
Proof. apply analyzeFunctions_frame. Qed.

Lemma with_classes_frame text :
  Notions.same_but Notions.f_classes (Notions.with_functions text)
                   (Notions.with_classes text).
Proof. apply analyzeClasses_frame. Qed.

Lemma with_imports_frame text :
  Notions.same_but Notions.f_imports (Notions.with_classes text)
                   (Notions.with_imports text).
Proof. apply analyzeImports_frame. Qed.

Lemma with_exports_frame text :
  Notions.same_but Notions.f_exports (Notions.with_imports text)
                   (Notions.with_exports text).
Proof. apply analyzeExports_frame. Qed.

Lemma with_libraries_frame text :
  Notions.same_but Notions.f_libraries (Notions.with_exports text)
                   (Notions.with_libraries text).
Proof. apply detectLibraries_frame. Qed.

Lemma with_metrics_frame text :
  Notions.same_but Notions.f_metrics (Notions.with_libraries text)
                   (Notions.with_metrics text).
Proof. apply calculateMetrics_frame. Qed.

Lemma reads_frame skip text a b :
  Notions.same_but skip a b -> Notions.reads text a -> Notions.reads text b.
Proof.
  intros (H1 & H2 & _) [R1 R2]. split; congruence.
Qed.

Lemma reads_started text : Notions.reads text (Notions.started text).
Proof. split; reflexivity. Qed.

Lemma reads_typed text : Notions.reads text (Notions.typed text).
Proof. eapply reads_frame; [apply typed_frame|apply reads_started]. Qed.

Lemma reads_with_functions text : Notions.reads text (Notions.with_functions text).
Proof. eapply reads_frame; [apply with_functions_frame|apply reads_typed]. Qed.

Lemma reads_with_classes text : Notions.reads text (Notions.with_classes text).
Proof.
  eapply reads_frame; [apply with_classes_frame|apply reads_with_functions].
Qed.

Lemma reads_with_imports text : Notions.reads text (Notions.with_imports text).
Proof.
  eapply reads_frame; [apply with_imports_frame|apply reads_with_classes].
Qed.

Lemma reads_with_exports text : Notions.reads text (Notions.with_exports text).
Proof.
  eapply reads_frame; [apply with_exports_frame|apply reads_with_imports].
Qed.

Lemma reads_with_libraries text : Notions.reads text (Notions.with_libraries text).
Proof.
  eapply reads_frame; [apply with_libraries_frame|apply reads_with_exports].
Qed.

(** *** Lines *)

Lemma split_acc_pos (sep : ascii) (s cur : string) :
  1 <= List.length (Str.split_acc sep s cur).
Proof.
  revert cur. induction s as [|c s IH]; intro cur; cbn [Str.split_acc].
  - cbn. lia.
  - destruct (Ascii.eqb c sep); [cbn [List.length]; lia|apply IH].
Qed.

Lemma split_take_le (sep : ascii) (n : nat) (s cur cur' : string) :
  List.length (Str.split_acc sep (Str.take n s) cur)
  <= List.length (Str.split_acc sep s cur').
Proof.
  revert n cur cur'. induction s as [|c s IH]; intros n cur cur'.
  - destruct n; cbn; lia.
  - destruct n as [|n]; cbn [Str.take].
    + change (Str.split_acc sep "" cur) with [Str.rev cur].
      cbn [List.length]. apply split_acc_pos.
    + cbn [Str.split_acc]. destruct (Ascii.eqb c sep).
      * cbn [List.length]. apply le_n_S. apply IH.
      * apply IH.
Qed.

Lemma line_kind (line : string) :
  (Notions.is_code line = true /\ is_comment line = false
   /\ Notions.is_blank line = false)
  \/ (Notions.is_code line = false /\ is_comment line = true
      /\ Notions.is_blank line = false)
  \/ (Notions.is_code line = false /\ is_comment line = false
      /\ Notions.is_blank line = true).
Proof.
  unfold Notions.is_code, is_comment, Notions.is_blank.
  destruct (Str.trim line) as [|c rest].
  - right. right. repeat split.
  - cbn [Str.is_empty negb andb].
    destruct (Str.starts_with "//" (String c rest));
      destruct (Str.starts_with "/*" (String c rest));
      cbn [negb andb orb]; intuition.
Qed.

Lemma partition_of_lines (ls : list string) :
  List.length ls
  = List.length (filter Notions.is_code ls)
    + List.length (filter is_comment ls)
    + List.length (filter Notions.is_blank ls).
Proof.
  induction ls as [|line ls IH]; [reflexivity|].
  cbn [filter].
  destruct (line_kind line) as [(-> & -> & ->)|[(-> & -> & ->)|(-> & -> & ->)]];
    cbn [List.length]; lia.
Qed.

Lemma line_metrics_total (this : t) (text : string) :
  totalLines (codeMetrics (snd (analyzeFile this text)))
  = List.length (Str.split nl text)
  /\ codeMetrics (snd (analyzeFile this text))
     = codeMetrics (analysis (Notions.with_metrics text)).
Proof.
  rewrite analyzeFile_steps.
  destruct (generateInsights_frame (Notions.with_metrics text))
    as (_ & _ & _ & _ & _ & _ & _ & _ & Hm & _).
  rewrite Hm by discriminate. split; [|reflexivity].
  unfold Notions.with_metrics, calculateMetrics. cbv zeta.
  cbn [analysis update set_codeMetrics codeMetrics totalLines].
  destruct (reads_with_libraries text) as [_ ->]. reflexivity.
Qed.

(** X24. The line counts of the metrics: the lines of the text, one at least,
    each counted once as code, as a comment or as empty. *)
Theorem line_metrics_partition (this : t) (text : string) :
  let m := codeMetrics (snd (analyzeFile this text)) in
  totalLines m = List.length (Str.split nl text)
  /\ 1 <= totalLines m
  /\ totalLines m = codeLines m + commentLines m + emptyLines m.
Proof.
  cbv zeta. rewrite analyzeFile_steps.
  destruct (generateInsights_frame (Notions.with_metrics text))
    as (_ & _ & _ & _ & _ & _ & _ & _ & Hm & _).
  rewrite Hm by discriminate.
  unfold Notions.with_metrics, calculateMetrics. cbv zeta.
  cbn [analysis update set_codeMetrics codeMetrics totalLines codeLines
       commentLines emptyLines].
  destruct (reads_with_libraries text) as [_ ->].
  split; [reflexivity|]. split; [apply split_acc_pos|].
  apply partition_of_lines.
Qed.

(** *** Lists and counts *)

Lemma import_loop_dependencies re entry this :
  dependencies (analysis this) = map imp_source (imports (analysis this)) ->
  dependencies (analysis (import_loop re entry this))
  = map imp_source (imports (analysis (import_loop re entry this))).
Proof.
  unfold import_loop.
  apply (fold_left_keeps
           (fun this => dependencies (analysis this)
                        = map imp_source (imports (analysis this)))).
  intros acc m H. cbn [update analysis push_import dependencies imports].
  rewrite map_app, H. reflexivity.
Qed.

Lemma dependencies_with_imports text :
  dependencies (analysis (Notions.with_imports text))
  = map imp_source (imports (analysis (Notions.with_imports text))).
Proof.
  unfold Notions.with_imports, analyzeImports. cbv zeta.
  do 3 apply import_loop_dependencies.
  destruct (with_classes_frame text) as (_ & _ & _ & _ & _ & Hi & _).
  destruct (Hi ltac:(discriminate)) as [-> ->].
  destruct (with_functions_frame text) as (_ & _ & _ & _ & _ & Hi' & _).
  destruct (Hi' ltac:(discriminate)) as [-> ->].
  destruct (typed_frame text) as (_ & _ & _ & _ & _ & Hi'' & _).
  destruct (Hi'' ltac:(discriminate)) as [-> ->].
  reflexivity.
Qed.

Lemma complexity_pos this startLine endLine :
  1 <= calculateComplexity this startLine endLine.
Proof.
  unfold calculateComplexity. cbv zeta.
  apply (fold_left_keeps (fun c => 1 <= c)); [|lia].
  intros acc p H. destruct (Re.match_g p _); lia.
Qed.

Lemma overall_complexity (fs : list FunctionInfo) (start : nat) :
  Forall (fun f => 1 <= fn_complexity f) fs ->
  start + List.length fs
  <= fold_left (fun total f => total + fn_complexity f) fs start.
Proof.
  intro H. revert start. induction H as [|f fs Hf _ IH]; intro start.
  - cbn. lia.
  - cbn [fold_left List.length]. specialize (IH (start + fn_complexity f)). lia.
Qed.

Lemma first_closing_bounds (rest : list string) (i j : nat) :
  first_closing rest i = Some j -> i <= j /\ j < i + List.length rest.
Proof.
  revert i. induction rest as [|line rest IH]; intros i H; cbn [first_closing] in H.
  - discriminate H.
  - destruct (closes line).
    + injection H as <-. cbn [List.length]. lia.
    + apply IH in H. cbn [List.length]. lia.
Qed.

Lemma lines_in_text (text : string) (this : t) (index : nat) :
  Notions.reads text this ->
  Notions.in_text (List.length (Str.split nl text))
                  (getLineNumber this index)
                  (getLineEnd this (getLineNumber this index)).
Proof.
  intros [Hc Hl].
  assert (H1 : 1 <= getLineNumber this index)
    by (unfold getLineNumber, Str.split; apply split_acc_pos).
  assert (H2 : getLineNumber this index <= List.length (Str.split nl text)).
  { unfold getLineNumber, Str.split. rewrite Hc. apply split_take_le. }
  unfold Notions.in_text. split; [exact H1|].
  unfold getLineEnd. rewrite Hl.
  destruct (first_closing _ _) as [j|] eqn:E.
  - apply first_closing_bounds in E. rewrite length_skipn in E. lia.
  - lia.
Qed.

Lemma function_loop_sound text re kind this :
  Notions.reads text this ->
  Forall (fun f => Notions.in_text (List.length (Str.split nl text))
                                   (fn_lineStart f) (fn_lineEnd f)
                   /\ 1 <= fn_complexity f)
         (functions (analysis this)) ->
  Forall (fun f => Notions.in_text (List.length (Str.split nl text))
                                   (fn_lineStart f) (fn_lineEnd f)
                   /\ 1 <= fn_complexity f)
         (functions (analysis (function_loop re kind this))).
Proof.
  intros Hr Hall.
  assert (H : Notions.reads text (function_loop re kind this)
              /\ Forall (fun f => Notions.in_text
                                    (List.length (Str.split nl text))
                                    (fn_lineStart f) (fn_lineEnd f)
                                  /\ 1 <= fn_complexity f)
                        (functions (analysis (function_loop re kind this))));
    [|apply H].
  unfold function_loop.
  apply (fold_left_keeps
           (fun this =>
              Notions.reads text this
              /\ Forall (fun f => Notions.in_text
                                    (List.length (Str.split nl text))
                                    (fn_lineStart f) (fn_lineEnd f)
                                  /\ 1 <= fn_complexity f)
                        (functions (analysis this)))); [|split; assumption].
  intros acc m [Hacc Hfs]. cbv zeta. split.
  - destruct Hacc. split; assumption.
  - cbn [update analysis push_function functions].
    apply Forall_app. split; [exact Hfs|]. constructor; [|constructor].
    cbn [fn_lineStart fn_lineEnd fn_complexity].
    split; [apply lines_in_text; exact Hacc|apply complexity_pos].
Qed.

Lemma functions_with_functions text :
  Forall (fun f => Notions.in_text (List.length (Str.split nl text))
                                   (fn_lineStart f) (fn_lineEnd f)
                   /\ 1 <= fn_complexity f)
         (functions (analysis (Notions.with_functions text))).
Proof.
  unfold Notions.with_functions, analyzeFunctions. cbv zeta.
  apply function_loop_sound.
  { eapply reads_frame; [apply function_loop_frame|].
    eapply reads_frame; [apply function_loop_frame|]. apply reads_typed. }
  apply function_loop_sound.
  { eapply reads_frame; [apply function_loop_frame|]. apply reads_typed. }
  apply function_loop_sound; [apply reads_typed|].
  destruct (typed_frame text) as (_ & _ & _ & Hf & _).
  rewrite Hf by discriminate. constructor.
Qed.

Lemma classes_with_classes text :
  Forall (fun c => Notions.in_text (List.length (Str.split nl text))
                                   (cls_lineStart c) (cls_lineEnd c))
         (classes (analysis (Notions.with_classes text))).
Proof.
  assert (H : Notions.reads text (Notions.with_classes text)
              /\ Forall (fun c => Notions.in_text
                                    (List.length (Str.split nl text))
                                    (cls_lineStart c) (cls_lineEnd c))
                        (classes (analysis (Notions.with_classes text))));
    [|apply H].
  unfold Notions.with_classes, analyzeClasses.
  apply (fold_left_keeps
           (fun this =>
              Notions.reads text this
              /\ Forall (fun c => Notions.in_text
                                    (List.length (Str.split nl text))
                                    (cls_lineStart c) (cls_lineEnd c))
                        (classes (analysis this)))).
  - intros acc m [Hacc Hcs]. cbv zeta. split.
    + destruct Hacc. split; assumption.
    + cbn [update analysis push_class classes].
      apply Forall_app. split; [exact Hcs|]. constructor; [|constructor].
      cbn [cls_lineStart cls_lineEnd]. apply lines_in_text. exact Hacc.
  - split; [apply reads_with_functions|].
    destruct (with_functions_frame text) as (_ & _ & _ & _ & Hc & _).
    rewrite Hc by discriminate.
    destruct (typed_frame text) as (_ & _ & _ & _ & Hc' & _).
    rewrite Hc' by discriminate. constructor.
Qed.

(** The lists of the analysis as the last step leaves them. *)
Lemma lists_of_analysis (this : t) (text : string) :
  let a := snd (analyzeFile this text) in
  functions a = functions (analysis (Notions.with_functions text))
  /\ classes a = classes (analysis (Notions.with_classes text))
  /\ imports a = imports (analysis (Notions.with_imports text))
  /\ dependencies a = dependencies (analysis (Notions.with_imports text))
  /\ exports a = exports (analysis (Notions.with_exports text))
  /\ libraries a = libraries (analysis (Notions.with_libraries text))
  /\ codeMetrics a = codeMetrics (analysis (Notions.with_metrics text))
  /\ fileType a = fileType (analysis (Notions.typed text))
  /\ confidence a = confidence (analysis (Notions.typed text)).
Proof.
  cbv zeta. rewrite analyzeFile_steps.
  destruct (generateInsights_frame (Notions.with_metrics text))
    as (_ & _ & A3 & A4 & A5 & A6 & A7 & A8 & A9 & _).
  destruct (with_metrics_frame text)
    as (_ & _ & B3 & B4 & B5 & B6 & B7 & B8 & _ & _).
  destruct (with_libraries_frame text)
    as (_ & _ & C3 & C4 & C5 & C6 & C7 & _ & _ & _).
  destruct (with_exports_frame text)
    as (_ & _ & D3 & D4 & D5 & D6 & _ & _ & _ & _).
  destruct (with_imports_frame text)
    as (_ & _ & E3 & E4 & E5 & _ & _ & _ & _ & _).
  destruct (with_classes_frame text)
    as (_ & _ & F3 & F4 & _ & _ & _ & _ & _ & _).
  destruct (with_functions_frame text)
    as (_ & _ & G3 & _ & _ & _ & _ & _ & _ & _).
  specialize (A3 ltac:(discriminate)). specialize (A4 ltac:(discriminate)).
  specialize (A5 ltac:(discriminate)). specialize (A6 ltac:(discriminate)).
  specialize (A7 ltac:(discriminate)). specialize (A8 ltac:(discriminate)).
  specialize (A9 ltac:(discriminate)).
  specialize (B3 ltac:(discriminate)). specialize (B4 ltac:(discriminate)).
  specialize (B5 ltac:(discriminate)). specialize (B6 ltac:(discriminate)).
  specialize (B7 ltac:(discriminate)). specialize (B8 ltac:(discriminate)).
  specialize (C3 ltac:(discriminate)). specialize (C4 ltac:(discriminate)).
  specialize (C5 ltac:(discriminate)). specialize (C6 ltac:(discriminate)).
  specialize (C7 ltac:(discriminate)).
  specialize (D3 ltac:(discriminate)). specialize (D4 ltac:(discriminate)).
  specialize (D5 ltac:(discriminate)). specialize (D6 ltac:(discriminate)).
  specialize (E3 ltac:(discriminate)). specialize (E4 ltac:(discriminate)).
  specialize (E5 ltac:(discriminate)).
  specialize (F3 ltac:(discriminate)). specialize (F4 ltac:(discriminate)).
  specialize (G3 ltac:(discriminate)).
  destruct A3, A6, B3, B6, C3, C6, D3, D6, E3, F3, G3.
  repeat split; congruence.
Qed.

(** X25. The counts of the metrics are the lengths of the lists returned with
    them, the dependencies are the sources of the imports in their order,
    and the cyclomatic complexity, the sum over the functions, counts each
    function once at least. *)
Theorem counts_match_lists (this : t) (text : string) :
  let a := snd (analyzeFile this text) in
  let m := codeMetrics a in
  functionCount m = List.length (functions a)
  /\ classCount m = List.length (classes a)
  /\ importCount m = List.length (imports a)
  /\ exportCount m = List.length (exports a)
  /\ dependencies a = map imp_source (imports a)
  /\ cyclomaticComplexity m
     = fold_left (fun total f => total + fn_complexity f) (functions a) 0
  /\ functionCount m <= cyclomaticComplexity m.
Proof.
  cbv zeta.
  destruct (lists_of_analysis this text)
    as (Hf & Hc & Hi & Hd & He & Hl & Hm & _).
  cbv zeta in Hf, Hc, Hi, Hd, He, Hl, Hm.
  rewrite Hm, Hf, Hc, Hi, Hd, He.
  destruct (with_libraries_frame text)
    as (_ & _ & _ & C4 & C5 & C6 & C7 & _).
  destruct (with_exports_frame text)
    as (_ & _ & _ & D4 & D5 & D6 & _).
  destruct (with_imports_frame text)
    as (_ & _ & _ & E4 & E5 & _).
  destruct (with_classes_frame text)
    as (_ & _ & _ & F4 & _).
  specialize (C4 ltac:(discriminate)). specialize (C5 ltac:(discriminate)).
  specialize (C6 ltac:(discriminate)). specialize (C7 ltac:(discriminate)).
  specialize (D4 ltac:(discriminate)). specialize (D5 ltac:(discriminate)).
  specialize (D6 ltac:(discriminate)).
  specialize (E4 ltac:(discriminate)). specialize (E5 ltac:(discriminate)).
  specialize (F4 ltac:(discriminate)).
  destruct C6 as [C6 _], D6 as [D6 _].
  assert (Xf : functions (analysis (Notions.with_libraries text))
               = functions (analysis (Notions.with_functions text)))
    by congruence.
  assert (Xc : classes (analysis (Notions.with_libraries text))
               = classes (analysis (Notions.with_classes text)))
    by congruence.
  assert (Xi : imports (analysis (Notions.with_libraries text))
               = imports (analysis (Notions.with_imports text)))
    by congruence.
  unfold Notions.with_metrics, calculateMetrics, calculateOverallComplexity.
  cbv zeta.
  cbn [analysis update set_codeMetrics codeMetrics functionCount classCount
       importCount exportCount cyclomaticComplexity].
  rewrite Xf, Xc, Xi, C7.
  split; [reflexivity|]. split; [reflexivity|]. split; [reflexivity|].
  split; [reflexivity|]. split; [apply dependencies_with_imports|].
  split; [reflexivity|].
  apply (overall_complexity _ 0).
  eapply Forall_impl; [|apply functions_with_functions].
  intros f [_ H]. exact H.
Qed.

(** X26. Every function and every class lies in the text: its first line is
    line 1 at least, its last line is not before its first and is a line of
    the text; and the complexity of a function is 1 at least. *)
Theorem functions_and_classes_lie_in_text (this : t) (text : string) :
  let a := snd (analyzeFile this text) in
  let n := totalLines (codeMetrics a) in
  Forall (fun f => Notions.in_text n (fn_lineStart f) (fn_lineEnd f)
                   /\ 1 <= fn_complexity f)
         (functions a)
  /\ Forall (fun c => Notions.in_text n (cls_lineStart c) (cls_lineEnd c))
            (classes a).
Proof.
  cbv zeta.
  destruct (line_metrics_total this text) as [-> _].
  destruct (lists_of_analysis this text) as (-> & -> & _).
  split; [apply functions_with_functions|apply classes_with_classes].
Qed.


(** *** The file type *)

Lemma detectFileType_decided this :
  fileType (analysis (detectFileType this)) <> unknown.
Proof.
  unfold detectFileType. cbv zeta.
  cbn [map snd fold_left update analysis set_fileType fileType].
  generalize (Num.mul (detectWebpackIndicators this) (Num.double (4 # 10))).
  generalize (Num.mul (detectBundleIndicators this) (Num.double (3 # 10))).
  generalize (Num.mul (detectModuleIndicators this) (Num.double (2 # 10))).
  generalize (Num.mul (detectVanillaIndicators this) (Num.double (1 # 10))).
  intros d c b a. unfold Qmax.
  destruct (Qle_bool a b); destruct (Qle_bool _ c); destruct (Qle_bool _ d);
    cbn [find snd fst];
    repeat match goal with
           | |- context [Qeq_bool ?x ?x] => rewrite (Qeq_bool_refl x)
           | |- context [Qeq_bool ?x ?y] => destruct (Qeq_bool x y)
           end;
    discriminate.
Qed.

Lemma Qmax_zero (a b : Q) : (a == 0 -> b == 0 -> Qmax a b == 0)%Q.
Proof. intros Ha Hb. unfold Qmax. destruct (Qle_bool a b); assumption. Qed.

Lemma detectFileType_unrecognised this :
  (detectWebpackIndicators this == 0)%Q ->
  (detectBundleIndicators this == 0)%Q ->
  (detectModuleIndicators this == 0)%Q ->
  (detectVanillaIndicators this == 0)%Q ->
  fileType (analysis (detectFileType this)) = bundle
  /\ confidence (analysis (detectFileType this)) = 0%Z.
Proof.
  intros Ha Hb Hc Hd.
  unfold detectFileType. cbv zeta.
  cbn [map snd fold_left update analysis set_fileType fileType confidence].
  assert (Hscore : forall score weight : Q,
             (score == 0)%Q -> (Num.mul score weight == 0)%Q).
  { intros score weight H. unfold Num.mul. rewrite double_zero.
    - reflexivity.
    - rewrite H. ring. }
  pose proof (Hscore _ (Num.double (4 # 10)) Ha) as Ha'.
  pose proof (Hscore _ (Num.double (3 # 10)) Hb) as Hb'.
  pose proof (Hscore _ (Num.double (2 # 10)) Hc) as Hc'.
  pose proof (Hscore _ (Num.double (1 # 10)) Hd) as Hd'.
  clear Hscore.
  revert Ha' Hb' Hc' Hd'.
  generalize (Num.mul (detectWebpackIndicators this) (Num.double (4 # 10))).
  generalize (Num.mul (detectBundleIndicators this) (Num.double (3 # 10))).
  generalize (Num.mul (detectModuleIndicators this) (Num.double (2 # 10))).
  generalize (Num.mul (detectVanillaIndicators this) (Num.double (1 # 10))).
  intros d c b a Ha' Hb' Hc' Hd'.
  assert (Hmax : (Qmax (Qmax (Qmax a b) c) d == 0)%Q)
    by (repeat apply Qmax_zero; assumption).
  cbn [find snd fst].
  assert (E : Qeq_bool a (Qmax (Qmax (Qmax a b) c) d) = true).
  { apply Qeq_bool_iff.
    apply Qeq_trans with 0%Q; [exact Ha'|apply Qeq_sym; exact Hmax]. }
  rewrite E. split; [reflexivity|].
  unfold Num.mul. rewrite double_zero; [reflexivity|].
  rewrite Hmax. reflexivity.
Qed.

(** X27. The file type is decided for every text, and the analysis carries no
    insight. *)
Theorem fileType_is_decided (this : t) (text : string) :
  fileType (snd (analyzeFile this text)) <> unknown
  /\ insights (snd (analyzeFile this text)) = [].
Proof.
  destruct (lists_of_analysis this text) as (_ & _ & _ & _ & _ & _ & _ & -> & _).
  split; [apply detectFileType_decided|].
  rewrite analyzeFile_steps. apply generateInsights_insights.
Qed.

(** X28. A text without any of the indicators is taken for a bundle, with a
    confidence of zero. *)
Theorem unrecognised_text_is_a_bundle (this : t) (text : string) :
  Forall (fun score => (score == 0)%Q) (Notions.indicators text) ->
  fileType (snd (analyzeFile this text)) = bundle
  /\ confidence (snd (analyzeFile this text)) = 0%Z.
Proof.
  intro H. unfold Notions.indicators in H.
  inversion H as [|? ? Ha H1]; subst. inversion H1 as [|? ? Hb H2]; subst.
  inversion H2 as [|? ? Hc H3]; subst. inversion H3 as [|? ? Hd _]; subst.
  destruct (lists_of_analysis this text)
    as (_ & _ & _ & _ & _ & _ & _ & -> & ->).
  apply detectFileType_unrecognised; assumption.
Qed.

(** *** Libraries *)

Lemma detectLibraries_fold (table : list (string * list (string * Re.regex) * Q))
      (this : t) :
  let step :=
    fun (this : t) (library : string * list (string * Re.regex) * Q) =>
      let '(name, patterns, confidence) := library in
      let usageCount :=
        fold_left
          (fun usageCount pattern =>
             match Re.match_g (snd pattern) (content this) with
             | Some matches => usageCount + List.length matches
             | None => usageCount
             end)
          patterns 0 in
      if 0 <? usageCount
      then update
             (push_library
                (mkLibrary name confidence (map fst patterns) usageCount))
             this
      else this in
  exists flags,
    List.length flags = List.length table
    /\ map lib_name (libraries (analysis (fold_left step table this)))
       = map lib_name (libraries (analysis this))
         ++ Spec.select flags (map (fun library => fst (fst library)) table)
    /\ (Forall (fun l => 1 <= lib_usageCount l) (libraries (analysis this)) ->
        Forall (fun l => 1 <= lib_usageCount l)
               (libraries (analysis (fold_left step table this)))).
Proof.
  cbv zeta. revert this.
  induction table as [|[[name patterns] c] table IH]; intro this.
  - exists []. cbn [fold_left Spec.select map]. rewrite app_nil_r.
    repeat split. auto.
  - cbn [fold_left].
    match goal with
    | |- context [if 0 <? ?n then _ else _] =>
        destruct (Nat.ltb_spec 0 n) as [Hn|Hn]
    end.
    + match goal with
      | |- context [fold_left ?f table ?s] =>
          destruct (IH s) as (flags & Hlen & Hnames & Hall)
      end.
      exists (true :: flags). split; [cbn [List.length]; lia|].
      split.
      * rewrite Hnames.
        cbn [update analysis push_library libraries map Spec.select fst].
        rewrite map_app. cbn [map lib_name]. rewrite <- app_assoc. reflexivity.
      * intro H. apply Hall.
        cbn [update analysis push_library libraries].
        apply Forall_app. split; [exact H|].
        constructor; [cbn [lib_usageCount]; lia|constructor].
    + destruct (IH this) as (flags & Hlen & Hnames & Hall).
      exists (false :: flags). split; [cbn [List.length]; lia|].
      split; [rewrite Hnames; reflexivity|exact Hall].
Qed.

Lemma libraries_with_libraries text :
  exists flags,
    List.length flags = List.length libraryPatterns
    /\ map lib_name (libraries (analysis (Notions.with_libraries text)))
       = map lib_name (libraries (analysis (Notions.with_exports text)))
         ++ Spec.select flags Notions.library_names
    /\ (Forall (fun l => 1 <= lib_usageCount l)
               (libraries (analysis (Notions.with_exports text))) ->
        Forall (fun l => 1 <= lib_usageCount l)
               (libraries (analysis (Notions.with_libraries text)))).
Proof.
  unfold Notions.with_libraries, detectLibraries, Notions.library_names.
  apply (detectLibraries_fold libraryPatterns (Notions.with_exports text)).
Qed.

(** X29. The libraries come in the order of the table, each once at most, and
    each was seen once at least. *)
Theorem libraries_follow_the_table (this : t) (text : string) :
  let found := libraries (snd (analyzeFile this text)) in
  (exists flags,
      List.length flags = List.length Notions.library_names
      /\ map lib_name found = Spec.select flags Notions.library_names)
  /\ NoDup (map lib_name found)
  /\ Forall (fun l => 1 <= lib_usageCount l) found.
Proof.
  cbv zeta.
  destruct (lists_of_analysis this text) as (_ & _ & _ & _ & _ & -> & _).
  destruct (libraries_with_libraries text) as (flags & Hlen & Hnames & Hall).
  assert (Hnone : libraries (analysis (Notions.with_exports text)) = []).
  { destruct (with_exports_frame text) as (_ & _ & _ & _ & _ & _ & _ & H & _).
    rewrite H by discriminate.
    destruct (with_imports_frame text) as (_ & _ & _ & _ & _ & _ & _ & H1 & _).
    rewrite H1 by discriminate.
    destruct (with_classes_frame text) as (_ & _ & _ & _ & _ & _ & _ & H2 & _).
    rewrite H2 by discriminate.
    destruct (with_functions_frame text) as (_ & _ & _ & _ & _ & _ & _ & H3 & _).
    rewrite H3 by discriminate.
    destruct (typed_frame text) as (_ & _ & _ & _ & _ & _ & _ & H4 & _).
    rewrite H4 by discriminate. reflexivity. }
  rewrite Hnone in Hnames, Hall. cbn [map app] in Hnames.
  assert (Hfound : map lib_name (libraries (analysis (Notions.with_libraries text)))
                   = Spec.select flags Notions.library_names)
    by exact Hnames.
  split; [exists flags; split; [exact Hlen|exact Hfound]|].
  split; [|apply Hall; constructor].
  rewrite Hfound. apply select_NoDup.
  unfold Notions.library_names, libraryPatterns. cbn [map fst].
  repeat (constructor; [cbn [In]; intuition discriminate|]). constructor.
Qed.

End Steps.

Lemma unrecognised_text_is_a_bundle_witness :
  Forall (fun score => (score == 0)%Q) (Notions.indicators "hello world")
  /\ JavaScriptAnalyzer.fileType
       (snd (JavaScriptAnalyzer.analyzeFile JavaScriptAnalyzer.new "hello world"))
     = JavaScriptAnalyzer.bundle
  /\ JavaScriptAnalyzer.confidence
       (snd (JavaScriptAnalyzer.analyzeFile JavaScriptAnalyzer.new "hello world"))
     = 0%Z.
Proof.
  assert (H : Forall (fun score => (score == 0)%Q)
                     (Notions.indicators "hello world")).
  { repeat constructor. }
  split; [exact H|].
  apply (unrecognised_text_is_a_bundle JavaScriptAnalyzer.new "hello world" H).
Defined.
